(** * Air quality vs. age demographics: the analysis pipelines, embedded

    A shallow embedding of the Python scripts of the repository

      - PurpleAirDataAnalysis/main.py
      - PurpleAirDataAnalysis/purpleair_analysis.py
      - EPADataAnalysis/main.py
      - EPADataAnalysis/get_epa_data.py
      - TraxDataAnalsysis/sensorDataFinder.py
      - calculate_statistics.py

    Python floats are IEEE binary64 numbers and are modelled by Rocq's
    primitive floats, so that [0.778 * raw + 2.65] below is the very
    operation the interpreter performs.  Python integers are [Z], dictionaries
    are stdpp's [gmap], data frames are lists of rows or of named columns.
    Calls into pandas, geopandas and scipy whose results cannot be derived
    from the scripts (the mean of a column, a quantile, a group-by) are
    section variables.  What a web service answers is a value of the
    inductive type [PyJson.Json], and the request itself a section
    variable. *)

From Stdlib Require Import ZArith List String Ascii Bool Lia Floats.
From stdpp Require Import base gmap.
Import ListNotations.

Set Warnings "-inexact-float".
Set Default Proof Using "Type".

Local Open Scope string_scope.
Local Open Scope list_scope.

(* ===================================================================== *)
(** * Binary64 numbers *)
(* ===================================================================== *)

Module F64.

Local Open Scope float_scope.

(** [pd.isna] on a float. *)
Definition isna (x : float) : bool := is_nan x.

(** A finite, nonzero binary64 number. *)
Definition finite_nonzero (x : float) : Prop :=
  exists s m e, Prim2SF x = S754_finite s m e.

End F64.

(* ===================================================================== *)
(** * Python built-ins used on file names *)
(* ===================================================================== *)

Module Py.

(** Characters [str.split()] treats as separators (the ASCII ones):
    tab, newline, vertical tab, form feed, carriage return, the four
    information separators and the space. *)
Definition isspace (c : ascii) : bool :=
  let n := nat_of_ascii c in
  ((9 <=? n)%nat && (n <=? 13)%nat) || ((28 <=? n)%nat && (n <=? 32)%nat).

Fixpoint split_go (cur : list ascii) (s : list ascii) : list string :=
  match s with
  | [] =>
      match cur with
      | [] => []
      | _ => [string_of_list_ascii (rev cur)]
      end
  | c :: s' =>
      if isspace c then
        match cur with
        | [] => split_go [] s'
        | _ => string_of_list_ascii (rev cur) :: split_go [] s'
        end
      else split_go (c :: cur) s'
  end.

(** [s.split()]: the maximal runs of non-blank characters. *)
Definition split (s : string) : list string :=
  split_go [] (list_ascii_of_string s).

Fixpoint basename_go (cur : list ascii) (s : list ascii) : list ascii :=
  match s with
  | [] => rev cur
  | c :: s' =>
      if Ascii.eqb c "/"%char then basename_go [] s'
      else basename_go (c :: cur) s'
  end.

(** [os.path.basename(p)]: what follows the last slash. *)
Definition basename (p : string) : string :=
  string_of_list_ascii (basename_go [] (list_ascii_of_string p)).

Definition digit_val (c : ascii) : option Z :=
  let n := nat_of_ascii c in
  if (48 <=? n)%nat && (n <=? 57)%nat then Some (Z.of_nat (n - 48)) else None.

(** Decimal digits, with single underscores allowed between two digits.
    [after_digit] tells whether the previous character was a digit. *)
Fixpoint int_digits (acc : Z) (after_digit : bool) (s : list ascii)
  : option Z :=
  match s with
  | [] => if after_digit then Some acc else None
  | c :: s' =>
      match digit_val c with
      | Some d => int_digits (10 * acc + d) true s'
      | None =>
          if Ascii.eqb c "_"%char && after_digit
          then int_digits acc false s'
          else None
      end
  end.

(** [int(s)] on a string of ASCII characters without blanks: an optional
    sign and a decimal literal.  [None] stands for [ValueError]. *)
Definition int (s : string) : option Z :=
  match list_ascii_of_string s with
  | c :: s' =>
      if Ascii.eqb c "-"%char then option_map Z.opp (int_digits 0 false s')
      else if Ascii.eqb c "+"%char then int_digits 0 false s'
      else int_digits 0 false (c :: s')
  | [] => None
  end.

End Py.

(* ===================================================================== *)
(** * Data shared by the PurpleAir scripts *)
(* ===================================================================== *)

(** One entry of [air_data]:
    [{'lat': lat, 'lon': lon, 'pm25': corrected_pm25, 'sensor_id': sensor_id}]. *)
Record Row := mkRow {
  lat : float;
  lon : float;
  pm25 : float;
  sensor_id : Z
}.

(** What the scripts print inside the sensor loop and, of the lines that
    follow it, the three counters; the numbers are kept as numbers instead
    of being formatted.  The lines printed before the loop and the closing
    range and mean of [air_df] are left out. *)
Inductive Line :=
  | WarnDropped (sensor : Z) (value : float)
  | Progress (done total : nat)
  | Processed (n : nat)
  | Skipped (n : nat)
  | Outliers (n : nat).

(** A data frame as pandas hands it back from [pd.read_csv]: named columns,
    the column type being pandas' own. *)
Definition DataFrame (Series : Type) : Type := list (string * Series).

(** [df.columns] *)
Definition columns {Series} (df : DataFrame Series) : list string :=
  map fst df.

(** [c in df.columns] *)
Definition has_column {Series} (df : DataFrame Series) (c : string) : bool :=
  existsb (String.eqb c) (columns df).

(** [df[c]]; [None] stands for [KeyError]. *)
Fixpoint getitem {Series} (df : DataFrame Series) (c : string)
  : option Series :=
  match df with
  | [] => None
  | (name, col) :: df' =>
      if String.eqb c name then Some col else getitem df' c
  end.

(** A file found by [glob.glob]: its path and what [pd.read_csv] makes of
    it ([None] when the call raises). *)
Record SensorFile (Series : Type) := mkSensorFile {
  path : string;
  read_csv : option (DataFrame Series)
}.
Arguments mkSensorFile {Series} _ _.
Arguments path {Series} _.
Arguments read_csv {Series} _.

(** The dictionary built by [load_sensor_locations]. *)
Abbreviation SensorLookup := (gmap Z (float * float)).

Record DateRange := mkDateRange {
  start_date : option string;
  end_date : option string;
  interval : string
}.

(** A row of the shapefile's frame. *)
Record TractShape (Geometry : Type) := mkTractShape {
  GEOID : string;
  NAMELSAD : string;
  geometry : Geometry
}.
Arguments mkTractShape {Geometry} _ _ _.
Arguments GEOID {Geometry} _.
Arguments NAMELSAD {Geometry} _.
Arguments geometry {Geometry} _.

(** What [merge_geo_and_census] prints. *)
Inductive MergeLine :=
  | MergedCount (n : nat)
  | DroppedZero (n : nat)
  | DroppingOutliers (n : nat)
  | OutlierTract (name : string) (pop area : float)
  | FinalCount (n : nat).

(** [sensor_id = int(filename.split()[0])] on the base name of a path;
    [None] when indexing or [int] raises. *)
Definition sensor_id_of (csv_file : string) : option Z :=
  let filename := Py.basename csv_file in
  tok ← head (Py.split filename);
  Py.int tok.

(** The date range read off the first file name, common to both
    [process_purpleair_data] functions. *)
Definition date_range_of {Series} (csv_files : list (SensorFile Series))
  : DateRange :=
  let default := mkDateRange None None "60-Minute" in
  match csv_files with
  | [] => default
  | f :: _ =>
      let parts := Py.split (Py.basename (path f)) in
      if (4 <=? length parts)%nat then
        mkDateRange (nth_error parts 1) (nth_error parts 2)
                    (nth 3 parts "60-Minute")
      else default
  end.

(* ===================================================================== *)
(** * PurpleAirDataAnalysis/main.py, [process_purpleair_data] *)
(* ===================================================================== *)

Module PurpleAirMain.
Section Loop.
Local Open Scope float_scope.
Context {Series : Type}.
(** [Series.mean()]; [None] when it raises. *)
Variable mean : Series -> option float.
Variable sensor_lookup : SensorLookup.
Variable total_files : nat.

Record State := mkState {
  air_data : list Row;
  processed : nat;
  skipped : nat;
  out : list Line
}.

Definition skip (st : State) : State :=
  mkState (air_data st) (processed st) (S (skipped st)) (out st).

Definition print (l : Line) (st : State) : State :=
  mkState (air_data st) (processed st) (skipped st) (out st ++ [l]).

(** The body of the [try] block; [None] when an exception escapes it. *)
Definition body (st : State) (csv_file : SensorFile Series)
  : option State :=
  sensor_id ← sensor_id_of (path csv_file);
  match sensor_lookup !! sensor_id with
  | None => Some (skip st)
  | Some (lat, lon) =>
      df ← read_csv csv_file;
      if negb (has_column df "pm2.5_cf_1") then Some (skip st) else
      col ← getitem df "pm2.5_cf_1";
      raw_pm25 ← mean col;
      if F64.isna raw_pm25 then Some (skip st) else
      let corrected_pm25 := 0.778 * raw_pm25 + 2.65 in
      if 500 <? corrected_pm25 then
        Some (skip (print (WarnDropped sensor_id corrected_pm25) st))
      else
        let st1 :=
          mkState (air_data st ++ [mkRow lat lon corrected_pm25 sensor_id])
                  (S (processed st)) (skipped st) (out st) in
        Some (if (processed st1 mod 50 =? 0)%nat
              then print (Progress (processed st1) total_files) st1
              else st1)
  end.

(** One iteration: [except Exception: skipped += 1; continue]. *)
Definition step (st : State) (csv_file : SensorFile Series) : State :=
  match body st csv_file with
  | Some st' => st'
  | None => skip st
  end.

Definition loop (csv_files : list (SensorFile Series)) : State :=
  fold_left step csv_files (mkState [] 0 0 []).

End Loop.

(** [process_purpleair_data(purpleair_dir, sensor_lookup)], the directory
    being given by the files [glob] finds in it.  Returns the rows of
    [air_df], the date range and the final state of the counters. *)
Definition process_purpleair_data {Series} (mean : Series -> option float)
    (csv_files : list (SensorFile Series)) (sensor_lookup : SensorLookup)
  : list Row * DateRange * State :=
  let st := loop mean sensor_lookup (length csv_files) csv_files in
  let st := print (Processed (processed st)) st in
  let st := print (Skipped (skipped st)) st in
  (air_data st, date_range_of csv_files, st).


(** ** AQI bands: analysis plots, interactive markers, legend *)

Section Bands.
Local Open Scope float_scope.

(** Nested in [create_data_analysis_plots]; fills the column
    [aqi_category] of the box plot. *)
Definition get_aqi_category (pm25 : float) : string :=
  if pm25 <? 12 then "Good"
  else if pm25 <? 35 then "Moderate"
  else "Unhealthy".

Definition get_pm25_color (pm25_value : float) : string :=
  if pm25_value <? 12 then "green"
  else if pm25_value <? 35 then "orange"
  else "red".

(** The [status] that [create_interactive_map] works out for each marker. *)
Definition marker_status (pm25 : float) : string :=
  if pm25 <? 12 then "Good"
  else if pm25 <? 35 then "Moderate"
  else "Unhealthy for Sensitive Groups".

(** What a [folium.CircleMarker] of the sensor layer is built from. *)
Record Marker := mkMarker {
  location : float * float;
  fill_color : string;
  popup_sensor : Z;
  popup_pm25 : float;
  popup_status : string
}.

Definition marker_of (row : Row) : Marker :=
  let pm25 := pm25 row in
  let color := get_pm25_color pm25 in
  mkMarker (lat row, lon row) color (sensor_id row) pm25
           (marker_status pm25).

(** The sensor layer of [create_interactive_map]. *)
Definition air_layer (air_df : list Row) : list Marker :=
  map marker_of air_df.

(** The three entries of [legend_html]: disc colour and caption, the
    caption as the browser shows it. *)
Definition legend_entries : list (string * string) :=
  [ ("green", "Good (<12 µg/m³)");
    ("orange", "Moderate (12-35 µg/m³)");
    ("red", "Unhealthy (>35 µg/m³)") ].
End Bands.

(** ** [merge_geo_and_census] *)

(** A row of [census_df] as [process_census_data] returns it. *)
Record CensusRow := mkCensusRow {
  census_GEOID : string;
  NAME : string;
  pop_80_plus : float;
  pop_80_plus_pct : float
}.

Section Merge.
Local Open Scope float_scope.
Context {Geometry : Type}.
(** [geometry.area] of geopandas. *)
Variable area : Geometry -> float.
(** [Series.quantile(q)] of pandas, on the values of the series. *)
Variable quantile : list float -> float -> float.

(** A row of the merged frame: the columns of both sides, [GEOID] once. *)
Definition Merged : Type := TractShape Geometry * CensusRow.

(** [gdf.merge(census_df, on='GEOID', how='inner')]: every pair of rows
    with the same key, in the order of the left frame. *)
Definition inner_merge (gdf : list (TractShape Geometry))
    (census_df : list CensusRow) : list Merged :=
  flat_map
    (fun g =>
       map (fun c => (g, c))
           (List.filter (fun c => String.eqb (GEOID g) (census_GEOID c))
                        census_df))
    gdf.

Definition area_m2 (r : Merged) : float := area (geometry (fst r)).

(** [merged[merged['pop_80_plus'] > 0]] *)
Definition inhabited (merged : list Merged) : list Merged :=
  List.filter (fun r => 0 <? pop_80_plus (snd r)) merged.

(** [(merged['pop_80_plus'] < 10) & (merged['area_m2'] > area_95th)] *)
Definition outlier_mask (area_95th : float) (r : Merged) : bool :=
  (pop_80_plus (snd r) <? 10) && (area_95th <? area_m2 r).

Definition merge_geo_and_census (gdf : list (TractShape Geometry))
    (census_df : list CensusRow) : list Merged * list MergeLine :=
  let merged := inner_merge gdf census_df in
  let initial_count := length merged in
  let out := [MergedCount initial_count] in
  let merged := inhabited merged in
  let dropped_zero := (initial_count - length merged)%nat in
  let out := (out ++ [DroppedZero dropped_zero])%list in
  let area_95th := quantile (map area_m2 merged) 0.95 in
  let outlier_tracts := List.filter (outlier_mask area_95th) merged in
  let '(merged, out) :=
    if (0 <? length outlier_tracts)%nat then
      (List.filter (fun r => negb (outlier_mask area_95th r)) merged,
       (out ++ DroppingOutliers (length outlier_tracts)
            :: map (fun r => OutlierTract (NAMELSAD (fst r))
                                          (pop_80_plus (snd r)) (area_m2 r))
                   outlier_tracts)%list)
    else (merged, out) in
  (merged, (out ++ [FinalCount (length merged)])%list).
End Merge.

End PurpleAirMain.

(* ===================================================================== *)
(** * PurpleAirDataAnalysis/purpleair_analysis.py *)
(* ===================================================================== *)

Module PurpleAirAnalysis.

Local Open Scope float_scope.

Definition PM25_CORRECTION_SLOPE : float := 0.778.
Definition PM25_CORRECTION_INTERCEPT : float := 2.65.
(** The script writes the integer 500; comparing a float with it compares
    with the float 500.0, which is that integer exactly. *)
Definition PM25_OUTLIER_THRESHOLD : float := 500.

Section Loop.
Context {Series : Type}.
Variable mean : Series -> option float.
Variable sensor_lookup : SensorLookup.
Variable total_files : nat.

Record State := mkState {
  air_data : list Row;
  processed : nat;
  skipped : nat;
  outliers : nat;
  out : list Line
}.

Definition skip (st : State) : State :=
  mkState (air_data st) (processed st) (S (skipped st)) (outliers st)
          (out st).

Definition outlier (st : State) : State :=
  mkState (air_data st) (processed st) (skipped st) (S (outliers st))
          (out st).

Definition print (l : Line) (st : State) : State :=
  mkState (air_data st) (processed st) (skipped st) (outliers st)
          (out st ++ [l]).

(** The body of the [try] block; [None] when an exception escapes it. *)
Definition body (st : State) (csv_file : SensorFile Series)
  : option State :=
  sensor_id ← sensor_id_of (path csv_file);
  match sensor_lookup !! sensor_id with
  | None => Some (skip st)
  | Some (lat, lon) =>
      df ← read_csv csv_file;
      if negb (has_column df "pm2.5_cf_1") then Some (skip st) else
      col ← getitem df "pm2.5_cf_1";
      raw_pm25 ← mean col;
      if F64.isna raw_pm25 then Some (skip st) else
      let corrected_pm25 :=
        PM25_CORRECTION_SLOPE * raw_pm25 + PM25_CORRECTION_INTERCEPT in
      if PM25_OUTLIER_THRESHOLD <? corrected_pm25 then
        Some (outlier (print (WarnDropped sensor_id corrected_pm25) st))
      else
        let st1 :=
          mkState (air_data st ++ [mkRow lat lon corrected_pm25 sensor_id])
                  (S (processed st)) (skipped st) (outliers st) (out st) in
        Some (if (processed st1 mod 50 =? 0)%nat
              then print (Progress (processed st1) total_files) st1
              else st1)
  end.

(** One iteration: [except Exception as e: skipped += 1; continue]. *)
Definition step (st : State) (csv_file : SensorFile Series) : State :=
  match body st csv_file with
  | Some st' => st'
  | None => skip st
  end.

Definition loop (csv_files : list (SensorFile Series)) : State :=
  fold_left step csv_files (mkState [] 0 0 0 []).

End Loop.

Definition process_purpleair_data {Series} (mean : Series -> option float)
    (csv_files : list (SensorFile Series)) (sensor_lookup : SensorLookup)
  : list Row * DateRange * State :=
  let st := loop mean sensor_lookup (length csv_files) csv_files in
  let st := print (Processed (processed st)) st in
  let st := print (Skipped (skipped st)) st in
  let st := print (Outliers (outliers st)) st in
  (air_data st, date_range_of csv_files, st).

End PurpleAirAnalysis.

(* ===================================================================== *)
(** * calculate_statistics.py, the PurpleAir section *)
(* ===================================================================== *)

Module CalculateStatistics.
Section Loop.
Local Open Scope float_scope.
Context {Series : Type}.
Variable mean : Series -> option float.
Variable sensor_lookup : SensorLookup.

(** The body of the [try] block on the list [air_data]; every [continue]
    leaves the list as it is. *)
Definition body (air_data : list Row) (csv_file : SensorFile Series)
  : option (list Row) :=
  sensor_id ← sensor_id_of (path csv_file);
  match sensor_lookup !! sensor_id with
  | None => Some air_data
  | Some (lat, lon) =>
      df ← read_csv csv_file;
      if negb (has_column df "pm2.5_cf_1") then Some air_data else
      col ← getitem df "pm2.5_cf_1";
      raw_pm25 ← mean col;
      if F64.isna raw_pm25 then Some air_data else
      let corrected_pm25 := 0.778 * raw_pm25 + 2.65 in
      if 500 <? corrected_pm25 then Some air_data
      else Some (air_data ++ [mkRow lat lon corrected_pm25 sensor_id])%list
  end.

(** One iteration: [except: continue]. *)
Definition step (air_data : list Row) (csv_file : SensorFile Series)
  : list Row :=
  match body air_data csv_file with
  | Some air_data' => air_data'
  | None => air_data
  end.

(** The rows of [air_df] after the loop over [csv_files]. *)
Definition purpleair_rows (csv_files : list (SensorFile Series))
  : list Row :=
  fold_left step csv_files [].

End Loop.

(** ** The census section *)

(** A column of the census table as [pd.read_csv] types it: numbers, or
    objects (text cells, [None] for a missing one). *)
Inductive Column :=
  | NumCol (values : list float)
  | ObjCol (cells : list (option string)).

Definition Frame : Type := list (string * Column).

Inductive Exn :=
  | KeyError (key : string)
  | AttributeError
  | TypeError.

Definition bind {A B} (m : Exn + A) (k : A -> Exn + B) : Exn + B :=
  match m with
  | inl e => inl e
  | inr a => k a
  end.

(** [df[c]] *)
Fixpoint frame_get (df : Frame) (c : string) : Exn + Column :=
  match df with
  | [] => inl (KeyError c)
  | (name, col) :: df' =>
      if String.eqb c name then inr col else frame_get df' c
  end.

(** [df[c] = col]: the column is replaced where it stands, or added last. *)
Fixpoint frame_set (df : Frame) (c : string) (col : Column) : Frame :=
  match df with
  | [] => [(c, col)]
  | (name, old) :: df' =>
      if String.eqb c name then (name, col) :: df'
      else (name, old) :: frame_set df' c col
  end.

(** [Series.str]: only object columns have it. *)
Definition str (col : Column) : Exn + list (option string) :=
  match col with
  | ObjCol cells => inr cells
  | NumCol _ => inl AttributeError
  end.

(** [s.replace(old, new)] for a non-empty [old]; [skip] counts the
    characters of a match still to be dropped. *)
Fixpoint replace_go (old new : string) (skip : nat) (s : string) : string :=
  match s with
  | EmptyString => EmptyString
  | String c s' =>
      match skip with
      | S k => replace_go old new k s'
      | O =>
          if String.prefix old s
          then (new ++ replace_go old new (String.length old - 1) s')%string
          else String c (replace_go old new 0 s')
      end
  end.

Definition replace (old new s : string) : string := replace_go old new 0 s.

(** [a | b] on two object masks: a missing entry on either side gives
    [False]. *)
Definition mask_or (a b : list (option bool)) : list bool :=
  map (fun ab =>
         match ab with
         | (Some x, Some y) => x || y
         | _ => false
         end)
      (combine a b).

Fixpoint select {A} (mask : list bool) (l : list A) : list A :=
  match mask, l with
  | true :: mask', x :: l' => x :: select mask' l'
  | false :: mask', _ :: l' => select mask' l'
  | _, _ => []
  end.

Definition select_col (mask : list bool) (col : Column) : Column :=
  match col with
  | NumCol v => NumCol (select mask v)
  | ObjCol v => ObjCol (select mask v)
  end.

(** [df[mask]] *)
Definition frame_select (mask : list bool) (df : Frame) : Frame :=
  map (fun nc => (fst nc, select_col mask (snd nc))) df.

Definition frame_len (df : Frame) : nat :=
  match df with
  | [] => 0
  | (_, NumCol v) :: _ => length v
  | (_, ObjCol v) :: _ => length v
  end.

(** [col > 0] *)
Definition gt_zero (col : Column) : Exn + list bool :=
  match col with
  | NumCol v => inr (map (fun x => (0 <? x)%float) v)
  | ObjCol v =>
      if forallb (fun c => match c with None => true | Some _ => false end) v
      then inr (map (fun _ => false) v)
      else inl TypeError
  end.

Inductive CensusLine :=
  | CensusBanner
  | PopulationSummary
  | TotalTracts (n : nat)
  | InhabitedTracts (n : nat)
  | TotalPopulation (x : float).

Definition age_columns : list string :=
  ["B01001_020E"; "B01001_021E"; "B01001_022E"; "B01001_023E";
   "B01001_024E"; "B01001_025E"; "B01001_044E"; "B01001_045E";
   "B01001_046E"; "B01001_047E"; "B01001_048E"; "B01001_049E"].

Section Census.
Local Open Scope float_scope.
(** [pd.to_numeric(errors='coerce')] on one text cell: its value, NaN
    when it is not a number. *)
Variable to_numeric : string -> float.
(** The sum pandas makes of a list of numbers, NaN skipped. *)
Variable nansum : list float -> float.

Definition to_numeric_coerce (col : Column) : list float :=
  match col with
  | NumCol v => v
  | ObjCol v =>
      map (fun c => match c with Some s => to_numeric s | None => nan end) v
  end.

Definition fillna (fill : float) (v : list float) : list float :=
  map (fun x => if F64.isna x then fill else x) v.

(** [for col in age_columns:
       df[col] = pd.to_numeric(df[col], errors='coerce').fillna(0)] *)
Fixpoint convert_columns (cols : list string) (df : Frame) : Exn + Frame :=
  match cols with
  | [] => inr df
  | col :: cols' =>
      bind (frame_get df col) (fun c =>
      convert_columns cols'
        (frame_set df col (NumCol (fillna 0 (to_numeric_coerce c)))))
  end.

(** [df[cols]] as lists of numbers. *)
Fixpoint numeric_columns (cols : list string) (df : Frame)
  : Exn + list (list float) :=
  match cols with
  | [] => inr []
  | col :: cols' =>
      bind (frame_get df col) (fun c =>
      bind (numeric_columns cols' df) (fun rest =>
      inr (to_numeric_coerce c :: rest)))
  end.

(** [.sum(axis=1)]: one sum per row of the frame. *)
Definition sum_axis1 (n : nat) (cols : list (list float)) : list float :=
  map (fun i => nansum (map (fun col => nth i col nan) cols)) (seq 0 n).

(** The frames [study_area] and [inhabited], in the order the script
    computes them. *)
Definition census_frames (df_census : Frame) : Exn + (Frame * Frame) :=
  bind (convert_columns age_columns df_census) (fun df =>
  bind (numeric_columns age_columns df) (fun ages =>
  let df := frame_set df "pop_65_plus"
              (NumCol (sum_axis1 (frame_len df) ages)) in
  bind (frame_get df "GEO_ID") (fun geo_id =>
  bind (str geo_id) (fun cells =>
  let df := frame_set df "GEOID"
              (ObjCol (map (option_map (replace "1400000US" "")) cells)) in
  bind (frame_get df "GEOID") (fun geoid =>
  bind (str geoid) (fun cells =>
  let salt_lake_mask := map (option_map (String.prefix "49035")) cells in
  let davis_mask := map (option_map (String.prefix "49011")) cells in
  let study_area := frame_select (mask_or salt_lake_mask davis_mask) df in
  bind (frame_get study_area "pop_80_plus") (fun pop =>
  bind (gt_zero pop) (fun mask =>
  let inhabited := frame_select mask study_area in
  inr (study_area, inhabited))))))))).

(** The census section up to its first summary: what it prints and how
    it ends. *)
Definition census_section (df_census : Frame)
  : list CensusLine * (Exn + unit) :=
  match census_frames df_census with
  | inl e => ([CensusBanner], inl e)
  | inr (study_area, inhabited) =>
      match frame_get inhabited "pop_80_plus" with
      | inl e => ([CensusBanner; PopulationSummary;
                   TotalTracts (frame_len study_area);
                   InhabitedTracts (frame_len inhabited)], inl e)
      | inr pop =>
          ([CensusBanner; PopulationSummary;
            TotalTracts (frame_len study_area);
            InhabitedTracts (frame_len inhabited);
            TotalPopulation (nansum (to_numeric_coerce pop))], inr tt)
      end
  end.
End Census.

End CalculateStatistics.

(* ===================================================================== *)
(** * EPADataAnalysis/main.py *)
(* ===================================================================== *)

Module EPAMain.

(** Days from 1970-01-01 to the given day of the proleptic Gregorian
    calendar. *)
Definition days_from_civil (y m d : Z) : Z :=
  let y := if (m <=? 2)%Z then (y - 1)%Z else y in
  let era := (y / 400)%Z in
  let yoe := (y - era * 400)%Z in
  let mp := ((m + 9) mod 12)%Z in
  let doy := ((153 * mp + 2) / 5 + d - 1)%Z in
  let doe := (yoe * 365 + yoe / 4 - yoe / 100 + doy)%Z in
  (era * 146097 + doe - 719468)%Z.

(** A [pd.Timestamp]: nanoseconds since the epoch. *)
Definition Timestamp : Type := Z.

(** The timestamp a date string ["YYYY-MM-DD"] is compared as: midnight of
    that day. *)
Definition midnight (y m d : Z) : Timestamp :=
  (days_from_civil y m d * 86400 * 1000000000)%Z.

(** [INVERSION_START = "2025-01-01"], [INVERSION_END = "2025-01-30"] *)
Definition INVERSION_START : Timestamp := midnight 2025 1 1.
Definition INVERSION_END : Timestamp := midnight 2025 1 30.

(** A row of [census_df] as this script's [process_census_data] returns
    it. *)
Record CensusRow := mkCensusRow {
  census_GEOID : string;
  NAME : string;
  pop_65_plus : float;
  pop_65_plus_pct : float;
  pop_85_plus : float;
  pop_85_plus_pct : float
}.

Section Merge.
Local Open Scope float_scope.
Context {Geometry : Type}.
Variable area : Geometry -> float.
Variable quantile : list float -> float -> float.

Definition Merged : Type := TractShape Geometry * CensusRow.

Definition inner_merge (gdf : list (TractShape Geometry))
    (census_df : list CensusRow) : list Merged :=
  flat_map
    (fun g =>
       map (fun c => (g, c))
           (List.filter (fun c => String.eqb (GEOID g) (census_GEOID c))
                        census_df))
    gdf.

Definition area_m2 (r : Merged) : float := area (geometry (fst r)).

(** [merged[merged['pop_65_plus'] > 0]] *)
Definition inhabited (merged : list Merged) : list Merged :=
  List.filter (fun r => 0 <? pop_65_plus (snd r)) merged.

(** [(merged['pop_65_plus'] < 10) & (merged['area_m2'] > area_95th)] *)
Definition outlier_mask (area_95th : float) (r : Merged) : bool :=
  (pop_65_plus (snd r) <? 10) && (area_95th <? area_m2 r).

Definition merge_geo_and_census (gdf : list (TractShape Geometry))
    (census_df : list CensusRow) : list Merged * list MergeLine :=
  let merged := inner_merge gdf census_df in
  let initial_count := length merged in
  let out := [MergedCount initial_count] in
  let merged := inhabited merged in
  let dropped_zero := (initial_count - length merged)%nat in
  let out := (out ++ [DroppedZero dropped_zero])%list in
  let area_95th := quantile (map area_m2 merged) 0.95 in
  let outlier_tracts := List.filter (outlier_mask area_95th) merged in
  let '(merged, out) :=
    if (0 <? length outlier_tracts)%nat then
      (List.filter (fun r => negb (outlier_mask area_95th r)) merged,
       (out ++ [DroppingOutliers (length outlier_tracts)])%list)
    else (merged, out) in
  (merged, (out ++ [FinalCount (length merged)])%list).
End Merge.

(** ** [process_epa_data] *)

(** A row of [epa_utah_data.csv] once [date_local] has gone through
    [pd.to_datetime]; [None] is [NaT]. *)
Record EpaRecord := mkEpaRecord {
  date_local : option Timestamp;
  site_number : Z;
  local_site_name : string;
  latitude : float;
  longitude : float;
  pm25_value : float
}.

(** A row of [epa_sites]. *)
Record EpaSite := mkEpaSite {
  site : Z;
  site_name : string;
  site_latitude : float;
  site_longitude : float;
  site_pm25 : float
}.

Inductive EpaLine :=
  | Loaded (n : nat)
  | FilteredTo (n : nat)
  | WarnNoData
  | AvailableDates (earliest latest : option Timestamp)
  | UsingAll (n : nat)
  | Aggregated (n : nat).

(** [(date >= INVERSION_START) & (date <= INVERSION_END)]; a comparison
    with [NaT] is false. *)
Definition in_window (r : EpaRecord) : bool :=
  match date_local r with
  | Some t => (INVERSION_START <=? t)%Z && (t <=? INVERSION_END)%Z
  | None => false
  end.

(** [Series.min()] and [Series.max()] on timestamps, [NaT] skipped. *)
Definition ts_min (l : list (option Timestamp)) : option Timestamp :=
  fold_left (fun acc x =>
               match acc, x with
               | Some a, Some b => Some (Z.min a b)
               | None, _ => x
               | _, None => acc
               end) l None.

Definition ts_max (l : list (option Timestamp)) : option Timestamp :=
  fold_left (fun acc x =>
               match acc, x with
               | Some a, Some b => Some (Z.max a b)
               | None, _ => x
               | _, None => acc
               end) l None.

Section Process.
(** [groupby(['site_number', 'local_site_name', 'latitude', 'longitude'])
     .agg({'pm25_value': 'mean'}).reset_index()] of pandas. *)
Variable groupby_mean : list EpaRecord -> list EpaSite.

Definition process_epa_data (df : list EpaRecord)
  : (list EpaSite * list EpaRecord) * list EpaLine :=
  let out := [Loaded (length df)] in
  let df_filtered := List.filter in_window df in
  let out := (out ++ [FilteredTo (length df_filtered)])%list in
  let '(df_filtered, out) :=
    if (length df_filtered =? 0)%nat then
      (df,
       (out ++ [WarnNoData;
                AvailableDates (ts_min (map date_local df))
                               (ts_max (map date_local df));
                UsingAll (length df)])%list)
    else (df_filtered, out) in
  let epa_sites := groupby_mean df_filtered in
  ((epa_sites, df_filtered),
   (out ++ [Aggregated (length epa_sites)])%list).
End Process.

End EPAMain.

(* ===================================================================== *)
(** * Notions used to state the properties *)
(* ===================================================================== *)

(** None of the definitions of this part is in the scripts: they name what
    the properties below talk about. *)

Section ReadingSpec.
Local Open Scope float_scope.
Context {Series : Type}.
Variable mean : Series -> option float.
Variable sensor_lookup : SensorLookup.

(** The row a file yields when every check of the loop body passes.
    This function is not in the scripts: it is the common reading of
    their three loops, used to compare them. *)
Definition kept_reading (csv_file : SensorFile Series) : option Row :=
  sensor_id ← sensor_id_of (path csv_file);
  location ← sensor_lookup !! sensor_id;
  df ← read_csv csv_file;
  col ← getitem df "pm2.5_cf_1";
  raw_pm25 ← mean col;
  let corrected_pm25 := 0.778 * raw_pm25 + 2.65 in
  if F64.isna raw_pm25 || (500 <? corrected_pm25) then None
  else Some (mkRow (fst location) (snd location) corrected_pm25 sensor_id).

Definition option_to_list {A} (o : option A) : list A :=
  match o with
  | Some a => [a]
  | None => []
  end.

Definition kept_rows (csv_files : list (SensorFile Series)) : list Row :=
  flat_map (fun f => option_to_list (kept_reading f))
           csv_files.

(** The base name does not start with an integer: [int] raises. *)
Definition bad_name (f : SensorFile Series) : Prop :=
  sensor_id_of (path f) = None.

(** The sensor id is not a key of the lookup. *)
Definition missing_location (f : SensorFile Series) : Prop :=
  exists i, sensor_id_of (path f) = Some i /\ sensor_lookup !! i = None.

(** [pd.read_csv] raises. *)
Definition unreadable (f : SensorFile Series) : Prop :=
  read_csv f = None.

(** The frame has no column [pm2.5_cf_1]. *)
Definition missing_column (f : SensorFile Series) : Prop :=
  exists df, read_csv f = Some df /\ has_column df "pm2.5_cf_1" = false.

(** Taking the mean of the column raises. *)
Definition mean_raises (f : SensorFile Series) : Prop :=
  exists df col,
    read_csv f = Some df /\ getitem df "pm2.5_cf_1" = Some col /\
    mean col = None.

(** The mean of the column is NaN. *)
Definition mean_is_nan (f : SensorFile Series) : Prop :=
  exists df col raw,
    read_csv f = Some df /\ getitem df "pm2.5_cf_1" = Some col /\
    mean col = Some raw /\ F64.isna raw = true.

(** The corrected value exceeds 500. *)
Definition implausible (f : SensorFile Series) : Prop :=
  exists df col raw,
    read_csv f = Some df /\ getitem df "pm2.5_cf_1" = Some col /\
    mean col = Some raw /\ (500 <? 0.778 * raw + 2.65) = true.
End ReadingSpec.

Section MergeSpec.
Local Open Scope float_scope.
Context {Geometry : Type}.
Variable area : Geometry -> float.
Variable quantile : list float -> float -> float.

(** The threshold [area_95th] the two functions compute: the quantile of
    the areas of the joined rows that passed the population filter. *)
Definition main_area_95th (gdf : list (TractShape Geometry))
    (census_df : list PurpleAirMain.CensusRow) : float :=
  quantile
    (map (PurpleAirMain.area_m2 area)
         (PurpleAirMain.inhabited
            (PurpleAirMain.inner_merge gdf census_df)))
    0.95.

Definition epa_area_95th (gdf : list (TractShape Geometry))
    (census_df : list EPAMain.CensusRow) : float :=
  quantile
    (map (EPAMain.area_m2 area)
         (EPAMain.inhabited (EPAMain.inner_merge gdf census_df)))
    0.95.
End MergeSpec.

(** The column names of a census table. *)
Definition names (df : CalculateStatistics.Frame) : list string := map fst df.

(* ===================================================================== *)
(** * A small sensor directory *)
(* ===================================================================== *)

Module Demo.
Local Open Scope float_scope.

(** A stand-in for a pandas column: numbers, or text. *)
Inductive Series :=
  | Numbers (values : list float)
  | Text (cells : list string).

(** A stand-in for [Series.mean()]: the numbers that are not NaN are
    added from left to right and divided by their count; NaN when there
    is none; an exception on text. *)
Definition mean (s : Series) : option float :=
  match s with
  | Numbers values =>
      let total :=
        fold_left (fun acc x => if F64.isna x then acc else acc + x)
                  values 0 in
      let count :=
        fold_left (fun acc x => if F64.isna x then acc else acc + 1)
                  values 0 in
      Some (if count =? 0 then nan else total / count)
  | Text _ => None
  end.

Definition sensor_lookup : SensorLookup :=
  <[ 100865%Z := (40.7608, -111.891) ]>
    (<[ 100867%Z := (40.89, -111.88) ]>
       (<[ 100871%Z := (40.66, -111.95) ]> ∅)).

Definition dir : string :=
  "../Data/PurpleAirData-Pm2.5Data/PurpleAir Download 1-25-2026/".

(** Hourly readings 38 and 42: raw average 40. *)
Definition steady : SensorFile Series :=
  mkSensorFile
    (dir ++ "100865 2026-01-01 2026-01-25 60-Minute Average.csv")%string
    (Some [ ("time_stamp", Text ["2026-01-01T00:00:00Z";
                                 "2026-01-01T01:00:00Z"]);
            ("humidity", Numbers [55; 54]);
            ("pm2.5_cf_1", Numbers [38; 42]) ]).

(** The concentration column holds text. *)
Definition garbled : SensorFile Series :=
  mkSensorFile
    (dir ++ "100867 2026-01-01 2026-01-25 60-Minute Average.csv")%string
    (Some [ ("time_stamp", Text ["2026-01-01T00:00:00Z"]);
            ("pm2.5_cf_1", Text ["sensor fault"]) ]).

(** A stuck sensor: raw average 1000. *)
Definition stuck : SensorFile Series :=
  mkSensorFile
    (dir ++ "100871 2026-01-01 2026-01-25 60-Minute Average.csv")%string
    (Some [ ("time_stamp", Text ["2026-01-01T00:00:00Z"]);
            ("pm2.5_cf_1", Numbers [1000]) ]).

(** A sensor that is not in the master list. *)
Definition unlisted : SensorFile Series :=
  mkSensorFile
    (dir ++ "424242 2026-01-01 2026-01-25 60-Minute Average.csv")%string
    (Some [ ("pm2.5_cf_1", Numbers [7]) ]).

(** A file of the directory that is not a sensor export. *)
Definition stray : SensorFile Series :=
  mkSensorFile (dir ++ "notes on sensors.csv")%string
    (Some [ ("sensor", Text ["100865"]); ("pm2.5_cf_1", Numbers [7]) ]).

Definition csv_files : list (SensorFile Series) :=
  [steady; garbled; stuck; unlisted; stray].
End Demo.

(** Two rows in the layout of the ACS table B01001: a tract of Salt Lake
    County and one of another county. *)
Module DemoCensus.
Import CalculateStatistics.
Local Open Scope float_scope.

(** Stand-ins for pandas: no text cell is a number; sums go from left
    to right. *)
Definition to_numeric (s : string) : float := nan.

Definition nansum (l : list float) : float :=
  fold_left (fun acc x => if F64.isna x then acc else acc + x) l 0.

Definition acs : Frame :=
  [ ("GEO_ID", ObjCol [Some "1400000US49035100100";
                       Some "1400000US49057210100"]);
    ("NAME", ObjCol [Some "Census Tract 1001; Salt Lake County; Utah";
                     Some "Census Tract 2101; Weber County; Utah"]);
    ("B01001_001E", NumCol [3200; 4100]);
    ("B01001_020E", NumCol [30; 41]); ("B01001_021E", NumCol [44; 52]);
    ("B01001_022E", NumCol [61; 70]); ("B01001_023E", NumCol [38; 45]);
    ("B01001_024E", NumCol [20; 12]); ("B01001_025E", NumCol [9; 7]);
    ("B01001_044E", NumCol [33; 40]); ("B01001_045E", NumCol [47; 58]);
    ("B01001_046E", NumCol [66; 75]); ("B01001_047E", NumCol [42; 51]);
    ("B01001_048E", NumCol [27; 19]); ("B01001_049E", NumCol [15; 11]) ].

(** The same table with a column [pop_80_plus] written into the file. *)
Definition acs_with_pop_80_plus : Frame :=
  acs ++ [("pop_80_plus", NumCol [71; 49])].
End DemoCensus.

(* ===================================================================== *)
(** * Three tracts and a percentile *)
(* ===================================================================== *)

Module DemoMerge.
Local Open Scope float_scope.

Fixpoint insert_sorted (x : float) (l : list float) : list float :=
  match l with
  | [] => [x]
  | y :: l' => if x <=? y then x :: l else y :: insert_sorted x l'
  end.

Definition sorted (l : list float) : list float :=
  fold_right insert_sorted [] l.

Fixpoint float_of_nat (n : nat) : float :=
  match n with
  | O => 0
  | S k => float_of_nat k + 1
  end.

(** A stand-in for [Series.quantile(q)] of pandas with its default,
    linear interpolation: the position [(n - 1) * q] in the sorted
    values, and between the two values around it the point at the
    fraction of the position. *)
Definition quantile (values : list float) (q : float) : float :=
  let v := sorted values in
  let n := length v in
  let pos := float_of_nat (n - 1) * q in
  let lo :=
    length (List.filter (fun k => float_of_nat k <=? pos) (seq 1 (n - 1))) in
  let frac := pos - float_of_nat lo in
  let a := nth lo v nan in
  let b := nth (Nat.min (S lo) (n - 1)) v nan in
  a + (b - a) * frac.

(** Three tracts; the geometry of a tract stands for its area, in square
    metres. *)
Definition gdf : list (TractShape float) :=
  [ mkTractShape "49035100100" "Census Tract 1001" 1000000;
    mkTractShape "49035100200" "Census Tract 1002" 2000000;
    mkTractShape "49035100300" "Census Tract 1003" 3000000 ].

Definition census_df : list PurpleAirMain.CensusRow :=
  [ PurpleAirMain.mkCensusRow "49035100100" "Tract 1001" 5 0.25;
    PurpleAirMain.mkCensusRow "49035100200" "Tract 1002" 5 0.25;
    PurpleAirMain.mkCensusRow "49035100300" "Tract 1003" 5 0.25 ].

End DemoMerge.

(* ===================================================================== *)
(** * Further notions: file names *)
(* ===================================================================== *)

(** A character of a field of a file name: a printable ASCII character
    other than the slash and the backslash.  On names made of such
    fields [str.split], [int] and [os.path.basename] of Python are what
    [Py.split], [Py.int] and [Py.basename] compute. *)
Definition field_char (c : ascii) : bool :=
  let n := nat_of_ascii c in
  (33 <=? n)%nat && (n <=? 126)%nat
  && negb (Ascii.eqb c "/"%char) && negb (Ascii.eqb c "\"%char).

(** A field: not empty, made of such characters. *)
Definition file_name_field (s : string) : Prop :=
  s <> "" /\ forallb field_char (list_ascii_of_string s) = true.

(** The name the PurpleAir download tool gives a sensor export. *)
Definition export_name (id start_ end_ interval_ : string) : string :=
  (id ++ " " ++ start_ ++ " " ++ end_ ++ " " ++ interval_
      ++ " Average.csv")%string.

(* ===================================================================== *)
(** * PurpleAirDataAnalysis/main.py, the rest of the pipeline *)
(* ===================================================================== *)

Module PurpleAirPipeline.

(** A number as pandas hands it over: a Python int or a float. *)
Inductive Number :=
  | PyInt (z : Z)
  | PyFloat (x : float).

(** [int(x)] on a float: the integer part, towards zero; [None] stands
    for the [ValueError] on NaN and the [OverflowError] on an infinity. *)
Definition int_of_float (x : float) : option Z :=
  match Prim2SF x with
  | S754_zero _ => Some 0%Z
  | S754_finite s m e =>
      let a := Z.shiftl (Zpos m) e in
      Some (if s then (- a)%Z else a)
  | S754_infinity _ | S754_nan => None
  end.

Definition int_of_number (n : Number) : option Z :=
  match n with
  | PyInt z => Some z
  | PyFloat x => int_of_float x
  end.

(** A row of [master_sensor_list.csv] as [iterrows] yields it, for a
    list that has the three columns the scripts read, with numbers in
    them; [MasterList] below takes a list of any columns and cells. *)
Record MasterRow := mkMasterRow {
  sensor_index : Number;
  latitude : float;
  longitude : float
}.

(** [load_sensor_locations], on the rows of such a list; [None] when
    [int] raises on some row. *)
Definition load_sensor_locations (sensors : list MasterRow)
  : option SensorLookup :=
  fold_left
    (fun (acc : option SensorLookup) (row : MasterRow) =>
       sensor_lookup ← acc;
       i ← int_of_number (sensor_index row);
       Some (<[ i := (latitude row, longitude row) ]> sensor_lookup))
    sensors (Some ∅).

(** ** Counts and boxes of the analysis plots and of the interactive map *)

Section Summaries.
Local Open Scope float_scope.

Definition count_rows (p : float -> bool) (air_df : list Row) : nat :=
  length (List.filter (fun row => p (pm25 row)) air_df).

(** The three numbers of the line [Sensor summary] that closes
    [create_interactive_map], which are also [good_count],
    [moderate_count] and [unhealthy_count] of the statistics table. *)
Definition sensor_summary (air_df : list Row) : nat * nat * nat :=
  let good := count_rows (fun v => v <? 12) air_df in
  let moderate := count_rows (fun v => (12 <=? v) && (v <? 35)) air_df in
  let unhealthy := count_rows (fun v => 35 <=? v) air_df in
  (good, moderate, unhealthy).

(** A box of the box plot: the category and the count of its tick label,
    the values it summarises and the colour it is filled with. *)
Record Box := mkBox {
  box_category : string;
  box_n : nat;
  box_values : list float;
  facecolor : string
}.

Definition categories : list string := ["Good"; "Moderate"; "Unhealthy"].

(** [category_data] and [category_labels]: the values of each category
    that has some, in the order of [categories]. *)
Definition category_data (air_df : list Row) : list (string * list float) :=
  flat_map
    (fun cat =>
       let cat_data :=
         map pm25
             (List.filter
                (fun row =>
                   String.eqb (PurpleAirMain.get_aqi_category (pm25 row)) cat)
                air_df) in
       if (0 <? length cat_data)%nat then [(cat, cat_data)] else [])
    categories.

(** The boxes [ax2.boxplot] draws, one per entry of [category_data], each
    filled with the colour that [zip] pairs it with. *)
Definition boxes (air_df : list Row) : list Box :=
  let data := category_data air_df in
  let colors := ["green"; "orange"; "red"] in
  map (fun dc => mkBox (fst (fst dc)) (length (snd (fst dc)))
                       (snd (fst dc)) (snd dc))
      (combine data (firstn (length data) colors)).
End Summaries.

(** ** [geometry_to_path] *)

Inductive Code := MOVETO | LINETO | CLOSEPOLY.

(** A coordinate of a ring: a pair of numbers, or a triple when the
    geometry has a third dimension. *)
Inductive Coord :=
  | XY (x y : float)
  | XYZ (x y z : float).

(** A shapely polygon: the coordinates of its exterior ring and of its
    interior rings. *)
Record Polygon := mkPolygon {
  exterior : list Coord;
  interiors : list (list Coord)
}.

Inductive Geometry :=
  | APolygon (p : Polygon)
  | AMultiPolygon (geoms : list Polygon)
  | AnotherGeometry.

(** [MOVETO], then [[LINETO] * (len(coords) - 2)], then [CLOSEPOLY]; a
    list times a negative number is empty. *)
Definition ring_codes (coords : list Coord) : list Code :=
  MOVETO :: repeat LINETO (length coords - 2) ++ [CLOSEPOLY].

(** The rings of a polygon in the order the function visits them. *)
Definition rings (polygon : Polygon) : list (list Coord) :=
  exterior polygon :: interiors polygon.

(** What [Path] holds once built. *)
Record PathData := mkPath {
  vertices : list Coord;
  codes : list Code
}.

Inductive PathError := ValueError.

Definition is_XY (c : Coord) : bool :=
  match c with
  | XY _ _ => true
  | XYZ _ _ _ => false
  end.

(** [Path(vertices, codes)] of matplotlib.  The constructor raises
    [ValueError] unless the vertices make an array of N rows and two
    columns, which an empty list does not, the codes are as many as the
    vertices, and the first code is [MOVETO]. *)
Definition Path (vertices : list Coord) (codes : list Code)
  : PathError + PathData :=
  match vertices with
  | [] => inl ValueError
  | _ :: _ =>
      if forallb is_XY vertices
         && (length codes =? length vertices)%nat
         && match codes with
            | MOVETO :: _ => true
            | [] => true
            | _ => false
            end
      then inr (mkPath vertices codes)
      else inl ValueError
  end.

(** The lists [vertices] and [codes] that the loops of
    [geometry_to_path] build. *)
Definition path_arguments (geometry : Geometry)
  : list Coord * list Code :=
  let polygons :=
    match geometry with
    | AMultiPolygon geoms => geoms
    | APolygon p => [p]
    | AnotherGeometry => []
    end in
  fold_left
    (fun (acc : list Coord * list Code) (polygon : Polygon) =>
       fold_left
         (fun (acc : list Coord * list Code) (coords : list Coord) =>
            (fst acc ++ coords, snd acc ++ ring_codes coords))
         (rings polygon) acc)
    polygons ([], []).

Definition geometry_to_path (geometry : Geometry)
  : PathError + PathData :=
  let '(vertices, codes) := path_arguments geometry in
  Path vertices codes.

(** ** [load_and_filter_shapefile] *)

Section Shapefile.
Context {Geometry : Type}.
(** [to_crs(epsg=3857)] of geopandas on one geometry. *)
Variable to_crs : Geometry -> Geometry.

Definition SALT_LAKE_COUNTY : string := "49035".
Definition DAVIS_COUNTY : string := "49011".

Definition load_and_filter_shapefile (gdf : list (TractShape Geometry))
  : list (TractShape Geometry) :=
  let gdf_filtered :=
    List.filter
      (fun t => String.prefix SALT_LAKE_COUNTY (GEOID t)
                || String.prefix DAVIS_COUNTY (GEOID t))
      gdf in
  map (fun t => mkTractShape (GEOID t) (NAMELSAD t) (to_crs (geometry t)))
      gdf_filtered.
End Shapefile.

(** ** [process_census_data] *)

Section Census.
Local Open Scope float_scope.
Import CalculateStatistics.
Variable to_numeric : string -> float.
Variable nansum : list float -> float.

Definition age_columns_80 : list string :=
  ["B01001_024E"; "B01001_025E"; "B01001_048E"; "B01001_049E"].

(** [total.replace(0, 1)] *)
Definition replace_zero (v : list float) : list float :=
  map (fun x => if x =? 0 then 1 else x) v.

(** [(pop / total) * 100], row by row. *)
Definition percentage (pop total : list float) : list float :=
  map (fun pt => fst pt / snd pt * 100) (combine pop total).

(** [df[cols]] *)
Fixpoint frame_project (cols : list string) (df : Frame) : Exn + Frame :=
  match cols with
  | [] => inr []
  | c :: cols' =>
      bind (frame_get df c) (fun col =>
      bind (frame_project cols' df) (fun rest =>
      inr ((c, col) :: rest)))
  end.

Definition process_census_data (df : Frame) : Exn + Frame :=
  bind (convert_columns to_numeric age_columns_80 df) (fun df =>
  bind (numeric_columns to_numeric age_columns_80 df) (fun ages =>
  let pop_80_plus := sum_axis1 nansum (frame_len df) ages in
  let df := frame_set df "pop_80_plus" (NumCol pop_80_plus) in
  bind (frame_get df "B01001_001E") (fun total =>
  let total_pop := fillna 0 (to_numeric_coerce to_numeric total) in
  let df := frame_set df "total_pop" (NumCol total_pop) in
  bind (frame_get df "pop_80_plus") (fun pop =>
  bind (frame_get df "total_pop") (fun total =>
  let df := frame_set df "pop_80_plus_pct"
              (NumCol (percentage (to_numeric_coerce to_numeric pop)
                         (replace_zero (to_numeric_coerce to_numeric total))))
  in
  bind (frame_get df "GEO_ID") (fun geo_id =>
  bind (str geo_id) (fun cells =>
  let df := frame_set df "GEOID"
              (ObjCol (map (option_map (replace "1400000US" "")) cells)) in
  frame_project ["GEOID"; "NAME"; "pop_80_plus"; "pop_80_plus_pct"] df))))))).
End Census.

End PurpleAirPipeline.

(** The rows of the master list that carry the index [i]. *)
Definition rows_of_sensor (i : Z)
    (sensors : list PurpleAirPipeline.MasterRow)
  : list PurpleAirPipeline.MasterRow :=
  List.filter
    (fun r =>
       match PurpleAirPipeline.int_of_number
               (PurpleAirPipeline.sensor_index r) with
       | Some j => (j =? i)%Z
       | None => false
       end)
    sensors.

(** Markers of the sensor layer filled with a given colour, and rows
    whose value is NaN. *)
Definition markers_of_colour (c : string) (air_df : list Row) : nat :=
  length (List.filter
            (fun m => String.eqb (PurpleAirMain.fill_color m) c)
            (PurpleAirMain.air_layer air_df)).

Definition nan_rows (air_df : list Row) : nat :=
  PurpleAirPipeline.count_rows F64.isna air_df.

(** The values [get_aqi_category] puts in a category. *)
Definition category_values (cat : string) (air_df : list Row) : list float :=
  map pm25
      (List.filter
         (fun row => String.eqb (PurpleAirMain.get_aqi_category (pm25 row)) cat)
         air_df).

(** No category without sensors comes before one that has some. *)
Definition categories_fill_in_order (air_df : list Row) : Prop :=
  (category_values "Good" air_df <> []
   \/ (category_values "Moderate" air_df = []
       /\ category_values "Unhealthy" air_df = [])) /\
  (category_values "Moderate" air_df <> []
   \/ category_values "Unhealthy" air_df = []).

(** All rings of a geometry that [geometry_to_path] goes through. *)
Definition all_rings (geometry : PurpleAirPipeline.Geometry)
  : list (list PurpleAirPipeline.Coord) :=
  match geometry with
  | PurpleAirPipeline.AMultiPolygon geoms =>
      flat_map PurpleAirPipeline.rings geoms
  | PurpleAirPipeline.APolygon p => PurpleAirPipeline.rings p
  | PurpleAirPipeline.AnotherGeometry => []
  end.

Definition count_code (c : PurpleAirPipeline.Code)
    (codes : list PurpleAirPipeline.Code) : nat :=
  length (List.filter
            (fun c' =>
               match c, c' with
               | PurpleAirPipeline.MOVETO, PurpleAirPipeline.MOVETO
               | PurpleAirPipeline.LINETO, PurpleAirPipeline.LINETO
               | PurpleAirPipeline.CLOSEPOLY, PurpleAirPipeline.CLOSEPOLY =>
                   true
               | _, _ => false
               end)
            codes).

(** A tract identifier as the shapefile has it: no letter [U] in it. *)
Definition plain_geoid (g : string) : Prop :=
  forallb (fun c => negb (Ascii.eqb c "U"%char)) (list_ascii_of_string g)
  = true.

(** The columns of the ACS table that [process_census_data] of
    PurpleAirDataAnalysis/main.py reads. *)
Definition columns_read_80 : list string :=
  PurpleAirPipeline.age_columns_80 ++ ["B01001_001E"; "GEO_ID"; "NAME"].

(* ===================================================================== *)
(** * calculate_statistics.py, the EPA section *)
(* ===================================================================== *)

Module StatisticsEPA.

(** The window of [inv_mask]: 2025-01-14 to 2025-01-30. *)
Definition inv_mask (r : EPAMain.EpaRecord) : bool :=
  match EPAMain.date_local r with
  | Some t =>
      (EPAMain.midnight 2025 1 14 <=? t)%Z
      && (t <=? EPAMain.midnight 2025 1 30)%Z
  | None => false
  end.

Inductive Exn := ZeroDivisionError.

(** A line of the AQI breakdown: the count and the total whose quotient,
    times 100, is the percentage printed after the count. *)
Inductive BreakdownLine :=
  | GoodLine (count total : nat)
  | ModerateLine (count total : nat)
  | UnhealthyLine (count total : nat).

(** [count / total * 100]: dividing by zero raises before the line is
    printed. *)
Definition percent_line (line : nat -> nat -> BreakdownLine)
    (count total : nat) : Exn + BreakdownLine :=
  if (total =? 0)%nat then inl ZeroDivisionError else inr (line count total).

Definition count_values (p : float -> bool) (df : list EPAMain.EpaRecord)
  : nat :=
  length (List.filter (fun r => p (EPAMain.pm25_value r)) df).

(** The block [5. AQI Category Breakdown (Inversion Period)]: the lines
    it prints and, when it stops early, the exception. *)
Definition aqi_breakdown (df_epa : list EPAMain.EpaRecord)
  : list BreakdownLine * option Exn :=
  let df_inv := List.filter inv_mask df_epa in
  let good := count_values (fun v => v <? 12)%float df_inv in
  let moderate :=
    count_values (fun v => (12 <=? v) && (v <? 35))%float df_inv in
  let unhealthy := count_values (fun v => 35 <=? v)%float df_inv in
  let total := length df_inv in
  match percent_line GoodLine good total with
  | inl e => ([], Some e)
  | inr l1 =>
      match percent_line ModerateLine moderate total with
      | inl e => ([l1], Some e)
      | inr l2 =>
          match percent_line UnhealthyLine unhealthy total with
          | inl e => ([l1; l2], Some e)
          | inr l3 => ([l1; l2; l3], None)
          end
      end
  end.

End StatisticsEPA.

(* ===================================================================== *)
(** * Values decoded from JSON *)
(* ===================================================================== *)

(** What [response.json()] returns, and the operations of Python the
    scripts apply to it, each with the exception it raises on a value of
    the wrong kind. *)
Module PyJson.

(** A dict is the list of its items in insertion order; the keys are
    distinct. *)
#[warnings="-register-all"]
Inductive Json :=
  | JNull
  | JBool (b : bool)
  | JInt (z : Z)
  | JFloat (x : float)
  | JStr (s : string)
  | JList (items : list Json)
  | JDict (entries : list (string * Json)).

Inductive Exn :=
  | AttributeError
  | IndexError
  | KeyError
  | TypeError
  | ValueError
  | OverflowError
  | RequestException
  | JSONDecodeError.

#[global] Instance exn_ret : MRet (sum Exn) := fun _ a => inr a.

#[global] Instance exn_bind : MBind (sum Exn) :=
  fun _ _ f m => match m with inl e => inl e | inr a => f a end.

(** A [for] loop that builds a list, stopped by the first exception. *)
Fixpoint for_each {A B : Type} (f : A -> Exn + B) (l : list A)
  : Exn + list B :=
  match l with
  | [] => inr []
  | a :: l => b ← f a; bs ← for_each f l; mret (b :: bs)
  end.

(** A [for] loop that updates a variable. *)
Fixpoint fold_exn {A B : Type} (f : A -> B -> Exn + A) (l : list B) (a : A)
  : Exn + A :=
  match l with
  | [] => inr a
  | b :: l => a ← f a b; fold_exn f l a
  end.

(** [bool(v)], as [if v:] takes it. *)
Definition truthy (v : Json) : bool :=
  match v with
  | JNull => false
  | JBool b => b
  | JInt z => negb (z =? 0)%Z
  | JFloat x => negb (x =? 0)%float
  | JStr s => negb (String.eqb s "")
  | JList l => match l with [] => false | _ => true end
  | JDict d => match d with [] => false | _ => true end
  end.

Fixpoint dict_get (d : list (string * Json)) (k : string) : option Json :=
  match d with
  | [] => None
  | (k', v) :: d => if String.eqb k' k then Some v else dict_get d k
  end.

(** [d[k] = v]: a present key keeps its place. *)
Fixpoint dict_set (d : list (string * Json)) (k : string) (v : Json)
  : list (string * Json) :=
  match d with
  | [] => [(k, v)]
  | (k', v') :: d =>
      if String.eqb k' k then (k, v) :: d else (k', v') :: dict_set d k v
  end.

(** [v.get(k, default)]. *)
Definition get (v : Json) (k : string) (default : Json) : Exn + Json :=
  match v with
  | JDict d => inr (match dict_get d k with Some x => x | None => default end)
  | _ => inl AttributeError
  end.

(** [v.keys()]. *)
Definition keys (v : Json) : Exn + list string :=
  match v with
  | JDict d => inr (map fst d)
  | _ => inl AttributeError
  end.

(** The bytes 10xxxxxx, which continue a character in UTF-8. *)
Definition continuation (c : ascii) : bool :=
  let n := nat_of_ascii c in (128 <=? n)%nat && (n <? 192)%nat.

(** The characters of a string. *)
Fixpoint chars (s : string) : list string :=
  match s with
  | EmptyString => []
  | String c r =>
      match r with
      | String c' _ =>
          if continuation c' then
            match chars r with
            | x :: xs => String c x :: xs
            | [] => [String c EmptyString]
            end
          else String c EmptyString :: chars r
      | EmptyString => [String c EmptyString]
      end
  end.

(** What [for x in v] goes through. *)
Definition iter (v : Json) : Exn + list Json :=
  match v with
  | JList l => inr l
  | JStr s => inr (map JStr (chars s))
  | JDict d => inr (map (fun kv => JStr (fst kv)) d)
  | _ => inl TypeError
  end.

(** [len(v)]. *)
Definition len (v : Json) : Exn + nat :=
  match v with
  | JList l => inr (length l)
  | JStr s => inr (length (chars s))
  | JDict d => inr (length d)
  | _ => inl TypeError
  end.

(** [v[i]] for an index [i] that is at least 0; no dict decoded from JSON
    has an integer key. *)
Definition index (v : Json) (i : nat) : Exn + Json :=
  match v with
  | JList l => match nth_error l i with Some x => inr x | None => inl IndexError end
  | JStr s =>
      match nth_error (chars s) i with
      | Some x => inr (JStr x)
      | None => inl IndexError
      end
  | JDict _ => inl KeyError
  | _ => inl TypeError
  end.

(** [v[k]] for a string [k]. *)
Definition getitem (v : Json) (k : string) : Exn + Json :=
  match v with
  | JDict d => match dict_get d k with Some x => inr x | None => inl KeyError end
  | _ => inl TypeError
  end.

(** [v[k] = x] for a string [k]. *)
Definition setitem (v : Json) (k : string) (x : Json) : Exn + Json :=
  match v with
  | JDict d => inr (JDict (dict_set d k x))
  | _ => inl TypeError
  end.

(** [v == s] for a string [s]. *)
Definition eq_str (v : Json) (s : string) : bool :=
  match v with
  | JStr s' => String.eqb s' s
  | _ => false
  end.

End PyJson.

(* ===================================================================== *)
(** * EPADataAnalysis/get_epa_data.py *)
(* ===================================================================== *)

(** The text the functions print is left out; what raises while a line
    is formatted is kept. *)
Module GetEPAData.
Import PyJson.

Definition STATE_CODE : string := "49".
Definition COUNTY_CODES : list string := ["035"; "011"].
Definition PARAM_CODE : string := "88101".
Definition BEGIN_DATE : string := "20250101".
Definition END_DATE : string := "20251231".

Definition COUNTY_NAMES : list (string * string) :=
  [ ("035", "Salt Lake County"); ("011", "Davis County") ].

(** [COUNTY_NAMES.get(county_code, "Unknown")]. *)
Fixpoint names_get (names : list (string * string)) (code default : string)
  : string :=
  match names with
  | [] => default
  | (k, v) :: names =>
      if String.eqb k code then v else names_get names code default
  end.

(** The two requests the script sends: the URL of [verify_credentials]
    and the endpoint of [fetch_pm25_data] with its [params]. *)
Inductive Request :=
  | ListStates (email key : string)
  | DailyByCounty (email key param bdate edate state county : string).

(** A response: its status code and what [response.json()] gives. *)
Record Response := mkResponse {
  status_code : Z;
  json : Exn + Json
}.

(** [json_data.get("Header", [{}])[0]]. *)
Definition first_header (json_data : Json) : Exn + Json :=
  h ← get json_data "Header" (JList [JDict []]);
  index h 0.

(** The dict [fetch_pm25_data] returns. *)
Definition combined (all_data : list Json) : Json :=
  JDict [ ("Data", JList all_data);
          ("Header",
           JList [ JDict [ ("status", JStr "Success");
                           ("rows", JInt (Z.of_nat (length all_data))) ] ]) ].

Section Requests.
(** [requests.get]. *)
Variable requests_get : Request -> Exn + Response.

Definition verify_credentials (email key : string) : bool :=
  let attempt : Exn + bool :=
    response ← requests_get (ListStates email key);
    if (status_code response =? 200)%Z then
      data ← json response;
      header ← first_header data;
      status ← get header "status" JNull;
      if eq_str status "Success" then mret true else mret false
    else mret false in
  match attempt with
  | inr b => b
  | inl _ => false
  end.

(** The body of the loop over [COUNTY_CODES]. *)
Definition fetch_county (email key : string) (all_data : list Json)
    (county_code : string) : Exn + list Json :=
  let county_name := names_get COUNTY_NAMES county_code "Unknown" in
  response ← requests_get
    (DailyByCounty email key PARAM_CODE BEGIN_DATE END_DATE STATE_CODE
                   county_code);
  if (status_code response =? 200)%Z then
    json_data ← json response;
    header ← first_header json_data;
    data ← get json_data "Data" (JList []);
    _ ← get header "status" (JStr "Unknown");
    _ ← get header "rows" (JInt 0);
    if truthy data then
      records ← iter data;
      records ←
        for_each (fun record => setitem record "county_name"
                                        (JStr county_name)) records;
      mret (all_data ++ records)
    else mret all_data
  else mret all_data.

Definition fetch_pm25_data (email key : string) : Exn + option Json :=
  all_data ← fold_exn (fetch_county email key) COUNTY_CODES [];
  match all_data with
  | [] => mret None
  | _ => mret (Some (combined all_data))
  end.
End Requests.

Definition columns_to_keep : list string :=
  [ "county_name"; "site_number"; "local_site_name"; "latitude";
    "longitude"; "date_local"; "arithmetic_mean" ].

Section Save.
(** A column of a pandas frame, and [pd.DataFrame]; a frame is the list
    of its columns, each with its name. *)
Context {Col : Type}.
Variable DataFrame : Json -> Exn + list (string * Col).

Definition in_columns (col : string) (df : list (string * Col)) : bool :=
  existsb (fun c => String.eqb (fst c) col) df.

(** [df[available_columns]]. *)
Definition select (df : list (string * Col)) (cols : list string)
  : list (string * Col) :=
  flat_map (fun col => List.filter (fun c => String.eqb (fst c) col) df) cols.

(** [df.rename(columns={old: new})]. *)
Definition rename (df : list (string * Col)) (old new : string)
  : list (string * Col) :=
  map (fun c => if String.eqb (fst c) old then (new, snd c) else c) df.

(** The frame [process_and_save_data] returns, which is the frame it has
    written to [output_file], or [None]. *)
Definition process_and_save_data (json_data : Json)
  : Exn + option (list (string * Col)) :=
  if negb (truthy json_data) then mret None
  else
    header ← first_header json_data;
    data ← get json_data "Data" (JList []);
    _ ← get header "status" (JStr "Unknown");
    _ ← get header "rows" (JInt 0);
    if negb (truthy data) then mret None
    else
      df ← DataFrame data;
      let available_columns :=
        List.filter (fun col => in_columns col df) columns_to_keep in
      match available_columns with
      | [] => mret (Some df)
      | _ =>
          let df_filtered := select df available_columns in
          let df_filtered :=
            if in_columns "arithmetic_mean" df_filtered
            then rename df_filtered "arithmetic_mean" "pm25_value"
            else df_filtered in
          mret (Some df_filtered)
      end.
End Save.

(** The columns [pd.DataFrame] gives to a list of dicts: their keys, in
    the order in which they first appear. *)
Definition keys_union (records : list (list (string * Json)))
  : list string :=
  fold_left
    (fun acc k => if existsb (String.eqb k) acc then acc else acc ++ [k])
    (flat_map (map fst) records) [].

End GetEPAData.

(** What the reply for a county holds for [fetch_pm25_data]: no record
    when its status is not 200 or when its [Data] is missing or empty,
    and else the dicts that [Data] lists. *)
Definition reply_holds
    (requests_get : GetEPAData.Request -> PyJson.Exn + GetEPAData.Response)
    (email key county : string)
    (records : list (list (string * PyJson.Json))) : Prop :=
  exists response,
    requests_get
      (GetEPAData.DailyByCounty email key GetEPAData.PARAM_CODE
         GetEPAData.BEGIN_DATE GetEPAData.END_DATE GetEPAData.STATE_CODE
         county)
    = inr response /\
    (GetEPAData.status_code response <> 200%Z /\ records = []
     \/ GetEPAData.status_code response = 200%Z /\
        exists body data,
          GetEPAData.json response = inr body /\
          PyJson.get body "Data" (PyJson.JList []) = inr data /\
          (PyJson.truthy data = false /\ records = []
           \/ data = PyJson.JList (map PyJson.JDict records)
              /\ records <> [])).

(** A record with the name of its county written in. *)
Definition labelled (county_name : string)
    (record : list (string * PyJson.Json)) : list (string * PyJson.Json) :=
  PyJson.dict_set record "county_name" (PyJson.JStr county_name).

(** The columns of the file [process_and_save_data] writes, as
    EPADataAnalysis/main.py reads them. *)
Definition epa_csv_columns : list string :=
  [ "county_name"; "site_number"; "local_site_name"; "latitude";
    "longitude"; "date_local"; "pm25_value" ].

(** Replies used to run the functions of get_epa_data.py. *)
Module DemoEPA.
Import PyJson.

Definition reply (records : list Json) : GetEPAData.Response :=
  GetEPAData.mkResponse 200
    (inr (JDict [ ("Header",
                   JList [ JDict [ ("status", JStr "Success");
                                   ("rows",
                                    JInt (Z.of_nat (length records))) ] ]);
                  ("Data", JList records) ])).

Definition hawthorne : Json :=
  JDict [ ("site_number", JStr "3006");
          ("local_site_name", JStr "Hawthorne");
          ("date_local", JStr "2025-01-14");
          ("arithmetic_mean", JFloat 21.5);
          ("county_name", JStr "Salt Lake") ].

Definition bountiful : Json :=
  JDict [ ("site_number", JStr "0004");
          ("local_site_name", JStr "Bountiful Viewmont");
          ("date_local", JStr "2025-01-14");
          ("arithmetic_mean", JFloat 18.25) ].

(** What [fetch_pm25_data] makes of the two records. *)
Definition fetched : Json :=
  GetEPAData.combined
    [ JDict [ ("site_number", JStr "3006");
              ("local_site_name", JStr "Hawthorne");
              ("date_local", JStr "2025-01-14");
              ("arithmetic_mean", JFloat 21.5);
              ("county_name", JStr "Salt Lake County") ];
      JDict [ ("site_number", JStr "0004");
              ("local_site_name", JStr "Bountiful Viewmont");
              ("date_local", JStr "2025-01-14");
              ("arithmetic_mean", JFloat 18.25);
              ("county_name", JStr "Davis County") ] ].

(** Salt Lake County answers with one record, Davis County with one. *)
Definition requests_get (r : GetEPAData.Request)
  : Exn + GetEPAData.Response :=
  match r with
  | GetEPAData.ListStates _ _ => inl RequestException
  | GetEPAData.DailyByCounty _ _ _ _ _ _ county =>
      if String.eqb county "035" then inr (reply [hawthorne])
      else inr (reply [bountiful])
  end.

(** A reply with an empty [Header]. *)
Definition headless : Json :=
  JDict [ ("Header", JList []); ("Data", JList [hawthorne]) ].

Definition requests_get_headless (r : GetEPAData.Request)
  : Exn + GetEPAData.Response :=
  match r with
  | GetEPAData.ListStates _ _ => inr (GetEPAData.mkResponse 200 (inr headless))
  | GetEPAData.DailyByCounty _ _ _ _ _ _ county =>
      if String.eqb county "035"
      then inr (GetEPAData.mkResponse 200 (inr headless))
      else inr (reply [bountiful])
  end.

Fixpoint dicts (l : list Json) : option (list (list (string * Json))) :=
  match l with
  | [] => Some []
  | JDict d :: l => option_map (cons d) (dicts l)
  | _ => None
  end.

(** [pd.DataFrame] on a list of dicts, a column being the list of its
    cells. *)
Definition DataFrame (data : Json)
  : Exn + list (string * list (option Json)) :=
  match data with
  | JList l =>
      match dicts l with
      | Some records =>
          inr (map (fun k => (k, map (fun d => dict_get d k) records))
                   (GetEPAData.keys_union records))
      | None => inl TypeError
      end
  | _ => inl TypeError
  end.

End DemoEPA.

(* ===================================================================== *)
(** * TraxDataAnalsysis/sensorDataFinder.py *)
(* ===================================================================== *)

(** [process_trax_data] up to the file it writes; the text it prints is
    left out, what raises while a line is formatted is kept. *)
Module Trax.
Import PyJson.

(** A row of [all_rows]; [JNull] is [None]. *)
Record TraxRow := mkTraxRow {
  train_id : Json;
  time : Json;
  lat : Json;
  lon : Json;
  pm25 : Json
}.

Definition has_key (d : list (string * Json)) (k : string) : bool :=
  match dict_get d k with Some _ => true | None => false end.

(** [float(n)] for an integer: the nearest binary64 number, ties to
    even. *)
Definition float_of_int (z : Z) : Exn + float :=
  match binary_normalize 53 1024 z 0 false with
  | S754_infinity _ => inl OverflowError
  | x => inr (SF2Prim x)
  end.

(** The lower case of the letters A to Z; the text searched for below
    has no other kind of character. *)
Definition lower_ascii (c : ascii) : ascii :=
  let n := nat_of_ascii c in
  if (65 <=? n)%nat && (n <=? 90)%nat then ascii_of_nat (n + 32) else c.

Fixpoint lower (s : string) : string :=
  match s with
  | EmptyString => EmptyString
  | String c r => String (lower_ascii c) (lower r)
  end.

(** [p in s] for two strings. *)
Fixpoint contains (p s : string) : bool :=
  String.prefix p s
  || match s with
     | EmptyString => false
     | String _ r => contains p r
     end.

(** [p[0] if isinstance(p, (list, tuple)) and len(p) > 0 else None]. *)
Definition first_coord (p : Json) : Json :=
  match p with
  | JList (x :: _) => x
  | _ => JNull
  end.

(** [p[1] if isinstance(p, (list, tuple)) and len(p) > 1 else None]. *)
Definition second_coord (p : Json) : Json :=
  match p with
  | JList (_ :: y :: _) => y
  | _ => JNull
  end.

(** The key of the readings: [pm25_var] when the observations have it,
    else the first key that holds [pm25] or [pm_25] in any case. *)
Definition find_pm_key (obs : list (string * Json)) (pm25_var : string)
  : option string :=
  if has_key obs pm25_var then Some pm25_var
  else List.find (fun k => contains "pm25" (lower k)
                           || contains "pm_25" (lower k))
                 (map fst obs).

(** [pd.isna] on a cell. *)
Definition isna (v : Json) : bool :=
  match v with
  | JNull => true
  | JFloat x => F64.isna x
  | _ => false
  end.

(** [df.dropna(subset=['lat', 'lon'])]. *)
Definition dropna (rows : list TraxRow) : list TraxRow :=
  List.filter (fun r => negb (isna (lat r)) && negb (isna (lon r))) rows.

Section Process.
(** [float(s)] for a string; [None] when it raises [ValueError]. *)
Variable float_of_str : string -> option float.

(** [float(v)]. *)
Definition py_float (v : Json) : Exn + float :=
  match v with
  | JInt z => float_of_int z
  | JFloat x => inr x
  | JBool b => inr (if b then 1 else 0)%float
  | JStr s =>
      match float_of_str s with
      | Some x => inr x
      | None => inl ValueError
      end
  | _ => inl TypeError
  end.

(** The fallback to the static location of the station. *)
Definition static_location (station : Json) (n : nat)
  : Exn + (Json * Json) :=
  latitude ← get station "LATITUDE" (JInt 0);
  lat ← py_float latitude;
  longitude ← get station "LONGITUDE" (JInt 0);
  lon ← py_float longitude;
  mret (JList (repeat (JFloat lat) n), JList (repeat (JFloat lon) n)).

(** One turn of the loop over [zip(times, vals)]. *)
Definition row_at (id_ lats lons : Json) (i : nat) (t pm : Json)
  : Exn + list TraxRow :=
  match pm with
  | JNull => mret []
  | _ =>
      n ← len lats;
      if (i <? n)%nat then
        m ← len lons;
        if (i <? m)%nat then
          la ← index lats i;
          lo ← index lons i;
          mret [mkTraxRow id_ t la lo pm]
        else mret []
      else mret []
  end.

Fixpoint rows_from (id_ lats lons : Json) (i : nat)
    (pairs : list (Json * Json)) : Exn + list TraxRow :=
  match pairs with
  | [] => mret []
  | (t, pm) :: pairs =>
      row ← row_at id_ lats lons i t pm;
      rows ← rows_from id_ lats lons (S i) pairs;
      mret (row ++ rows)
  end.

(** The body of the loop over [data['STATION']]: the rows the station
    adds to [all_rows]. *)
Definition process_station (pm25_var : string) (station : Json)
  : Exn + list TraxRow :=
  _ ← get station "NAME" (JStr "Unknown");
  id_ ← get station "STID" (JStr "Unknown");
  obs ← get station "OBSERVATIONS" (JDict []);
  _ ← keys obs;
  match obs with
  | JDict obs =>
      match dict_get obs "date_time" with
      | None => mret []
      | Some times =>
          n ← len times;
          position ←
            match dict_get obs "position" with
            | Some positions =>
                ps ← iter positions;
                mret (JList (map first_coord ps),
                      JList (map second_coord ps))
            | None =>
                match dict_get obs "latitude", dict_get obs "longitude" with
                | Some lats, Some lons => mret (lats, lons)
                | _, _ => static_location station n
                end
            end;
          let '(lats, lons) := position in
          match find_pm_key obs pm25_var with
          | Some pm_key =>
              if String.eqb pm_key "" then mret []
              else
                vals ← getitem (JDict obs) pm_key;
                _ ← len vals;
                ts ← iter times;
                vs ← iter vals;
                rows_from id_ lats lons 0 (combine ts vs)
          | None => mret []
          end
      end
  | _ => inl AttributeError
  end.

(** What [process_trax_data] writes to [trax_mobile_data.csv]; [None]
    when it writes no file. *)
Definition process_trax_data (data : Json) (pm25_var : string)
  : Exn + option (list TraxRow) :=
  _ ← keys data;
  match data with
  | JDict d =>
      all_rows ←
        match dict_get d "STATION" with
        | Some stations =>
            _ ← len stations;
            stations ← iter stations;
            rows ← for_each (process_station pm25_var) stations;
            mret (concat rows)
        | None => mret []
        end;
      match all_rows with
      | [] => mret None
      | _ => mret (Some (dropna all_rows))
      end
  | _ => inl AttributeError
  end.
End Process.

End Trax.

(** A response of the time series service used to run
    [process_trax_data]: a train with three readings, the second one
    missing and the third one without a position, and a station without
    observations. *)
Module DemoTrax.
Import PyJson.

Definition float_of_str (s : string) : option float :=
  if String.eqb s "40.77" then Some 40.77%float
  else if String.eqb s "-111.89" then Some (-111.89)%float
  else None.

Definition train : Json :=
  JDict
    [ ("STID", JStr "TRX01");
      ("NAME", JStr "TRAX Red Line");
      ("OBSERVATIONS",
       JDict
         [ ("date_time",
            JList [ JStr "2025-12-01T00:00:00Z";
                    JStr "2025-12-01T00:01:00Z";
                    JStr "2025-12-01T00:02:00Z" ]);
           ("position",
            JList [ JList [JFloat 40.76; JFloat (-111.9)];
                    JList [JFloat 40.75; JFloat (-111.9)];
                    JNull ]);
           ("PM_25_concentration_set_1",
            JList [ JFloat 12.5; JNull; JFloat 14 ]) ]) ].

Definition idle : Json :=
  JDict [ ("STID", JStr "TRX02"); ("LATITUDE", JStr "40.77") ].

(** A station that gives neither positions nor its own location. *)
Definition unplaced : Json :=
  JDict
    [ ("STID", JStr "TRX03");
      ("OBSERVATIONS",
       JDict
         [ ("date_time", JList [ JStr "2025-12-01T00:00:00Z" ]);
           ("pm25", JList [ JFloat 9.5 ]) ]) ].

Definition data : Json :=
  JDict [ ("SUMMARY", JDict [ ("RESPONSE_CODE", JInt 1) ]);
          ("STATION", JList [ train; idle; unplaced ]) ].

(** The rows written for [data]. *)
Definition saved : list Trax.TraxRow :=
  [ Trax.mkTraxRow (JStr "TRX01") (JStr "2025-12-01T00:00:00Z")
      (JFloat 40.76) (JFloat (-111.9)) (JFloat 12.5);
    Trax.mkTraxRow (JStr "TRX03") (JStr "2025-12-01T00:00:00Z")
      (JFloat 0) (JFloat 0) (JFloat 9.5) ].

End DemoTrax.

(** [v is not None]. *)
Definition is_not_None (v : PyJson.Json) : bool :=
  match v with
  | PyJson.JNull => false
  | _ => true
  end.

(* ===================================================================== *)
(** * EPADataAnalysis/main.py, the census table and the age groups *)
(* ===================================================================== *)

Module EPAPipeline.
Import CalculateStatistics.

Definition age_65_plus_columns : list string :=
  ["B01001_020E"; "B01001_021E"; "B01001_022E"; "B01001_023E";
   "B01001_024E"; "B01001_025E"; "B01001_044E"; "B01001_045E";
   "B01001_046E"; "B01001_047E"; "B01001_048E"; "B01001_049E"].

Definition age_85_plus_columns : list string :=
  ["B01001_025E"; "B01001_049E"].

Definition all_age_columns : list string :=
  age_65_plus_columns ++ age_85_plus_columns.

Section Census.
Local Open Scope float_scope.
Variable to_numeric : string -> float.
Variable nansum : list float -> float.

(** [process_census_data] from the line after the conversion loop. *)
Definition after_conversion (df : Frame) : Exn + Frame :=
  bind (numeric_columns to_numeric age_65_plus_columns df) (fun ages =>
  let df := frame_set df "pop_65_plus"
              (NumCol (sum_axis1 nansum (frame_len df) ages)) in
  bind (numeric_columns to_numeric age_85_plus_columns df) (fun ages =>
  let df := frame_set df "pop_85_plus"
              (NumCol (sum_axis1 nansum (frame_len df) ages)) in
  bind (frame_get df "B01001_001E") (fun total =>
  let df := frame_set df "total_pop"
              (NumCol (fillna 0 (to_numeric_coerce to_numeric total))) in
  bind (frame_get df "pop_65_plus") (fun pop =>
  bind (frame_get df "total_pop") (fun total =>
  let df := frame_set df "pop_65_plus_pct"
              (NumCol (PurpleAirPipeline.percentage
                         (to_numeric_coerce to_numeric pop)
                         (PurpleAirPipeline.replace_zero
                            (to_numeric_coerce to_numeric total)))) in
  bind (frame_get df "pop_85_plus") (fun pop =>
  bind (frame_get df "total_pop") (fun total =>
  let df := frame_set df "pop_85_plus_pct"
              (NumCol (PurpleAirPipeline.percentage
                         (to_numeric_coerce to_numeric pop)
                         (PurpleAirPipeline.replace_zero
                            (to_numeric_coerce to_numeric total)))) in
  bind (frame_get df "GEO_ID") (fun geo_id =>
  bind (str geo_id) (fun cells =>
  let df := frame_set df "GEOID"
              (ObjCol (map (option_map (replace "1400000US" "")) cells)) in
  PurpleAirPipeline.frame_project
    ["GEOID"; "NAME"; "pop_65_plus"; "pop_65_plus_pct";
     "pop_85_plus"; "pop_85_plus_pct"] df))))))))).

Definition process_census_data (df : Frame) : Exn + Frame :=
  bind (convert_columns to_numeric all_age_columns df) after_conversion.
End Census.

(** An entry of [age_config] in [create_visualization]. *)
Record AgeConfig := mkAgeConfig {
  pct_col : string;
  count_col : string;
  label : string;
  title_label : string
}.

(** [age_config[age_group]]. *)
Definition age_config (age_group : string) : Exn + AgeConfig :=
  if String.eqb age_group "65plus"
  then inr (mkAgeConfig "pop_65_plus_pct" "pop_65_plus" "65+" "Age 65+")
  else if String.eqb age_group "85plus"
  then inr (mkAgeConfig "pop_85_plus_pct" "pop_85_plus" "85+" "Age 85+")
  else inl (KeyError age_group).

End EPAPipeline.

(** The table [process_census_data] of EPADataAnalysis/main.py makes of
    the two tracts of [DemoCensus.acs]. *)
Definition demo_epa_table : CalculateStatistics.Frame :=
  Eval vm_compute in
    match
      EPAPipeline.process_census_data DemoCensus.to_numeric
        DemoCensus.nansum DemoCensus.acs
    with
    | inr out => out
    | inl _ => []
    end.

(* ===================================================================== *)
(** * EPADataAnalysis/main.py, the analysis plots *)
(* ===================================================================== *)

Module EPAPlots.

(** [df_inversion] of [create_data_analysis_plots]: the records of [df]
    in the inversion window. *)
Definition df_inversion (df : list EPAMain.EpaRecord)
  : list EPAMain.EpaRecord :=
  List.filter EPAMain.in_window df.

(** The headings of the summary table: the block of the inversion period
    is there when [df_inversion] has records. *)
Definition headings (df : list EPAMain.EpaRecord) : list string :=
  ["Overall Statistics"]
  ++ (if (0 <? length (df_inversion df))%nat
      then ["Inversion Period"] else [])
  ++ ["By Site (Mean)"].

End EPAPlots.

(* ===================================================================== *)
(** * The master list as it is read, with cells of any kind *)
(* ===================================================================== *)

(** [load_sensor_locations] on whatever [pd.read_csv] makes of the file:
    the columns may be others than the three the function reads, and a
    cell may be an integer, a float, a truth value or text.
    [PurpleAirPipeline.load_sensor_locations] above is this function on
    the lists that have the three columns, with numbers in them. *)
Module MasterList.

Inductive Cell :=
  | PyInt (z : Z)
  | PyFloat (x : float)
  | PyBool (b : bool)
  | PyStr (s : string).

Inductive Exn :=
  | KeyError (column : string)
  | ValueError
  | OverflowError.

Definition bind {A B : Type} (m : Exn + A) (k : A -> Exn + B) : Exn + B :=
  match m with
  | inl e => inl e
  | inr a => k a
  end.

(** A row as [iterrows] yields it: the cells under the names of the
    columns. *)
Definition Series : Type := list (string * Cell).

Fixpoint cell (row : Series) (column : string) : option Cell :=
  match row with
  | [] => None
  | (name, c) :: row' =>
      if String.eqb name column then Some c else cell row' column
  end.

(** [row[column]]. *)
Definition getitem (row : Series) (column : string) : Exn + Cell :=
  match cell row column with
  | Some c => inr c
  | None => inl (KeyError column)
  end.

(** The lookup, whose values are the cells as they are. *)
Definition Lookup : Type := gmap Z (Cell * Cell).

Section Load.
(** [int(s)] on text; [None] when it raises [ValueError]. *)
Variable int_of_str : string -> option Z.

(** [int(c)]: a NaN raises [ValueError], an infinity
    [OverflowError]. *)
Definition int (c : Cell) : Exn + Z :=
  match c with
  | PyInt z => inr z
  | PyBool b => inr (if b then 1 else 0)%Z
  | PyFloat x =>
      match PurpleAirPipeline.int_of_float x with
      | Some z => inr z
      | None => if F64.isna x then inl ValueError else inl OverflowError
      end
  | PyStr s =>
      match int_of_str s with
      | Some z => inr z
      | None => inl ValueError
      end
  end.

(** [sensor_lookup[int(row['sensor_index'])] =
       (row['latitude'], row['longitude'])]: the right-hand side is
    evaluated first. *)
Definition add_row (sensor_lookup : Lookup) (row : Series) : Exn + Lookup :=
  bind (getitem row "latitude") (fun latitude =>
  bind (getitem row "longitude") (fun longitude =>
  bind (getitem row "sensor_index") (fun index =>
  bind (int index) (fun i =>
  inr (<[ i := (latitude, longitude) ]> sensor_lookup))))).

Fixpoint load_from (sensor_lookup : Lookup) (sensors : list Series)
  : Exn + Lookup :=
  match sensors with
  | [] => inr sensor_lookup
  | row :: sensors' =>
      bind (add_row sensor_lookup row) (fun sensor_lookup =>
      load_from sensor_lookup sensors')
  end.

Definition load_sensor_locations (sensors : list Series) : Exn + Lookup :=
  load_from ∅ sensors.
End Load.

(** A row of the three columns, with numbers in them. *)
Definition of_number (n : PurpleAirPipeline.Number) : Cell :=
  match n with
  | PurpleAirPipeline.PyInt z => PyInt z
  | PurpleAirPipeline.PyFloat x => PyFloat x
  end.

Definition of_row (row : PurpleAirPipeline.MasterRow) : Series :=
  [ ("sensor_index", of_number (PurpleAirPipeline.sensor_index row));
    ("latitude", PyFloat (PurpleAirPipeline.latitude row));
    ("longitude", PyFloat (PurpleAirPipeline.longitude row)) ].

Definition of_coordinates (ll : float * float) : Cell * Cell :=
  (PyFloat (fst ll), PyFloat (snd ll)).

End MasterList.

(** A row on which [load_sensor_locations] raises: it lacks one of the
    three columns, or its index is a NaN, an infinity, or text that
    [int] does not read. *)
Definition unreadable_row (int_of_str : string -> option Z)
    (row : MasterList.Series) : Prop :=
  MasterList.cell row "latitude" = None \/
  MasterList.cell row "longitude" = None \/
  match MasterList.cell row "sensor_index" with
  | None => True
  | Some (MasterList.PyFloat x) =>
      F64.isna x = true \/ Prim2SF x = S754_infinity false
      \/ Prim2SF x = S754_infinity true
  | Some (MasterList.PyStr s) => int_of_str s = None
  | Some (MasterList.PyInt _) | Some (MasterList.PyBool _) => False
  end.

(* ===================================================================== *)
(** * Facts about binary64 numbers *)
(* ===================================================================== *)

Module F64Facts.

Import F64.
Local Open Scope float_scope.

(** Mirror image of a three-way comparison on specification floats. *)
Lemma SFcompare_antisym (x y : spec_float) (c : comparison) :
  SFcompare x y = Some c -> SFcompare y x = Some (CompOpp c).
Proof.
  destruct x as [sx|sx| |sx mx ex], y as [sy|sy| |sy my ey]; simpl;
    try discriminate;
    try (intros H; injection H as <-);
    try (destruct sx; reflexivity);
    try (destruct sy; reflexivity);
    try (destruct sx, sy; reflexivity).
  pose proof (Pos.compare_cont_antisym mx my Eq) as Hm. simpl in Hm.
  destruct sx, sy; try reflexivity;
    rewrite (Z.compare_antisym ex ey);
    destruct (ex ?= ey)%Z eqn:E; simpl; try reflexivity;
    f_equal; rewrite <- Hm; try rewrite CompOpp_involutive; reflexivity.
Qed.

Lemma SFcompare_refl (x : spec_float) :
  x <> S754_nan -> SFcompare x x = Some Eq.
Proof.
  destruct x as [s|s| |s m e]; simpl; intros H; try congruence.
  - destruct s; reflexivity.
  - rewrite Z.compare_refl.
    assert (Pos.compare_cont Eq m m = Eq) as -> by apply Pos.compare_refl.
    destruct s; reflexivity.
Qed.

Lemma SFcompare_nan_l (y : spec_float) : SFcompare S754_nan y = None.
Proof. destruct y; reflexivity. Qed.

Lemma SFcompare_some (x y : spec_float) :
  x <> S754_nan -> y <> S754_nan -> exists c, SFcompare x y = Some c.
Proof.
  destruct x, y; simpl; intros Hx Hy; try congruence; eauto.
Qed.

(** A float is NaN exactly when its specification is [S754_nan]. *)
Lemma isna_spec (x : float) : isna x = true <-> Prim2SF x = S754_nan.
Proof.
  unfold isna, is_nan. rewrite FloatAxioms.eqb_spec. unfold SFeqb. split.
  - destruct (Prim2SF x) as [s|s| |s m e] eqn:E; try reflexivity;
      rewrite SFcompare_refl by discriminate; discriminate.
  - intros ->. reflexivity.
Qed.

Lemma isna_false (x : float) : isna x = false <-> Prim2SF x <> S754_nan.
Proof.
  rewrite <- isna_spec. destruct (isna x); split; congruence.
Qed.

(** On numbers, "not greater" is "at most". *)
Lemma not_gt_le (x y : float) :
  isna x = false -> isna y = false -> (y <? x) = false -> (x <=? y) = true.
Proof.
  rewrite !isna_false, ltb_spec, leb_spec. unfold SFltb, SFleb.
  intros Hx Hy.
  destruct (SFcompare_some _ _ Hx Hy) as [c Hc].
  rewrite Hc, (SFcompare_antisym _ _ _ Hc).
  destruct c; simpl; congruence.
Qed.

Lemma le_not_gt (x y : float) : (x <=? y) = true -> (y <? x) = false.
Proof.
  rewrite ltb_spec, leb_spec. unfold SFltb, SFleb.
  destruct (SFcompare (Prim2SF x) (Prim2SF y)) as [c|] eqn:Hc; try discriminate.
  rewrite (SFcompare_antisym _ _ _ Hc). destruct c; simpl; congruence.
Qed.

Lemma lt_not_nan_l (x y : float) : (x <? y) = true -> isna x = false.
Proof.
  rewrite ltb_spec, isna_false. unfold SFltb. intros H E.
  rewrite E, SFcompare_nan_l in H. discriminate.
Qed.

Lemma le_not_nan_r (x y : float) : (x <=? y) = true -> isna y = false.
Proof.
  rewrite leb_spec, isna_false. unfold SFleb. intros H E.
  rewrite E in H. destruct (Prim2SF x); discriminate.
Qed.

(** ** Rounding never produces NaN *)

Lemma iter_pos_inv {A} (P : A -> Prop) (f : A -> A) :
  (forall a, P a -> P (f a)) ->
  forall n a, P a -> P (SpecFloat.iter_pos f n a).
Proof.
  intros Hf. induction n as [n IH|n IH|]; simpl; intros a Ha; auto.
Qed.

Lemma shr_1_nonneg (mrs : shr_record) :
  (0 <= shr_m mrs)%Z -> (0 <= shr_m (shr_1 mrs))%Z.
Proof.
  destruct mrs as [m r s]. simpl.
  destruct m as [|p|p]; [ | destruct p | destruct p ]; simpl; lia.
Qed.

Lemma shr_fexp_nonneg (prec emax m e : Z) (l : location) :
  (0 <= m)%Z -> (0 <= shr_m (fst (shr_fexp prec emax m e l)))%Z.
Proof.
  intros Hm. unfold shr_fexp, shr.
  assert (0 <= shr_m (shr_record_of_loc m l))%Z as H0.
  { destruct l as [|[]]; simpl; exact Hm. }
  destruct (fexp prec emax (Zdigits2 m + e) - e)%Z; simpl; try exact H0.
  apply (iter_pos_inv (fun r => 0 <= shr_m r)%Z); auto using shr_1_nonneg.
Qed.

Lemma round_nearest_even_nonneg (m : Z) (l : location) :
  (0 <= m)%Z -> (0 <= round_nearest_even m l)%Z.
Proof.
  intros Hm. destruct l as [|[]]; simpl; try lia.
  destruct (Z.even m); lia.
Qed.

Lemma binary_round_aux_not_nan
    (prec emax : Z) (sx : bool) (mx ex : Z) (lx : location) :
  (0 <= mx)%Z -> binary_round_aux prec emax sx mx ex lx <> S754_nan.
Proof.
  intros Hm. unfold binary_round_aux.
  pose proof (shr_fexp_nonneg prec emax mx ex lx Hm) as H1.
  destruct (shr_fexp prec emax mx ex lx) as [mrs' e']. simpl in H1.
  pose proof (shr_fexp_nonneg prec emax _ e' loc_Exact
                (round_nearest_even_nonneg _ (loc_of_shr_record mrs') H1)) as H2.
  destruct (shr_fexp prec emax _ e' loc_Exact) as [mrs'' e'']. simpl in H2.
  destruct (shr_m mrs'') as [|p|p]; try discriminate; try lia.
  destruct (e'' <=? emax - prec)%Z; discriminate.
Qed.

Lemma binary_normalize_not_nan (prec emax m e : Z) (sz : bool) :
  binary_normalize prec emax m e sz <> S754_nan.
Proof.
  unfold binary_normalize, binary_round.
  destruct m as [|p|p]; try discriminate;
    destruct (shl_align _ _ _) as [mz ez]; apply binary_round_aux_not_nan; lia.
Qed.

Lemma SFmul_finite_not_nan
    (prec emax : Z) (s : bool) (m : positive) (e : Z) (y : spec_float) :
  y <> S754_nan -> SFmul prec emax (S754_finite s m e) y <> S754_nan.
Proof.
  destruct y as [sy|sy| |sy my ey]; simpl; intros Hy; try congruence.
  apply binary_round_aux_not_nan. lia.
Qed.

Lemma SFadd_finite_not_nan
    (prec emax : Z) (x : spec_float) (s : bool) (m : positive) (e : Z) :
  x <> S754_nan -> SFadd prec emax x (S754_finite s m e) <> S754_nan.
Proof.
  destruct x as [sx|sx| |sx mx ex]; simpl; intros Hx; try congruence.
  apply binary_normalize_not_nan.
Qed.

(** [a * x + b] with finite nonzero coefficients is a number whenever [x]
    is one (it may be infinite). *)
Lemma affine_not_nan (a b x : float) :
  finite_nonzero a -> finite_nonzero b ->
  isna x = false -> isna (a * x + b) = false.
Proof.
  intros (sa & ma & ea & Ha) (sb & mb & eb & Hb). rewrite !isna_false.
  rewrite add_spec, mul_spec, Ha, Hb. intros Hx.
  apply SFadd_finite_not_nan, SFmul_finite_not_nan, Hx.
Qed.

End F64Facts.

(* ===================================================================== *)
(** * The file-name helpers on the names the scripts expect *)
(* ===================================================================== *)

Example split_example :
  Py.split "100865 2026-01-01 2026-01-25 60-Minute Average.csv"
  = ["100865"; "2026-01-01"; "2026-01-25"; "60-Minute"; "Average.csv"].
Proof. reflexivity. Qed.

Example basename_example :
  Py.basename "../Data/PurpleAir Download 1-25-2026/100865 a.csv"
  = "100865 a.csv".
Proof. reflexivity. Qed.

Example int_examples :
  Py.int "100865" = Some 100865%Z /\ Py.int "1_000" = Some 1000%Z /\
  Py.int "-7" = Some (-7)%Z /\ Py.int "Average.csv" = None /\
  Py.int "1__0" = None /\ Py.int "" = None.
Proof. repeat split; reflexivity. Qed.


(* ===================================================================== *)
(** * The correction formula *)
(* ===================================================================== *)

Section Correction.
Local Open Scope float_scope.

Lemma slope_finite : F64.finite_nonzero 0.778.
Proof. exists false, 7007601020188492%positive, (-53)%Z. reflexivity. Qed.

Lemma intercept_finite : F64.finite_nonzero 2.65.
Proof. exists false, 5967269506265907%positive, (-51)%Z. reflexivity. Qed.

Lemma threshold_not_nan : F64.isna 500 = false.
Proof. reflexivity. Qed.

(** A corrected value that passes the outlier test is at most 500. *)
Lemma corrected_at_most_500 (raw : float) :
  F64.isna raw = false ->
  (500 <? 0.778 * raw + 2.65) = false ->
  (0.778 * raw + 2.65 <=? 500) = true.
Proof.
  intros Hraw Hgt. apply F64Facts.not_gt_le; auto using threshold_not_nan.
  apply F64Facts.affine_not_nan;
    auto using slope_finite, intercept_finite.
Qed.

(** The constants of purpleair_analysis.py are those written out in the
    two other scripts. *)
Lemma analysis_constants :
  PurpleAirAnalysis.PM25_CORRECTION_SLOPE = 0.778 /\
  PurpleAirAnalysis.PM25_CORRECTION_INTERCEPT = 2.65 /\
  PurpleAirAnalysis.PM25_OUTLIER_THRESHOLD = 500.
Proof. repeat split. Qed.
End Correction.

(* ===================================================================== *)
(** * What a sensor file contributes *)
(* ===================================================================== *)

Lemma has_column_getitem {Series} (df : DataFrame Series) (c : string) :
  has_column df c = true <-> exists col, getitem df c = Some col.
Proof.
  unfold has_column, columns.
  induction df as [|[name col] df IH]; simpl.
  - split; [discriminate | intros [col H]; discriminate].
  - destruct (String.eqb c name); simpl; [split; eauto | exact IH].
Qed.

Lemma has_column_false {Series} (df : DataFrame Series) (c : string) :
  has_column df c = false <-> getitem df c = None.
Proof.
  pose proof (has_column_getitem df c) as H.
  destruct (has_column df c), (getitem df c) as [col|]; split; intros E;
    try reflexivity; try discriminate.
  - destruct (proj1 H eq_refl) as [col' ?]; discriminate.
  - assert (false = true) by (apply H; eauto). discriminate.
Qed.

Section Reading.
Local Open Scope float_scope.
Context {Series : Type}.
Variable mean : Series -> option float.
Variable sensor_lookup : SensorLookup.

(** Every field of a kept row is accounted for. *)
Lemma kept_reading_inv (csv_file : SensorFile Series) (row : Row) :
  kept_reading mean sensor_lookup csv_file = Some row ->
  exists df col raw,
    sensor_id_of (path csv_file) = Some (sensor_id row) /\
    sensor_lookup !! sensor_id row = Some (lat row, lon row) /\
    read_csv csv_file = Some df /\
    getitem df "pm2.5_cf_1" = Some col /\
    mean col = Some raw /\
    F64.isna raw = false /\
    pm25 row = 0.778 * raw + 2.65 /\
    (500 <? pm25 row) = false.
Proof.
  unfold kept_reading.
  destruct (sensor_id_of (path csv_file)) as [i|]; simpl; try discriminate.
  destruct (sensor_lookup !! i) as [[la lo]|] eqn:Hl; simpl;
    try discriminate.
  destruct (read_csv csv_file) as [df|]; simpl; try discriminate.
  destruct (getitem df "pm2.5_cf_1") as [col|] eqn:Hg; simpl;
    try discriminate.
  destruct (mean col) as [raw|] eqn:Hm; simpl; try discriminate.
  destruct (F64.isna raw) eqn:Hn; simpl; try discriminate.
  destruct (500 <? 0.778 * raw + 2.65) eqn:Hgt; try discriminate.
  intros [= <-]. simpl. exists df, col, raw. repeat split; auto.
Qed.

(** *** The three loop bodies against the common reading *)

Lemma main_step_air_data (total : nat) (st : PurpleAirMain.State)
    (f : SensorFile Series) :
  PurpleAirMain.air_data (PurpleAirMain.step mean sensor_lookup total st f)
  = PurpleAirMain.air_data st ++ option_to_list (kept_reading mean sensor_lookup f).
Proof.
  unfold PurpleAirMain.step, PurpleAirMain.body, kept_reading.
  destruct (sensor_id_of (path f)) as [i|]; simpl;
    [|now rewrite app_nil_r].
  destruct (sensor_lookup !! i) as [[la lo]|]; simpl;
    [|now rewrite app_nil_r].
  destruct (read_csv f) as [df|]; simpl; [|now rewrite app_nil_r].
  destruct (has_column df "pm2.5_cf_1") eqn:Hc; simpl.
  2:{ apply has_column_false in Hc. rewrite Hc. simpl.
      now rewrite app_nil_r. }
  destruct (getitem df "pm2.5_cf_1") as [col|]; simpl;
    [|now rewrite app_nil_r].
  destruct (mean col) as [raw|]; simpl; [|now rewrite app_nil_r].
  destruct (F64.isna raw); simpl; [now rewrite app_nil_r|].
  destruct (500 <? 0.778 * raw + 2.65); simpl; [now rewrite app_nil_r|].
  destruct (_ =? 0)%nat; reflexivity.
Qed.

Lemma analysis_step_air_data (total : nat) (st : PurpleAirAnalysis.State)
    (f : SensorFile Series) :
  PurpleAirAnalysis.air_data
    (PurpleAirAnalysis.step mean sensor_lookup total st f)
  = PurpleAirAnalysis.air_data st ++ option_to_list (kept_reading mean sensor_lookup f).
Proof.
  unfold PurpleAirAnalysis.step, PurpleAirAnalysis.body, kept_reading.
  destruct (sensor_id_of (path f)) as [i|]; simpl;
    [|now rewrite app_nil_r].
  destruct (sensor_lookup !! i) as [[la lo]|]; simpl;
    [|now rewrite app_nil_r].
  destruct (read_csv f) as [df|]; simpl; [|now rewrite app_nil_r].
  destruct (has_column df "pm2.5_cf_1") eqn:Hc; simpl.
  2:{ apply has_column_false in Hc. rewrite Hc. simpl.
      now rewrite app_nil_r. }
  destruct (getitem df "pm2.5_cf_1") as [col|]; simpl;
    [|now rewrite app_nil_r].
  destruct (mean col) as [raw|]; simpl; [|now rewrite app_nil_r].
  destruct (F64.isna raw); simpl; [now rewrite app_nil_r|].
  unfold PurpleAirAnalysis.PM25_CORRECTION_SLOPE,
    PurpleAirAnalysis.PM25_CORRECTION_INTERCEPT,
    PurpleAirAnalysis.PM25_OUTLIER_THRESHOLD.
  destruct (500 <? 0.778 * raw + 2.65); simpl; [now rewrite app_nil_r|].
  destruct (_ =? 0)%nat; reflexivity.
Qed.

Lemma statistics_step_air_data (air_data : list Row)
    (f : SensorFile Series) :
  CalculateStatistics.step mean sensor_lookup air_data f
  = air_data ++ option_to_list (kept_reading mean sensor_lookup f).
Proof.
  unfold CalculateStatistics.step, CalculateStatistics.body, kept_reading.
  destruct (sensor_id_of (path f)) as [i|]; simpl;
    [|now rewrite app_nil_r].
  destruct (sensor_lookup !! i) as [[la lo]|]; simpl;
    [|now rewrite app_nil_r].
  destruct (read_csv f) as [df|]; simpl; [|now rewrite app_nil_r].
  destruct (has_column df "pm2.5_cf_1") eqn:Hc; simpl.
  2:{ apply has_column_false in Hc. rewrite Hc. simpl.
      now rewrite app_nil_r. }
  destruct (getitem df "pm2.5_cf_1") as [col|]; simpl;
    [|now rewrite app_nil_r].
  destruct (mean col) as [raw|]; simpl; [|now rewrite app_nil_r].
  destruct (F64.isna raw); simpl; [now rewrite app_nil_r|].
  destruct (500 <? 0.778 * raw + 2.65); simpl; [now rewrite app_nil_r|].
  reflexivity.
Qed.
End Reading.

(* ===================================================================== *)
(** * The loops as a whole *)
(* ===================================================================== *)

(** A loop whose every iteration appends [g f] to a list it carries ends
    with the contributions of all files, in order. *)
Lemma fold_left_contributions {S A F : Type}
    (proj : S -> list A) (step : S -> F -> S) (g : F -> list A) :
  (forall st f, proj (step st f) = proj st ++ g f) ->
  forall fs st, proj (fold_left step fs st) = proj st ++ flat_map g fs.
Proof.
  intros Hstep. induction fs as [|f fs IH]; intros st; simpl.
  - now rewrite app_nil_r.
  - rewrite IH, Hstep, <- app_assoc. reflexivity.
Qed.

Section Loops.
Context {Series : Type}.
Variable mean : Series -> option float.
Variable sensor_lookup : SensorLookup.

Lemma main_rows (csv_files : list (SensorFile Series)) :
  fst (fst (PurpleAirMain.process_purpleair_data
              mean csv_files sensor_lookup))
  = kept_rows mean sensor_lookup csv_files.
Proof.
  unfold PurpleAirMain.process_purpleair_data, PurpleAirMain.loop. simpl.
  rewrite (fold_left_contributions PurpleAirMain.air_data _ _
             (main_step_air_data mean sensor_lookup _)).
  reflexivity.
Qed.

Lemma analysis_rows (csv_files : list (SensorFile Series)) :
  fst (fst (PurpleAirAnalysis.process_purpleair_data
              mean csv_files sensor_lookup))
  = kept_rows mean sensor_lookup csv_files.
Proof.
  unfold PurpleAirAnalysis.process_purpleair_data, PurpleAirAnalysis.loop.
  simpl.
  rewrite (fold_left_contributions PurpleAirAnalysis.air_data _ _
             (analysis_step_air_data mean sensor_lookup _)).
  reflexivity.
Qed.

Lemma statistics_rows (csv_files : list (SensorFile Series)) :
  CalculateStatistics.purpleair_rows mean sensor_lookup csv_files
  = kept_rows mean sensor_lookup csv_files.
Proof.
  unfold CalculateStatistics.purpleair_rows.
  rewrite (fold_left_contributions (fun l : list Row => l) _ _
             (statistics_step_air_data mean sensor_lookup)).
  reflexivity.
Qed.

Lemma kept_rows_inv (csv_files : list (SensorFile Series)) (row : Row) :
  In row (kept_rows mean sensor_lookup csv_files) ->
  exists f, In f csv_files /\ kept_reading mean sensor_lookup f = Some row.
Proof.
  unfold kept_rows. rewrite in_flat_map. intros (f & Hf & Hrow).
  exists f. split; [exact Hf|].
  destruct (kept_reading mean sensor_lookup f) as [r|]; simpl in Hrow.
  - destruct Hrow as [->|[]]. reflexivity.
  - destruct Hrow.
Qed.
End Loops.

Example demo_main_run :
  let '(rows, dates, st) :=
    PurpleAirMain.process_purpleair_data
      Demo.mean Demo.csv_files Demo.sensor_lookup in
  rows = [mkRow 40.7608 (-111.891) 33.77 100865] /\
  dates = mkDateRange (Some "2026-01-01") (Some "2026-01-25") "60-Minute" /\
  PurpleAirMain.processed st = 1 /\ PurpleAirMain.skipped st = 4.
Proof. vm_compute. repeat split. Qed.

Example demo_analysis_run :
  let '(rows, dates, st) :=
    PurpleAirAnalysis.process_purpleair_data
      Demo.mean Demo.csv_files Demo.sensor_lookup in
  rows = [mkRow 40.7608 (-111.891) 33.77 100865] /\
  PurpleAirAnalysis.processed st = 1 /\
  PurpleAirAnalysis.skipped st = 3 /\
  PurpleAirAnalysis.outliers st = 1.
Proof. vm_compute. repeat split. Qed.

(* ===================================================================== *)
(** * Kept rows carry the corrected value *)
(* ===================================================================== *)

(** C1.  Every row that [process_purpleair_data] keeps, in main.py as in
    purpleair_analysis.py, comes from a file of the directory whose sensor
    is in the lookup and whose column [pm2.5_cf_1] has a mean [raw]; the
    row's [pm25] is [0.778 * raw + 2.65] and it is at most 500. *)
Theorem kept_rows_are_corrected {Series : Type}
    (mean : Series -> option float)
    (csv_files : list (SensorFile Series)) (sensor_lookup : SensorLookup)
    (row : Row) :
  In row (fst (fst (PurpleAirMain.process_purpleair_data
                      mean csv_files sensor_lookup))) \/
  In row (fst (fst (PurpleAirAnalysis.process_purpleair_data
                      mean csv_files sensor_lookup))) ->
  exists f df col raw,
    In f csv_files /\
    sensor_id_of (path f) = Some (sensor_id row) /\
    sensor_lookup !! sensor_id row = Some (lat row, lon row) /\
    read_csv f = Some df /\
    getitem df "pm2.5_cf_1" = Some col /\
    mean col = Some raw /\
    pm25 row = (0.778 * raw + 2.65)%float /\
    (pm25 row <=? 500)%float = true.
Proof.
  rewrite main_rows, analysis_rows. intros Hin.
  assert (In row (kept_rows mean sensor_lookup csv_files)) as Hrow
    by (destruct Hin; assumption).
  destruct (kept_rows_inv _ _ _ _ Hrow) as (f & Hf & Hkept).
  destruct (kept_reading_inv _ _ _ _ Hkept)
    as (df & col & raw & Hid & Hloc & Hread & Hcol & Hmean & Hnan & Hval & Hgt).
  exists f, df, col, raw. repeat split; auto.
  rewrite Hval in *. now apply corrected_at_most_500.
Qed.

Lemma kept_rows_are_corrected_witness :
  exists f df col raw,
    In f Demo.csv_files /\
    sensor_id_of (path f) = Some 100865%Z /\
    Demo.sensor_lookup !! 100865%Z = Some (40.7608, -111.891)%float /\
    read_csv f = Some df /\
    getitem df "pm2.5_cf_1" = Some col /\
    Demo.mean col = Some raw /\
    33.77%float = (0.778 * raw + 2.65)%float /\
    (33.77 <=? 500)%float = true.
Proof.
  apply (kept_rows_are_corrected Demo.mean Demo.csv_files Demo.sensor_lookup
           (mkRow 40.7608 (-111.891) 33.77 100865)).
  left. vm_compute. left. reflexivity.
Defined.

(* ===================================================================== *)
(** * The three copies of the loop *)
(* ===================================================================== *)

(** C10.  On the same lookup and the same list of sensor files, the loops
    of main.py, purpleair_analysis.py and calculate_statistics.py keep the
    same rows, in the same order. *)
Theorem three_loops_keep_the_same_rows {Series : Type}
    (mean : Series -> option float)
    (csv_files : list (SensorFile Series)) (sensor_lookup : SensorLookup) :
  fst (fst (PurpleAirMain.process_purpleair_data
              mean csv_files sensor_lookup))
  = fst (fst (PurpleAirAnalysis.process_purpleair_data
                mean csv_files sensor_lookup)) /\
  fst (fst (PurpleAirAnalysis.process_purpleair_data
              mean csv_files sensor_lookup))
  = CalculateStatistics.purpleair_rows mean sensor_lookup csv_files.
Proof.
  rewrite main_rows, analysis_rows, statistics_rows. split; reflexivity.
Qed.

(* ===================================================================== *)
(** * Why a file is rejected *)
(* ===================================================================== *)

Section Rejection.
Local Open Scope float_scope.
Context {Series : Type}.
Variable mean : Series -> option float.
Variable sensor_lookup : SensorLookup.

Lemma kept_reading_none (f : SensorFile Series) :
  kept_reading mean sensor_lookup f = None <->
  bad_name f \/ missing_location sensor_lookup f \/ unreadable f \/
  missing_column f \/ mean_raises mean f \/ mean_is_nan mean f \/
  implausible mean f.
Proof.
  split.
  - unfold kept_reading, bad_name, missing_location, unreadable,
      missing_column, mean_raises, mean_is_nan, implausible.
    destruct (sensor_id_of (path f)) as [i|]; simpl; [|tauto].
    destruct (sensor_lookup !! i) as [loc|] eqn:Hl; simpl.
    2:{ intros _. right. left. exists i. auto. }
    destruct (read_csv f) as [df|]; simpl; [|tauto].
    destruct (getitem df "pm2.5_cf_1") as [col|] eqn:Hg; simpl.
    2:{ apply has_column_false in Hg. intros _. do 3 right. left.
        exists df. auto. }
    destruct (mean col) as [raw|] eqn:Hm; simpl.
    2:{ intros _. do 4 right. left. exists df, col. auto. }
    destruct (F64.isna raw) eqn:Hn; simpl.
    { intros _. do 5 right. left. exists df, col, raw. auto. }
    destruct (500 <? 0.778 * raw + 2.65) eqn:Hgt; [|discriminate].
    intros _. do 6 right. exists df, col, raw. auto.
  - intros H.
    destruct (kept_reading mean sensor_lookup f) as [row|] eqn:Hk;
      [exfalso|reflexivity].
    destruct (kept_reading_inv _ _ _ _ Hk)
      as (df & col & raw & Hid & Hloc & Hread & Hcol & Hmean & Hnan
          & Hval & Hgt).
    rewrite Hval in Hgt.
    destruct H as [H|[(i & Hi & Hl)|[H|[(d & Hd & Hc)|[(d & c & Hd & Hc & Hm)
      |[(d & c & r & Hd & Hc & Hm & Hn)|(d & c & r & Hd & Hc & Hm & Hg)]]]]]];
      unfold bad_name, unreadable in *; try congruence;
      try (apply has_column_false in Hc; congruence);
      assert (d = df) by congruence; subst d;
      assert (c = col) by congruence; subst c; try congruence;
      assert (r = raw) by congruence; subst r; congruence.
Qed.

(** What one iteration of purpleair_analysis.py does to the counters. *)
Lemma analysis_step_counters (total : nat) (st : PurpleAirAnalysis.State)
    (f : SensorFile Series) :
  let st' := PurpleAirAnalysis.step mean sensor_lookup total st f in
  match kept_reading mean sensor_lookup f with
  | Some _ =>
      PurpleAirAnalysis.processed st' = S (PurpleAirAnalysis.processed st) /\
      PurpleAirAnalysis.skipped st' = PurpleAirAnalysis.skipped st /\
      PurpleAirAnalysis.outliers st' = PurpleAirAnalysis.outliers st
  | None =>
      PurpleAirAnalysis.processed st' = PurpleAirAnalysis.processed st /\
      ((PurpleAirAnalysis.skipped st' = S (PurpleAirAnalysis.skipped st) /\
        PurpleAirAnalysis.outliers st' = PurpleAirAnalysis.outliers st)
       \/
       (PurpleAirAnalysis.skipped st' = PurpleAirAnalysis.skipped st /\
        PurpleAirAnalysis.outliers st' = S (PurpleAirAnalysis.outliers st) /\
        implausible mean f))
  end.
Proof.
  unfold PurpleAirAnalysis.step, PurpleAirAnalysis.body, kept_reading,
    implausible.
  destruct (sensor_id_of (path f)) as [i|]; simpl; [|tauto].
  destruct (sensor_lookup !! i) as [[la lo]|]; simpl; [|tauto].
  destruct (read_csv f) as [df|]; simpl; [|tauto].
  destruct (has_column df "pm2.5_cf_1") eqn:Hc; simpl.
  2:{ apply has_column_false in Hc. rewrite Hc. simpl. tauto. }
  destruct (getitem df "pm2.5_cf_1") as [col|] eqn:Hg; simpl; [|tauto].
  destruct (mean col) as [raw|] eqn:Hm; simpl; [|tauto].
  destruct (F64.isna raw); simpl; [tauto|].
  unfold PurpleAirAnalysis.PM25_CORRECTION_SLOPE,
    PurpleAirAnalysis.PM25_CORRECTION_INTERCEPT,
    PurpleAirAnalysis.PM25_OUTLIER_THRESHOLD.
  destruct (500 <? 0.778 * raw + 2.65) eqn:Hgt; simpl.
  - split; [reflexivity|]. right.
    split; [reflexivity|]. split; [reflexivity|].
    exists df, col, raw. auto.
  - destruct (_ =? 0)%nat; simpl; tauto.
Qed.

(** Every file ends up in exactly one of the three counters. *)
Lemma analysis_loop_counts (total : nat)
    (csv_files : list (SensorFile Series)) (st : PurpleAirAnalysis.State) :
  let final :=
    fold_left (PurpleAirAnalysis.step mean sensor_lookup total)
              csv_files st in
  (PurpleAirAnalysis.processed final + PurpleAirAnalysis.skipped final
    + PurpleAirAnalysis.outliers final
  = PurpleAirAnalysis.processed st + PurpleAirAnalysis.skipped st
    + PurpleAirAnalysis.outliers st + length csv_files)%nat.
Proof.
  revert st. induction csv_files as [|f fs IH]; intros st; simpl.
  - lia.
  - simpl in IH. rewrite IH.
    pose proof (analysis_step_counters total st f) as H. simpl in H.
    destruct (kept_reading mean sensor_lookup f); lia.
Qed.
End Rejection.

(** C4, as the code has it.  In purpleair_analysis.py a file contributes no
    row exactly when its name does not start with an integer, the sensor
    is not in the lookup, the file cannot be read, the column
    [pm2.5_cf_1] is absent, its mean cannot be taken, the mean is NaN, or
    the corrected value exceeds 500.  Such a file moves exactly one of the
    counters [skipped] and [outliers] by one, [outliers] only for a value
    above 500; any other file adds one row and one to [processed].  The
    loop goes through every file: at its end the three counters add up to
    the number of files. *)
Theorem rejected_files_are_counted {Series : Type}
    (mean : Series -> option float) (sensor_lookup : SensorLookup)
    (total : nat) (st : PurpleAirAnalysis.State) (f : SensorFile Series) :
  let st' := PurpleAirAnalysis.step mean sensor_lookup total st f in
  (PurpleAirAnalysis.air_data st' = PurpleAirAnalysis.air_data st <->
   bad_name f \/ missing_location sensor_lookup f \/ unreadable f \/
   missing_column f \/ mean_raises mean f \/ mean_is_nan mean f \/
   implausible mean f) /\
  (PurpleAirAnalysis.air_data st' = PurpleAirAnalysis.air_data st ->
   PurpleAirAnalysis.processed st' = PurpleAirAnalysis.processed st /\
   (PurpleAirAnalysis.skipped st' + PurpleAirAnalysis.outliers st'
    = S (PurpleAirAnalysis.skipped st + PurpleAirAnalysis.outliers st))%nat /\
   (PurpleAirAnalysis.outliers st' = S (PurpleAirAnalysis.outliers st) ->
    implausible mean f)) /\
  (PurpleAirAnalysis.air_data st' <> PurpleAirAnalysis.air_data st ->
   exists row,
     PurpleAirAnalysis.air_data st' = PurpleAirAnalysis.air_data st ++ [row] /\
     PurpleAirAnalysis.processed st' = S (PurpleAirAnalysis.processed st) /\
     PurpleAirAnalysis.skipped st' = PurpleAirAnalysis.skipped st /\
     PurpleAirAnalysis.outliers st' = PurpleAirAnalysis.outliers st) /\
  (forall csv_files : list (SensorFile Series),
     let final :=
       PurpleAirAnalysis.loop mean sensor_lookup (length csv_files)
                              csv_files in
     (PurpleAirAnalysis.processed final + PurpleAirAnalysis.skipped final
      + PurpleAirAnalysis.outliers final = length csv_files)%nat).
Proof.
  intros st'.
  pose proof (analysis_step_air_data mean sensor_lookup total st f) as Hdata.
  pose proof (analysis_step_counters mean sensor_lookup total st f) as Hcnt.
  fold st' in Hdata. simpl in Hcnt. fold st' in Hcnt.
  assert (PurpleAirAnalysis.air_data st' = PurpleAirAnalysis.air_data st <->
          kept_reading mean sensor_lookup f = None) as Hrej.
  { rewrite Hdata.
    destruct (kept_reading mean sensor_lookup f) as [row|]; simpl.
    - split; [|discriminate]. intros E.
      apply (f_equal (@length Row)) in E. rewrite length_app in E.
      simpl in E. lia.
    - rewrite app_nil_r. tauto. }
  split; [|split; [|split]].
  - rewrite Hrej. apply kept_reading_none.
  - intros E. apply Hrej in E. rewrite E in Hcnt.
    destruct Hcnt as [Hp [[Hs Ho]|(Hs & Ho & Hi)]];
      (split; [exact Hp|split; [lia|]]).
    + intros Ho'. lia.
    + intros _. exact Hi.
  - intros E.
    destruct (kept_reading mean sensor_lookup f) as [row|] eqn:Hk.
    + exists row. simpl in Hdata. tauto.
    + exfalso. apply E, Hrej. reflexivity.
  - intros csv_files final. subst final. unfold PurpleAirAnalysis.loop.
    rewrite analysis_loop_counts. reflexivity.
Qed.

(** C4, the claim as stated, fails.  A file whose sensor is in the lookup
    and whose column [pm2.5_cf_1] is there but holds text is rejected and
    counted as skipped, and so is a file whose name starts with no
    integer, although for neither of them an id is missing from the
    lookup, the column is absent, the mean is NaN or a corrected value
    exceeds 500. *)
Lemma files_rejected_by_an_exception :
  (PurpleAirAnalysis.air_data
     (PurpleAirAnalysis.step Demo.mean Demo.sensor_lookup 5
        (PurpleAirAnalysis.mkState [] 0 0 0 []) Demo.garbled) = [] /\
   PurpleAirAnalysis.skipped
     (PurpleAirAnalysis.step Demo.mean Demo.sensor_lookup 5
        (PurpleAirAnalysis.mkState [] 0 0 0 []) Demo.garbled) = 1 /\
   ~ (missing_location Demo.sensor_lookup Demo.garbled \/
      missing_column Demo.garbled \/
      mean_is_nan Demo.mean Demo.garbled \/
      implausible Demo.mean Demo.garbled)) /\
  (PurpleAirAnalysis.air_data
     (PurpleAirAnalysis.step Demo.mean Demo.sensor_lookup 5
        (PurpleAirAnalysis.mkState [] 0 0 0 []) Demo.stray) = [] /\
   PurpleAirAnalysis.skipped
     (PurpleAirAnalysis.step Demo.mean Demo.sensor_lookup 5
        (PurpleAirAnalysis.mkState [] 0 0 0 []) Demo.stray) = 1 /\
   ~ (missing_location Demo.sensor_lookup Demo.stray \/
      missing_column Demo.stray \/
      mean_is_nan Demo.mean Demo.stray \/
      implausible Demo.mean Demo.stray)).
Proof.
  split; (split; [reflexivity|]; split; [reflexivity|]).
  - intros [(i & Hi & Hl)|[(df & Hd & Hc)|[(df & col & raw & Hd & Hc & Hm & _)
      |(df & col & raw & Hd & Hc & Hm & _)]]].
    + vm_compute in Hi. injection Hi as <-. vm_compute in Hl. discriminate.
    + simpl in Hd. injection Hd as <-. vm_compute in Hc. discriminate.
    + simpl in Hd. injection Hd as <-. vm_compute in Hc. injection Hc as <-.
      discriminate.
    + simpl in Hd. injection Hd as <-. vm_compute in Hc. injection Hc as <-.
      discriminate.
  - intros [(i & Hi & Hl)|[(df & Hd & Hc)
      |[(df & col & raw & Hd & Hc & Hm & Hn)
      |(df & col & raw & Hd & Hc & Hm & Hg)]]].
    + vm_compute in Hi. discriminate.
    + simpl in Hd. injection Hd as <-. vm_compute in Hc. discriminate.
    + simpl in Hd. injection Hd as <-. vm_compute in Hc. injection Hc as <-.
      vm_compute in Hm. injection Hm as <-. vm_compute in Hn. discriminate.
    + simpl in Hd. injection Hd as <-. vm_compute in Hc. injection Hc as <-.
      vm_compute in Hm. injection Hm as <-. vm_compute in Hg. discriminate.
Qed.

(* ===================================================================== *)
(** * The worked example *)
(* ===================================================================== *)

(** C8.  A sensor of the lookup whose raw average is 40.0 gets the
    corrected value 0.778*40.0+2.65 = 33.77, is kept by the loop of
    main.py (33.77 <= 500), and 33.77, lying in [12, 35), is classified
    "Moderate" (colour orange). *)
Theorem worked_example {Series : Type}
    (mean : Series -> option float) (sensor_lookup : SensorLookup)
    (total : nat) (st : PurpleAirMain.State) (f : SensorFile Series)
    (id : Z) (la lo : float) (df : DataFrame Series) (col : Series) :
  sensor_id_of (path f) = Some id ->
  sensor_lookup !! id = Some (la, lo) ->
  read_csv f = Some df ->
  getitem df "pm2.5_cf_1" = Some col ->
  mean col = Some 40%float ->
  (0.778 * 40 + 2.65)%float = 33.77%float /\
  PurpleAirMain.air_data (PurpleAirMain.step mean sensor_lookup total st f)
  = PurpleAirMain.air_data st ++ [mkRow la lo 33.77 id] /\
  (33.77 <=? 500)%float = true /\
  (12 <=? 33.77)%float = true /\ (33.77 <? 35)%float = true /\
  PurpleAirMain.get_aqi_category 33.77 = "Moderate" /\
  PurpleAirMain.marker_status 33.77 = "Moderate" /\
  PurpleAirMain.get_pm25_color 33.77 = "orange".
Proof.
  intros Hid Hloc Hread Hcol Hmean.
  split; [reflexivity|]. split; [|repeat split].
  rewrite main_step_air_data. unfold kept_reading.
  rewrite Hid. simpl. rewrite Hloc. simpl. rewrite Hread. simpl.
  rewrite Hcol. simpl. rewrite Hmean. reflexivity.
Qed.

Lemma worked_example_witness :
  (0.778 * 40 + 2.65)%float = 33.77%float /\
  PurpleAirMain.air_data
    (PurpleAirMain.step Demo.mean Demo.sensor_lookup 4
       (PurpleAirMain.mkState [] 0 0 []) Demo.steady)
  = [] ++ [mkRow 40.7608 (-111.891) 33.77 100865] /\
  (33.77 <=? 500)%float = true /\
  (12 <=? 33.77)%float = true /\ (33.77 <? 35)%float = true /\
  PurpleAirMain.get_aqi_category 33.77 = "Moderate" /\
  PurpleAirMain.marker_status 33.77 = "Moderate" /\
  PurpleAirMain.get_pm25_color 33.77 = "orange".
Proof.
  apply (worked_example Demo.mean Demo.sensor_lookup 4
           (PurpleAirMain.mkState [] 0 0 []) Demo.steady 100865
           40.7608%float (-111.891)%float
           [ ("time_stamp", Demo.Text ["2026-01-01T00:00:00Z";
                                       "2026-01-01T01:00:00Z"]);
             ("humidity", Demo.Numbers [55; 54]%float);
             ("pm2.5_cf_1", Demo.Numbers [38; 42]%float) ]
           (Demo.Numbers [38; 42]%float));
    reflexivity.
Defined.

(* ===================================================================== *)
(** * AQI bands *)
(* ===================================================================== *)

Section BandFacts.
Local Open Scope float_scope.

(** A value of 35 or more is not below 12. *)
Lemma at_least_35_not_below_12 (v : float) :
  (35 <=? v) = true -> (v <? 12) = false.
Proof.
  rewrite leb_spec, ltb_spec. unfold SFleb, SFltb.
  change (Prim2SF 35) with (S754_finite false 4925812092436480 (-47)).
  change (Prim2SF 12) with (S754_finite false 6755399441055744 (-49)).
  destruct (Prim2SF v) as [s|s| |s m e]; cbn [SFcompare];
    try discriminate.
  - destruct s; intros; congruence.
  - destruct s; try discriminate.
    destruct (Z.compare_spec (-47) e) as [E|E|E]; try discriminate;
      intros _;
      destruct (Z.compare_spec e (-49)) as [E'|E'|E']; try lia;
      reflexivity.
Qed.

Lemma band_good (v : float) :
  (v <? 12) = true ->
  PurpleAirMain.get_aqi_category v = "Good" /\
  PurpleAirMain.get_pm25_color v = "green" /\
  PurpleAirMain.marker_status v = "Good".
Proof.
  intros H. unfold PurpleAirMain.get_aqi_category,
    PurpleAirMain.get_pm25_color, PurpleAirMain.marker_status.
  rewrite H. repeat split.
Qed.

Lemma band_moderate (v : float) :
  (12 <=? v) = true -> (v <? 35) = true ->
  PurpleAirMain.get_aqi_category v = "Moderate" /\
  PurpleAirMain.get_pm25_color v = "orange" /\
  PurpleAirMain.marker_status v = "Moderate".
Proof.
  intros H12 H35. apply F64Facts.le_not_gt in H12.
  unfold PurpleAirMain.get_aqi_category,
    PurpleAirMain.get_pm25_color, PurpleAirMain.marker_status.
  rewrite H12, H35. repeat split.
Qed.

Lemma band_top (v : float) :
  (35 <=? v) = true ->
  PurpleAirMain.get_aqi_category v = "Unhealthy" /\
  PurpleAirMain.get_pm25_color v = "red" /\
  PurpleAirMain.marker_status v = "Unhealthy for Sensitive Groups".
Proof.
  intros H35. pose proof (at_least_35_not_below_12 v H35) as H12.
  apply F64Facts.le_not_gt in H35.
  unfold PurpleAirMain.get_aqi_category,
    PurpleAirMain.get_pm25_color, PurpleAirMain.marker_status.
  rewrite H12, H35. repeat split.
Qed.
End BandFacts.

(** The bands as the three functions compute them.  The band of a PM2.5
    value depends on the value alone, with thresholds 12 and 35, in the
    analysis plots ([get_aqi_category]), in the marker colour
    ([get_pm25_color]) and in the marker status: below 12 it is "Good" and
    green, from 12 up to but excluding 35 "Moderate" and orange, from 35
    on red, a band that the analysis plots call "Unhealthy" and the
    marker status "Unhealthy for Sensitive Groups".  Every marker carries
    the colour and the status of its row's value. *)
Theorem aqi_bands (v : float) :
  ((v <? 12)%float = true ->
   PurpleAirMain.get_aqi_category v = "Good" /\
   PurpleAirMain.get_pm25_color v = "green" /\
   PurpleAirMain.marker_status v = "Good") /\
  ((12 <=? v)%float = true -> (v <? 35)%float = true ->
   PurpleAirMain.get_aqi_category v = "Moderate" /\
   PurpleAirMain.get_pm25_color v = "orange" /\
   PurpleAirMain.marker_status v = "Moderate") /\
  ((35 <=? v)%float = true ->
   PurpleAirMain.get_aqi_category v = "Unhealthy" /\
   PurpleAirMain.get_pm25_color v = "red" /\
   PurpleAirMain.marker_status v = "Unhealthy for Sensitive Groups") /\
  (forall row : Row,
     pm25 row = v ->
     PurpleAirMain.fill_color (PurpleAirMain.marker_of row)
     = PurpleAirMain.get_pm25_color v /\
     PurpleAirMain.popup_status (PurpleAirMain.marker_of row)
     = PurpleAirMain.marker_status v) /\
  map fst PurpleAirMain.legend_entries = ["green"; "orange"; "red"].
Proof.
  split; [apply band_good|]. split; [apply band_moderate|].
  split; [apply band_top|]. split; [|reflexivity].
  intros row <-. split; reflexivity.
Qed.

(** C3.  The claim holds of every path but one.  For a sensor whose
    value is 40, which is 35 or more, the analysis plots say "Unhealthy",
    the marker is red, and the legend of the same map names the red band
    "Unhealthy"; yet the status that [create_interactive_map] writes in
    the popup of the marker is "Unhealthy for Sensitive Groups", not
    "Unhealthy". *)
Lemma marker_status_differs :
  (35 <=? 40)%float = true /\
  PurpleAirMain.get_aqi_category 40 = "Unhealthy" /\
  PurpleAirMain.marker_status 40 <> "Unhealthy" /\
  PurpleAirMain.popup_status
    (PurpleAirMain.marker_of (mkRow 40.7608 (-111.891) 40 100865))
  <> PurpleAirMain.get_aqi_category 40 /\
  PurpleAirMain.popup_status
    (PurpleAirMain.marker_of (mkRow 40.7608 (-111.891) 40 100865))
  = "Unhealthy for Sensitive Groups" /\
  PurpleAirMain.fill_color
    (PurpleAirMain.marker_of (mkRow 40.7608 (-111.891) 40 100865))
  = "red" /\
  In ("red", "Unhealthy (>35 µg/m³)") PurpleAirMain.legend_entries.
Proof.
  split; [reflexivity|]. split; [reflexivity|].
  split; [vm_compute; discriminate|].
  split; [vm_compute; discriminate|].
  split; [reflexivity|]. split; [reflexivity|].
  right. right. left. reflexivity.
Qed.

(* ===================================================================== *)
(** * The merge of tract shapes and census rows *)
(* ===================================================================== *)

Lemma filter_empty_when_none {A} (p : A -> bool) (l : list A) :
  length (List.filter p l) = 0 -> forall x, In x l -> p x = false.
Proof.
  intros Hlen x Hx. destruct (p x) eqn:E; [|reflexivity].
  assert (In x (List.filter p l)) as Hin by (apply filter_In; auto).
  destruct (List.filter p l); [destruct Hin | discriminate].
Qed.

Section MergeFacts.
Local Open Scope float_scope.
Context {Geometry : Type}.
Variable area : Geometry -> float.
Variable quantile : list float -> float -> float.

Lemma main_inner_merge_spec (gdf : list (TractShape Geometry))
    (census_df : list PurpleAirMain.CensusRow)
    (r : PurpleAirMain.Merged) :
  In r (PurpleAirMain.inner_merge gdf census_df) <->
  In (fst r) gdf /\ In (snd r) census_df /\
  GEOID (fst r) = PurpleAirMain.census_GEOID (snd r).
Proof.
  unfold PurpleAirMain.inner_merge. rewrite in_flat_map. split.
  - intros (g & Hg & Hr). apply in_map_iff in Hr as (c & <- & Hc).
    apply filter_In in Hc as [Hc E]. apply String.eqb_eq in E. auto.
  - destruct r as [g c]. simpl. intros (Hg & Hc & E).
    exists g. split; [exact Hg|]. apply in_map_iff. exists c.
    split; [reflexivity|]. apply filter_In. split; [exact Hc|].
    now apply String.eqb_eq.
Qed.

Lemma epa_inner_merge_spec (gdf : list (TractShape Geometry))
    (census_df : list EPAMain.CensusRow) (r : EPAMain.Merged) :
  In r (EPAMain.inner_merge gdf census_df) <->
  In (fst r) gdf /\ In (snd r) census_df /\
  GEOID (fst r) = EPAMain.census_GEOID (snd r).
Proof.
  unfold EPAMain.inner_merge. rewrite in_flat_map. split.
  - intros (g & Hg & Hr). apply in_map_iff in Hr as (c & <- & Hc).
    apply filter_In in Hc as [Hc E]. apply String.eqb_eq in E. auto.
  - destruct r as [g c]. simpl. intros (Hg & Hc & E).
    exists g. split; [exact Hg|]. apply in_map_iff. exists c.
    split; [reflexivity|]. apply filter_In. split; [exact Hc|].
    now apply String.eqb_eq.
Qed.

Lemma main_merge_output (gdf : list (TractShape Geometry))
    (census_df : list PurpleAirMain.CensusRow)
    (r : PurpleAirMain.Merged) :
  In r (fst (PurpleAirMain.merge_geo_and_census area quantile
               gdf census_df)) <->
  In r (PurpleAirMain.inhabited (PurpleAirMain.inner_merge gdf census_df))
  /\ PurpleAirMain.outlier_mask area (main_area_95th area quantile gdf census_df) r
     = false.
Proof.
  unfold PurpleAirMain.merge_geo_and_census, main_area_95th.
  set (merged := PurpleAirMain.inhabited _).
  set (q := quantile _ _).
  destruct (0 <? length (List.filter _ merged))%nat eqn:E; simpl.
  - rewrite filter_In, negb_true_iff. tauto.
  - apply Nat.ltb_ge in E. split; [|tauto]. intros Hr. split; [exact Hr|].
    apply (filter_empty_when_none _ merged); [lia|exact Hr].
Qed.

Lemma epa_merge_output (gdf : list (TractShape Geometry))
    (census_df : list EPAMain.CensusRow) (r : EPAMain.Merged) :
  In r (fst (EPAMain.merge_geo_and_census area quantile gdf census_df)) <->
  In r (EPAMain.inhabited (EPAMain.inner_merge gdf census_df))
  /\ EPAMain.outlier_mask area (epa_area_95th area quantile gdf census_df) r = false.
Proof.
  unfold EPAMain.merge_geo_and_census, epa_area_95th.
  set (merged := EPAMain.inhabited _).
  set (q := quantile _ _).
  destruct (0 <? length (List.filter _ merged))%nat eqn:E; simpl.
  - rewrite filter_In, negb_true_iff. tauto.
  - apply Nat.ltb_ge in E. split; [|tauto]. intros Hr. split; [exact Hr|].
    apply (filter_empty_when_none _ merged); [lia|exact Hr].
Qed.
End MergeFacts.

(** C2, as the code has it.  Every row that [merge_geo_and_census]
    returns, in PurpleAirDataAnalysis/main.py (population 80+) as in
    EPADataAnalysis/main.py (population 65+), pairs a tract of the
    filtered shapefile with a row of the census table that has the same
    GEOID; its population in the band is greater than 0; and it is not the
    case that its area exceeds the 95th-percentile area and its population
    is below 10, the percentile being the one the function takes: over
    the areas of the joined tracts that passed the population filter,
    before any of them is dropped as an outlier. *)
Theorem merged_tracts_are_joined_inhabited_and_not_outliers
    {Geometry : Type} (area : Geometry -> float)
    (quantile : list float -> float -> float)
    (gdf : list (TractShape Geometry)) :
  (forall (census_df : list PurpleAirMain.CensusRow)
          (r : PurpleAirMain.Merged),
     In r (fst (PurpleAirMain.merge_geo_and_census area quantile
                  gdf census_df)) ->
     In (fst r) gdf /\ In (snd r) census_df /\
     GEOID (fst r) = PurpleAirMain.census_GEOID (snd r) /\
     (0 <? PurpleAirMain.pop_80_plus (snd r))%float = true /\
     ((main_area_95th area quantile gdf census_df
         <? area (geometry (fst r)))%float
      && (PurpleAirMain.pop_80_plus (snd r) <? 10)%float) = false) /\
  (forall (census_df : list EPAMain.CensusRow) (r : EPAMain.Merged),
     In r (fst (EPAMain.merge_geo_and_census area quantile gdf census_df)) ->
     In (fst r) gdf /\ In (snd r) census_df /\
     GEOID (fst r) = EPAMain.census_GEOID (snd r) /\
     (0 <? EPAMain.pop_65_plus (snd r))%float = true /\
     ((epa_area_95th area quantile gdf census_df
         <? area (geometry (fst r)))%float
      && (EPAMain.pop_65_plus (snd r) <? 10)%float) = false).
Proof.
  split; intros census_df r Hr.
  - apply main_merge_output in Hr as [Hin Hmask].
    apply filter_In in Hin as [Hin Hpop].
    apply main_inner_merge_spec in Hin as (Hg & Hc & E).
    repeat split; auto.
    unfold PurpleAirMain.outlier_mask, PurpleAirMain.area_m2 in Hmask.
    now rewrite andb_comm.
  - apply epa_merge_output in Hr as [Hin Hmask].
    apply filter_In in Hin as [Hin Hpop].
    apply epa_inner_merge_spec in Hin as (Hg & Hc & E).
    repeat split; auto.
    unfold EPAMain.outlier_mask, EPAMain.area_m2 in Hmask.
    now rewrite andb_comm.
Qed.

(** Three tracts and four census rows: one tract has no census row, one
    census row no tract, the lake tract has nobody aged 80 or more, the
    canyon tract is large with four such residents. *)
Example merge_run :
  let gdf :=
    [ mkTractShape "49035100100" "Census Tract 1001" 2000000%float;
      mkTractShape "49035980000" "Great Salt Lake" 900000000%float;
      mkTractShape "49035110100" "Canyon" 1000000000%float;
      mkTractShape "49035100200" "Census Tract 1002" 3000000%float;
      mkTractShape "49011990000" "No census row" 1000000%float ] in
  let census_df :=
    [ PurpleAirMain.mkCensusRow "49035100100" "Tract 1001" 120 3.5;
      PurpleAirMain.mkCensusRow "49035980000" "Lake" 0 0;
      PurpleAirMain.mkCensusRow "49035110100" "Canyon" 4 0.4;
      PurpleAirMain.mkCensusRow "49035100200" "Tract 1002" 8 1.1;
      PurpleAirMain.mkCensusRow "49057000100" "Elsewhere" 50 2 ] in
  map (fun r => GEOID (fst r))
      (fst (PurpleAirMain.merge_geo_and_census
              (fun a : float => a) (fun _ _ => 900300000%float)
              gdf census_df))
  = ["49035100100"; "49035100200"].
Proof. vm_compute. reflexivity. Qed.

(** C2, the claim as stated, fails.  Three tracts of 1, 2 and 3 square
    kilometres, each with five residents in the band: the function takes
    the percentile over the three, 2.9 square kilometres, and drops the
    largest tract.  Of the two tracts it returns, the percentile is 1.95
    square kilometres: the second has an area above it and fewer than
    ten residents in the band. *)
Lemma kept_tract_exceeds_the_percentile_of_the_kept :
  let kept :=
    fst (PurpleAirMain.merge_geo_and_census
           (fun a : float => a) DemoMerge.quantile
           DemoMerge.gdf DemoMerge.census_df) in
  map (fun r => GEOID (fst r)) kept = ["49035100100"; "49035100200"] /\
  exists r,
    In r kept /\
    (DemoMerge.quantile (map (fun r => geometry (fst r)) kept) 0.95
       <? geometry (fst r))%float = true /\
    (PurpleAirMain.pop_80_plus (snd r) <? 10)%float = true.
Proof.
  cbv zeta. split; [vm_compute; reflexivity|].
  exists (mkTractShape "49035100200" "Census Tract 1002" 2000000%float,
          PurpleAirMain.mkCensusRow "49035100200" "Tract 1002" 5 0.25).
  split; [vm_compute; right; left; reflexivity|].
  split; vm_compute; reflexivity.
Qed.

(* ===================================================================== *)
(** * The date window of the EPA records *)
(* ===================================================================== *)

Example inversion_window :
  EPAMain.INVERSION_START = 1735689600000000000%Z /\
  EPAMain.INVERSION_END = 1738195200000000000%Z /\
  EPAMain.days_from_civil 1970 1 1 = 0%Z /\
  EPAMain.days_from_civil 2024 2 29 = 19782%Z.
Proof. repeat split. Qed.

(** C5.  When no record of the EPA file falls in the inversion window,
    [process_epa_data] prints a warning and goes on with all records: the
    sites are aggregated from the whole file, and the whole file is
    returned as the filtered frame.  Otherwise the records of the window
    are aggregated and returned, and no warning is printed. *)
Theorem empty_window_falls_back_to_all_records
    (groupby_mean : list EPAMain.EpaRecord -> list EPAMain.EpaSite)
    (df : list EPAMain.EpaRecord) :
  (List.filter EPAMain.in_window df = [] ->
   fst (EPAMain.process_epa_data groupby_mean df) = (groupby_mean df, df) /\
   In EPAMain.WarnNoData (snd (EPAMain.process_epa_data groupby_mean df)) /\
   In (EPAMain.UsingAll (length df))
      (snd (EPAMain.process_epa_data groupby_mean df))) /\
  (List.filter EPAMain.in_window df <> [] ->
   fst (EPAMain.process_epa_data groupby_mean df)
   = (groupby_mean (List.filter EPAMain.in_window df),
      List.filter EPAMain.in_window df) /\
   ~ In EPAMain.WarnNoData
        (snd (EPAMain.process_epa_data groupby_mean df))).
Proof.
  unfold EPAMain.process_epa_data. split; intros H.
  - rewrite H. simpl. split; [reflexivity|]. split.
    + right. right. left. reflexivity.
    + do 4 right. left. reflexivity.
  - destruct (List.filter EPAMain.in_window df) as [|r l] eqn:E;
      [congruence|].
    simpl. split; [reflexivity|].
    intros [?|[?|[?|[]]]]; discriminate.
Qed.

(** Two readings of February 2025: none is in the window, both are used. *)
Example fallback_run :
  let feb d v :=
    EPAMain.mkEpaRecord (Some (EPAMain.midnight 2025 2 d)) 3006
                        "Hawthorne" 40.7343 (-111.8721) v in
  let df := [feb 3%Z 8.1%float; feb 4%Z 9.4%float] in
  let sites (l : list EPAMain.EpaRecord) :=
    [EPAMain.mkEpaSite 3006 "Hawthorne" 40.7343 (-111.8721) 8.75] in
  EPAMain.process_epa_data sites df
  = ((sites df, df),
     [ EPAMain.Loaded 2; EPAMain.FilteredTo 0; EPAMain.WarnNoData;
       EPAMain.AvailableDates (Some (EPAMain.midnight 2025 2 3))
                              (Some (EPAMain.midnight 2025 2 4));
       EPAMain.UsingAll 2; EPAMain.Aggregated 1 ]).
Proof. vm_compute. reflexivity. Qed.

(* ===================================================================== *)
(** * The census section of calculate_statistics.py *)
(* ===================================================================== *)

Section FrameFacts.
Import CalculateStatistics.

Lemma frame_get_missing (df : Frame) (c : string) :
  ~ In c (names df) -> frame_get df c = inl (KeyError c).
Proof.
  induction df as [|[name col] df IH]; simpl; intros H; [reflexivity|].
  destruct (String.eqb_spec c name) as [->|Hne]; [tauto|].
  apply IH. tauto.
Qed.

Lemma frame_get_present (df : Frame) (c : string) :
  In c (names df) -> exists col, frame_get df c = inr col.
Proof.
  induction df as [|[name col] df IH]; simpl; intros H; [destruct H|].
  destruct (String.eqb_spec c name) as [->|Hne]; [eauto|].
  apply IH. destruct H; congruence.
Qed.

Lemma frame_get_inr (df : Frame) (c : string) (col : Column) :
  frame_get df c = inr col -> In c (names df).
Proof.
  induction df as [|[name col'] df IH]; simpl; [discriminate|].
  destruct (String.eqb_spec c name) as [->|Hne]; auto.
Qed.

Lemma names_frame_set (df : Frame) (c : string) (col : Column) (x : string) :
  In x (names (frame_set df c col)) <-> In x (names df) \/ x = c.
Proof.
  induction df as [|[name old] df IH]; simpl.
  - split; [intros [<-|[]]; auto | intros [[]| ->]; auto].
  - destruct (String.eqb_spec c name) as [->|Hne]; simpl.
    + split; [tauto|]. intros [H| ->]; auto.
    + rewrite IH. tauto.
Qed.

Lemma frame_get_set_same (df : Frame) (c : string) (col : Column) :
  frame_get (frame_set df c col) c = inr col.
Proof.
  induction df as [|[name old] df IH]; simpl.
  - now rewrite String.eqb_refl.
  - destruct (String.eqb_spec c name) as [->|Hne]; simpl.
    + now rewrite String.eqb_refl.
    + destruct (String.eqb_spec c name); [congruence|exact IH].
Qed.

Lemma frame_get_set_other (df : Frame) (c c' : string) (col : Column) :
  c <> c' -> frame_get (frame_set df c' col) c = frame_get df c.
Proof.
  intros Hne. induction df as [|[name old] df IH]; simpl.
  - destruct (String.eqb_spec c c'); [congruence|reflexivity].
  - destruct (String.eqb_spec c' name) as [->|Hne']; simpl.
    + destruct (String.eqb_spec c name); [congruence|reflexivity].
    + destruct (String.eqb_spec c name); [reflexivity|exact IH].
Qed.

Lemma names_frame_select (mask : list bool) (df : Frame) :
  names (frame_select mask df) = names df.
Proof.
  unfold names, frame_select. rewrite map_map. reflexivity.
Qed.

Section WithPandas.
Variable to_numeric : string -> float.
Variable nansum : list float -> float.

Lemma convert_columns_names (cols : list string) (df df' : Frame) :
  convert_columns to_numeric cols df = inr df' ->
  forall x, In x (names df') <-> In x (names df).
Proof.
  revert df. induction cols as [|c cols IH]; simpl; intros df H x.
  - injection H as <-. tauto.
  - destruct (frame_get df c) as [e|col] eqn:E; simpl in H;
      [discriminate|].
    rewrite (IH _ H), names_frame_set.
    apply frame_get_inr in E. split; [intros [?| ->]; auto|tauto].
Qed.

Lemma convert_columns_ok (cols : list string) (df : Frame) :
  Forall (fun c => In c (names df)) cols ->
  exists df', convert_columns to_numeric cols df = inr df'.
Proof.
  revert df. induction cols as [|c cols IH]; simpl; intros df H.
  - eauto.
  - inversion H as [|? ? Hc Hcols]; subst.
    destruct (frame_get_present _ _ Hc) as [col ->]. simpl.
    apply IH. eapply List.Forall_impl; [|exact Hcols].
    intros a Ha. apply names_frame_set. auto.
Qed.

Lemma convert_columns_other (cols : list string) (df df' : Frame)
    (c : string) :
  ~ In c cols ->
  convert_columns to_numeric cols df = inr df' ->
  frame_get df' c = frame_get df c.
Proof.
  revert df. induction cols as [|c0 cols IH]; simpl; intros df Hc H.
  - now injection H as <-.
  - destruct (frame_get df c0) as [e|col] eqn:E; simpl in H;
      [discriminate|].
    rewrite (IH _ (fun Hin => Hc (or_intror Hin)) H).
    apply frame_get_set_other. intros ->. tauto.
Qed.

Lemma numeric_columns_ok (cols : list string) (df : Frame) :
  Forall (fun c => In c (names df)) cols ->
  exists l, numeric_columns to_numeric cols df = inr l.
Proof.
  induction cols as [|c cols IH]; simpl; intros H; [eauto|].
  inversion H as [|? ? Hc Hcols]; subst.
  destruct (frame_get_present _ _ Hc) as [col ->]. simpl.
  destruct (IH Hcols) as [l ->]. simpl. eauto.
Qed.

(** Reaching [study_area] and [inhabited] takes a column
    [pop_80_plus] in the file itself. *)
Lemma census_frames_needs_column (df : Frame)
    (study_area inhabited : Frame) :
  census_frames to_numeric nansum df = inr (study_area, inhabited) ->
  In "pop_80_plus" (names df).
Proof.
  unfold census_frames.
  destruct (convert_columns to_numeric age_columns df) as [e|df1] eqn:E1;
    cbn [bind]; [discriminate|].
  destruct (numeric_columns to_numeric age_columns df1) as [e|ages];
    cbn [bind]; [discriminate|].
  set (df2 := frame_set df1 "pop_65_plus" _).
  destruct (frame_get df2 "GEO_ID") as [e|geo_id]; cbn [bind];
    [discriminate|].
  destruct (str geo_id) as [e|cells]; cbn [bind]; [discriminate|].
  set (df3 := frame_set df2 "GEOID" _).
  destruct (frame_get df3 "GEOID") as [e|geoid]; cbn [bind]; [discriminate|].
  destruct (str geoid) as [e|cells']; cbn [bind]; [discriminate|].
  set (study := frame_select _ df3).
  destruct (frame_get study "pop_80_plus") as [e|pop] eqn:E; cbn [bind];
    [discriminate|].
  intros _. apply frame_get_inr in E.
  unfold study in E. rewrite names_frame_select in E.
  unfold df3 in E. apply names_frame_set in E as [E|E];
    [|discriminate].
  unfold df2 in E. apply names_frame_set in E as [E|E];
    [|discriminate].
  now apply (convert_columns_names _ _ _ E1).
Qed.

Lemma census_frames_key_error (df : Frame) (cells : list (option string)) :
  ~ In "pop_80_plus" (names df) ->
  Forall (fun c => In c (names df)) age_columns ->
  frame_get df "GEO_ID" = inr (ObjCol cells) ->
  census_frames to_numeric nansum df = inl (KeyError "pop_80_plus").
Proof.
  intros Hno Hages Hgeo. unfold census_frames.
  destruct (convert_columns_ok age_columns df Hages) as [df1 E1].
  rewrite E1. cbn [bind].
  assert (Forall (fun c => In c (names df1)) age_columns) as Hages1.
  { eapply List.Forall_impl; [|exact Hages].
    intros a Ha. now apply (convert_columns_names _ _ _ E1). }
  destruct (numeric_columns_ok age_columns df1 Hages1) as [ages ->].
  cbn [bind].
  rewrite frame_get_set_other by discriminate.
  rewrite (convert_columns_other age_columns df df1 "GEO_ID");
    [|vm_compute; intuition discriminate|exact E1].
  rewrite Hgeo. cbn [bind str]. rewrite frame_get_set_same.
  cbn [bind str].
  rewrite frame_get_missing; [reflexivity|].
  rewrite names_frame_select. intros E.
  apply names_frame_set in E as [E|E]; [|discriminate].
  apply names_frame_set in E as [E|E]; [|discriminate].
  apply Hno. now apply (convert_columns_names _ _ _ E1).
Qed.
End WithPandas.
End FrameFacts.

(** C9, as the code has it.  On every census table that has no column
    named [pop_80_plus] of its own, the census section of
    calculate_statistics.py ends in an exception after the banner and
    before any line of the summary; when the table has the twelve age
    columns and a text column [GEO_ID], the exception is the missing
    column [pop_80_plus], which the script never creates. *)
Theorem census_section_fails
    (to_numeric : string -> float) (nansum : list float -> float)
    (df : CalculateStatistics.Frame) :
  ~ In "pop_80_plus" (names df) ->
  (exists e,
     CalculateStatistics.census_section to_numeric nansum df
     = ([CalculateStatistics.CensusBanner], inl e)) /\
  (Forall (fun c => In c (names df)) CalculateStatistics.age_columns ->
   forall cells,
     CalculateStatistics.frame_get df "GEO_ID"
     = inr (CalculateStatistics.ObjCol cells) ->
     CalculateStatistics.census_section to_numeric nansum df
     = ([CalculateStatistics.CensusBanner],
        inl (CalculateStatistics.KeyError "pop_80_plus"))).
Proof.
  intros Hno. unfold CalculateStatistics.census_section. split.
  - destruct (CalculateStatistics.census_frames to_numeric nansum df)
      as [e|[study_area inhabited]] eqn:E; [eauto|].
    exfalso. apply Hno. eapply census_frames_needs_column. exact E.
  - intros Hages cells Hgeo.
    now rewrite (census_frames_key_error to_numeric nansum df cells).
Qed.

Lemma census_section_fails_witness :
  (exists e,
     CalculateStatistics.census_section
       DemoCensus.to_numeric DemoCensus.nansum DemoCensus.acs
     = ([CalculateStatistics.CensusBanner], inl e)) /\
  (Forall (fun c => In c (names DemoCensus.acs))
          CalculateStatistics.age_columns ->
   forall cells,
     CalculateStatistics.frame_get DemoCensus.acs "GEO_ID"
     = inr (CalculateStatistics.ObjCol cells) ->
     CalculateStatistics.census_section
       DemoCensus.to_numeric DemoCensus.nansum DemoCensus.acs
     = ([CalculateStatistics.CensusBanner],
        inl (CalculateStatistics.KeyError "pop_80_plus"))).
Proof.
  apply (census_section_fails DemoCensus.to_numeric DemoCensus.nansum
           DemoCensus.acs).
  simpl. intros H.
  repeat (destruct H as [H|H]; [discriminate H|]). exact H.
Defined.

Example acs_run :
  CalculateStatistics.census_section
    DemoCensus.to_numeric DemoCensus.nansum DemoCensus.acs
  = ([CalculateStatistics.CensusBanner],
     inl (CalculateStatistics.KeyError "pop_80_plus")).
Proof. vm_compute. reflexivity. Qed.

(** C9, the claim as stated, fails: on a table that brings a column
    [pop_80_plus] the section raises nothing and prints its summary. *)
Lemma census_section_can_succeed :
  CalculateStatistics.census_section
    DemoCensus.to_numeric DemoCensus.nansum DemoCensus.acs_with_pop_80_plus
  = ([ CalculateStatistics.CensusBanner;
       CalculateStatistics.PopulationSummary;
       CalculateStatistics.TotalTracts 1;
       CalculateStatistics.InhabitedTracts 1;
       CalculateStatistics.TotalPopulation 71 ],
     inr tt).
Proof. vm_compute. reflexivity. Qed.

(* ===================================================================== *)
(** * File names of sensor exports *)
(* ===================================================================== *)

Lemma list_ascii_of_string_app (a b : string) :
  list_ascii_of_string (a ++ b)%string
  = list_ascii_of_string a ++ list_ascii_of_string b.
Proof. induction a as [|c a IH]; simpl; [reflexivity|now rewrite IH]. Qed.

Lemma field_char_not_space (c : ascii) :
  field_char c = true -> Py.isspace c = false.
Proof.
  unfold field_char, Py.isspace. cbv zeta.
  rewrite !andb_true_iff, orb_false_iff, !andb_false_iff.
  intros [[[H _] _] _]. apply Nat.leb_le in H.
  split; right; apply Nat.leb_gt; lia.
Qed.

Lemma field_char_not_slash (c : ascii) :
  field_char c = true -> Ascii.eqb c "/"%char = false.
Proof.
  unfold field_char. cbv zeta. rewrite !andb_true_iff, !negb_true_iff.
  tauto.
Qed.

(** Reading a field pushes its characters on the word being built. *)
Lemma split_go_field (w : list ascii) (cur rest : list ascii) :
  forallb field_char w = true ->
  Py.split_go cur (w ++ rest) = Py.split_go (rev w ++ cur) rest.
Proof.
  revert cur. induction w as [|c w IH]; simpl; intros cur H; [reflexivity|].
  apply andb_true_iff in H as [Hc Hw].
  rewrite (field_char_not_space c Hc), IH by exact Hw.
  now rewrite <- app_assoc.
Qed.

(** A field followed by a blank is the next word. *)
Lemma split_go_field_blank (w : string) (b : ascii) (rest : list ascii) :
  file_name_field w -> Py.isspace b = true ->
  Py.split_go [] (list_ascii_of_string w ++ b :: rest)
  = w :: Py.split_go [] rest.
Proof.
  intros [Hne Hw] Hb. rewrite split_go_field by exact Hw.
  rewrite app_nil_r. simpl. rewrite Hb.
  destruct (rev (list_ascii_of_string w)) as [|c l] eqn:E.
  - exfalso. apply Hne. apply (f_equal (@rev ascii)) in E.
    rewrite rev_involutive in E. simpl in E.
    rewrite <- (string_of_list_ascii_of_string w), E. reflexivity.
  - rewrite <- E, rev_involutive, string_of_list_ascii_of_string.
    reflexivity.
Qed.

Lemma split_export_name (id start_ end_ interval_ : string) :
  file_name_field id -> file_name_field start_ ->
  file_name_field end_ -> file_name_field interval_ ->
  Py.split (export_name id start_ end_ interval_)
  = [id; start_; end_; interval_; "Average.csv"].
Proof.
  intros Hid Hs He Hi. unfold Py.split, export_name.
  rewrite !list_ascii_of_string_app.
  change (list_ascii_of_string " ") with [" "%char].
  simpl app.
  rewrite !split_go_field_blank by (auto; reflexivity).
  reflexivity.
Qed.

Lemma basename_go_field (w cur : list ascii) :
  forallb (fun c => negb (Ascii.eqb c "/"%char)) w = true ->
  Py.basename_go cur w = rev cur ++ w.
Proof.
  revert cur. induction w as [|c w IH]; simpl; intros cur H.
  - now rewrite app_nil_r.
  - apply andb_true_iff in H as [Hc Hw]. apply negb_true_iff in Hc.
    rewrite Hc, IH by exact Hw. simpl. now rewrite <- app_assoc.
Qed.

Lemma basename_go_dir (d cur name : list ascii) :
  forallb (fun c => negb (Ascii.eqb c "/"%char)) name = true ->
  Py.basename_go cur (d ++ "/"%char :: name) = name.
Proof.
  intros Hname. revert cur. induction d as [|c d IH]; simpl; intros cur.
  - now rewrite basename_go_field.
  - destruct (Ascii.eqb c "/"%char); apply IH.
Qed.

Lemma no_slash_app (a b : list ascii) :
  forallb (fun c => negb (Ascii.eqb c "/"%char)) (a ++ b)
  = forallb (fun c => negb (Ascii.eqb c "/"%char)) a
    && forallb (fun c => negb (Ascii.eqb c "/"%char)) b.
Proof. apply forallb_app. Qed.

Lemma field_no_slash (w : string) :
  file_name_field w ->
  forallb (fun c => negb (Ascii.eqb c "/"%char)) (list_ascii_of_string w)
  = true.
Proof.
  intros [_ H]. apply forallb_forall. intros c Hc.
  rewrite forallb_forall in H. apply negb_true_iff.
  now apply field_char_not_slash, H.
Qed.

Lemma basename_export_name (dir id start_ end_ interval_ : string) :
  file_name_field id -> file_name_field start_ ->
  file_name_field end_ -> file_name_field interval_ ->
  Py.basename (dir ++ "/" ++ export_name id start_ end_ interval_)
  = export_name id start_ end_ interval_.
Proof.
  intros Hid Hs He Hi. unfold Py.basename.
  rewrite !list_ascii_of_string_app.
  change (list_ascii_of_string "/") with ["/"%char]. simpl app.
  rewrite basename_go_dir.
  - apply string_of_list_ascii_of_string.
  - unfold export_name. rewrite !list_ascii_of_string_app, !no_slash_app.
    rewrite (field_no_slash id), (field_no_slash start_),
      (field_no_slash end_), (field_no_slash interval_) by assumption.
    reflexivity.
Qed.

(** X1.  For a file that the directory listing gives as
    [dir/<id> <start> <end> <interval> Average.csv], whatever the
    directory, with fields made of printable ASCII characters other than
    the slash and the backslash and an id of at most 4300 characters
    (the longest text that [int] reads since Python 3.11), the loop reads
    the sensor id as [int(<id>)], and when the file is the first of the
    listing the date range is [<start>], [<end>], [<interval>]. *)
Theorem export_name_is_parsed {Series : Type}
    (dir id start_ end_ interval_ : string)
    (f : SensorFile Series) (others : list (SensorFile Series)) :
  file_name_field id -> (String.length id <= 4300)%nat ->
  file_name_field start_ ->
  file_name_field end_ -> file_name_field interval_ ->
  path f = (dir ++ "/" ++ export_name id start_ end_ interval_)%string ->
  sensor_id_of (path f) = Py.int id /\
  date_range_of (f :: others)
  = mkDateRange (Some start_) (Some end_) interval_.
Proof.
  intros Hid _ Hs He Hi Hpath. unfold sensor_id_of, date_range_of.
  rewrite Hpath, basename_export_name, split_export_name by assumption.
  split; reflexivity.
Qed.

Lemma export_name_is_parsed_witness :
  sensor_id_of (path Demo.steady) = Py.int "100865" /\
  date_range_of (Demo.steady :: [Demo.stuck])
  = mkDateRange (Some "2026-01-01") (Some "2026-01-25") "60-Minute".
Proof.
  apply (export_name_is_parsed
           "../Data/PurpleAirData-Pm2.5Data/PurpleAir Download 1-25-2026"
           "100865" "2026-01-01" "2026-01-25" "60-Minute");
    try (split; [discriminate|reflexivity]).
  - simpl. lia.
  - reflexivity.
Defined.

(* ===================================================================== *)
(** * The sensor lookup *)
(* ===================================================================== *)

Example int_of_float_examples :
  PurpleAirPipeline.int_of_float 100865 = Some 100865%Z /\
  PurpleAirPipeline.int_of_float 2.75 = Some 2%Z /\
  PurpleAirPipeline.int_of_float (-2.75) = Some (-2)%Z /\
  PurpleAirPipeline.int_of_float 0.3 = Some 0%Z /\
  PurpleAirPipeline.int_of_float nan = None /\
  PurpleAirPipeline.int_of_float infinity = None.
Proof. repeat split; reflexivity. Qed.

Section LookupFacts.
Import PurpleAirPipeline.

Lemma load_snoc (sensors : list MasterRow) (row : MasterRow) :
  load_sensor_locations (sensors ++ [row])
  = (sensor_lookup ← load_sensor_locations sensors;
     i ← int_of_number (sensor_index row);
     Some (<[ i := (latitude row, longitude row) ]> sensor_lookup)).
Proof.
  unfold load_sensor_locations. rewrite fold_left_app. reflexivity.
Qed.

Lemma load_prefix (sensors : list MasterRow) (row : MasterRow)
    (lookup : SensorLookup) :
  load_sensor_locations (sensors ++ [row]) = Some lookup ->
  exists lookup0 i,
    load_sensor_locations sensors = Some lookup0 /\
    int_of_number (sensor_index row) = Some i /\
    lookup = <[ i := (latitude row, longitude row) ]> lookup0.
Proof.
  rewrite load_snoc.
  destruct (load_sensor_locations sensors) as [lookup0|]; simpl;
    [|discriminate].
  destruct (int_of_number (sensor_index row)) as [i|]; simpl;
    [|discriminate].
  intros [= <-]. eauto.
Qed.

Lemma rows_of_sensor_snoc (i : Z) (sensors : list MasterRow)
    (row : MasterRow) :
  rows_of_sensor i (sensors ++ [row])
  = rows_of_sensor i sensors ++ rows_of_sensor i [row].
Proof. unfold rows_of_sensor. apply List.filter_app. Qed.

Lemma load_lookup (sensors : list MasterRow) (lookup : SensorLookup) (i : Z) :
  load_sensor_locations sensors = Some lookup ->
  lookup !! i
  = option_map (fun r => (latitude r, longitude r))
               (last (rows_of_sensor i sensors)).
Proof.
  revert lookup. induction sensors as [|row sensors IH] using rev_ind;
    intros lookup H.
  - injection H as <-. reflexivity.
  - apply load_prefix in H as (lookup0 & j & H0 & Hj & ->).
    rewrite rows_of_sensor_snoc. unfold rows_of_sensor at 2. simpl.
    rewrite Hj. destruct (Z.eqb_spec j i) as [->|Hne].
    + rewrite lookup_insert_eq, last_snoc. reflexivity.
    + rewrite lookup_insert_ne by exact Hne. rewrite app_nil_r.
      now apply IH.
Qed.

Lemma load_fails (sensors : list MasterRow) :
  load_sensor_locations sensors = None <->
  exists row, In row sensors /\ int_of_number (sensor_index row) = None.
Proof.
  induction sensors as [|row sensors IH] using rev_ind.
  - split; [discriminate|intros (r & [] & _)].
  - rewrite load_snoc. split.
    + destruct (load_sensor_locations sensors) as [lookup0|] eqn:E; simpl.
      * destruct (int_of_number (sensor_index row)) eqn:Hi; simpl;
          [discriminate|].
        intros _. exists row. split; [apply in_or_app; simpl; auto|exact Hi].
      * intros _. destruct (proj1 IH eq_refl) as (r & Hr & Hn).
        exists r. split; [apply in_or_app; auto|exact Hn].
    + intros (r & Hr & Hn). apply in_app_or in Hr as [Hr|[->|[]]].
      * rewrite (proj2 IH (ex_intro _ r (conj Hr Hn))). reflexivity.
      * destruct (load_sensor_locations sensors); simpl;
          [rewrite Hn|]; reflexivity.
Qed.
End LookupFacts.

(** X2.  When [load_sensor_locations] returns, the lookup gives for every
    id the coordinates of the last row of the master list with that
    index, and nothing for an id that no row carries: a repeated index
    keeps its last coordinates. *)
Theorem lookup_holds_last_row_of_each_sensor
    (sensors : list PurpleAirPipeline.MasterRow) (lookup : SensorLookup)
    (i : Z) :
  PurpleAirPipeline.load_sensor_locations sensors = Some lookup ->
  lookup !! i
  = option_map (fun r => (PurpleAirPipeline.latitude r,
                          PurpleAirPipeline.longitude r))
               (last (rows_of_sensor i sensors)).
Proof. apply load_lookup. Qed.

Lemma lookup_holds_last_row_of_each_sensor_witness :
  (<[ 7%Z := (40.5, -111.5)%float ]>
     (<[ 9%Z := (40.9, -111.9)%float ]>
        (<[ 7%Z := (40.1, -111.1)%float ]> ∅)) : SensorLookup) !! 7%Z
  = option_map (fun r => (PurpleAirPipeline.latitude r,
                          PurpleAirPipeline.longitude r))
      (last (rows_of_sensor 7
               [ PurpleAirPipeline.mkMasterRow
                   (PurpleAirPipeline.PyInt 7) 40.1 (-111.1);
                 PurpleAirPipeline.mkMasterRow
                   (PurpleAirPipeline.PyFloat 9) 40.9 (-111.9);
                 PurpleAirPipeline.mkMasterRow
                   (PurpleAirPipeline.PyInt 7) 40.5 (-111.5) ])).
Proof.
  apply (lookup_holds_last_row_of_each_sensor
           [ PurpleAirPipeline.mkMasterRow
               (PurpleAirPipeline.PyInt 7) 40.1 (-111.1);
             PurpleAirPipeline.mkMasterRow
               (PurpleAirPipeline.PyFloat 9) 40.9 (-111.9);
             PurpleAirPipeline.mkMasterRow
               (PurpleAirPipeline.PyInt 7) 40.5 (-111.5) ]).
  reflexivity.
Defined.

Section MasterListFacts.
Variable int_of_str : string -> option Z.

Lemma int_of_float_fails (x : float) :
  PurpleAirPipeline.int_of_float x = None <->
  F64.isna x = true \/ Prim2SF x = S754_infinity false
  \/ Prim2SF x = S754_infinity true.
Proof.
  unfold PurpleAirPipeline.int_of_float. rewrite F64Facts.isna_spec.
  destruct (Prim2SF x) as [s|[]| |s m e]; split; auto; try discriminate;
    intros [H|[H|H]]; discriminate.
Qed.

(** A row is added unless it is unreadable, whatever the lookup holds. *)
Lemma add_row_fails (lookup : MasterList.Lookup) (row : MasterList.Series) :
  (exists e, MasterList.add_row int_of_str lookup row = inl e)
  <-> unreadable_row int_of_str row.
Proof.
  unfold MasterList.add_row, MasterList.getitem, unreadable_row.
  destruct (MasterList.cell row "latitude") as [la|];
    cbn [MasterList.bind]; [|split; eauto].
  destruct (MasterList.cell row "longitude") as [lo|];
    cbn [MasterList.bind]; [|split; eauto].
  destruct (MasterList.cell row "sensor_index") as [[z|x|b|s]|];
    cbn [MasterList.bind MasterList.int].
  - split; [intros [e H]; discriminate|intros [H|[H|[]]]; discriminate].
  - pose proof (int_of_float_fails x) as Hx.
    destruct (PurpleAirPipeline.int_of_float x) as [z|];
      cbn [MasterList.bind].
    + split; [intros [e H]; discriminate|].
      intros [H|[H|H]]; try discriminate. apply Hx in H. discriminate.
    + split; [intros _; right; right; now apply Hx|].
      intros _. destruct (F64.isna x); eauto.
  - split; [intros [e H]; discriminate|intros [H|[H|[]]]; discriminate].
  - destruct (int_of_str s) as [z|]; cbn [MasterList.bind].
    + split; [intros [e H]; discriminate|].
      intros [H|[H|H]]; discriminate.
    + split; eauto.
  - split; eauto.
Qed.

Lemma load_from_fails (sensors : list MasterList.Series)
    (lookup : MasterList.Lookup) :
  (exists e, MasterList.load_from int_of_str lookup sensors = inl e)
  <-> exists row, In row sensors /\ unreadable_row int_of_str row.
Proof.
  revert lookup. induction sensors as [|row sensors IH]; intros lookup.
  - split; [intros [e H]; discriminate|intros (r & [] & _)].
  - cbn [MasterList.load_from].
    pose proof (add_row_fails lookup row) as Hrow.
    destruct (MasterList.add_row int_of_str lookup row) as [e|lookup'];
      cbn [MasterList.bind].
    + split; [|eauto]. intros _. exists row. split; [now left|].
      apply Hrow. eauto.
    + rewrite IH. split.
      * intros (r & Hr & Hu). exists r. split; [now right|exact Hu].
      * intros (r & [<-|Hr] & Hu); [|eauto].
        apply Hrow in Hu as [e He]. discriminate.
Qed.

(** On a list with the three columns and numbers in them, the function
    is [PurpleAirPipeline.load_sensor_locations]. *)
Lemma load_from_typed (rows : list PurpleAirPipeline.MasterRow)
    (lookup : SensorLookup) :
  match
    fold_left
      (fun (acc : option SensorLookup) (row : PurpleAirPipeline.MasterRow) =>
         sensor_lookup ← acc;
         i ← PurpleAirPipeline.int_of_number
               (PurpleAirPipeline.sensor_index row);
         Some (<[ i := (PurpleAirPipeline.latitude row,
                        PurpleAirPipeline.longitude row) ]> sensor_lookup))
      rows (Some lookup)
  with
  | Some l =>
      MasterList.load_from int_of_str
        (MasterList.of_coordinates <$> lookup)
        (map MasterList.of_row rows)
      = inr (MasterList.of_coordinates <$> l)
  | None =>
      exists e,
        MasterList.load_from int_of_str
          (MasterList.of_coordinates <$> lookup)
          (map MasterList.of_row rows)
        = inl e
  end.
Proof.
  revert lookup. induction rows as [|row rows IH]; intros lookup;
    [reflexivity|].
  cbn [fold_left map MasterList.load_from].
  unfold MasterList.add_row, MasterList.getitem, MasterList.of_row.
  cbn [MasterList.cell String.eqb Ascii.eqb Bool.eqb MasterList.bind].
  destruct (PurpleAirPipeline.sensor_index row) as [z|x];
    cbn [MasterList.of_number MasterList.int
         PurpleAirPipeline.int_of_number].
  - cbn [MasterList.bind mbind option_bind].
    specialize (IH (<[ z := (PurpleAirPipeline.latitude row,
                             PurpleAirPipeline.longitude row) ]> lookup)).
    rewrite fmap_insert in IH. exact IH.
  - destruct (PurpleAirPipeline.int_of_float x) as [z|];
      cbn [MasterList.bind mbind option_bind].
    + specialize (IH (<[ z := (PurpleAirPipeline.latitude row,
                               PurpleAirPipeline.longitude row) ]> lookup)).
      rewrite fmap_insert in IH. exact IH.
    + assert (forall l : list PurpleAirPipeline.MasterRow,
                fold_left
                  (fun (acc : option SensorLookup)
                       (row : PurpleAirPipeline.MasterRow) =>
                     sensor_lookup ← acc;
                     i ← PurpleAirPipeline.int_of_number
                           (PurpleAirPipeline.sensor_index row);
                     Some (<[ i := (PurpleAirPipeline.latitude row,
                                    PurpleAirPipeline.longitude row) ]>
                             sensor_lookup))
                  l None = None) as ->
        by (induction l; [reflexivity|assumption]).
      destruct (F64.isna x); eauto.
Qed.

Lemma typed_list_agrees (rows : list PurpleAirPipeline.MasterRow) :
  match PurpleAirPipeline.load_sensor_locations rows with
  | Some l =>
      MasterList.load_sensor_locations int_of_str
        (map MasterList.of_row rows)
      = inr (MasterList.of_coordinates <$> l)
  | None =>
      exists e,
        MasterList.load_sensor_locations int_of_str
          (map MasterList.of_row rows)
        = inl e
  end.
Proof.
  pose proof (load_from_typed rows ∅) as H. rewrite fmap_empty in H.
  exact H.
Qed.
End MasterListFacts.

(** X3.  [load_sensor_locations], on whatever the master list holds,
    raises exactly when some row lacks one of the columns [latitude],
    [longitude] and [sensor_index], or has as index a NaN, an infinity,
    or text that [int] does not read; a list without rows raises
    nothing. *)
Theorem load_fails_on_an_unreadable_row
    (int_of_str : string -> option Z)
    (sensors : list MasterList.Series) :
  ((exists e,
      MasterList.load_sensor_locations int_of_str sensors = inl e)
   <-> exists row, In row sensors /\ unreadable_row int_of_str row) /\
  MasterList.load_sensor_locations int_of_str [] = inr ∅.
Proof.
  split; [apply load_from_fails|reflexivity].
Qed.

Example load_fails_examples :
  MasterList.load_sensor_locations Py.int
    [ [ ("sensor_index", MasterList.PyStr "unknown");
        ("latitude", MasterList.PyFloat 40.1);
        ("longitude", MasterList.PyFloat (-111.1)) ] ]
  = inl MasterList.ValueError /\
  MasterList.load_sensor_locations Py.int
    [ [ ("sensor_index", MasterList.PyInt 7);
        ("name", MasterList.PyStr "Liberty Park");
        ("latitude", MasterList.PyFloat 40.1) ] ]
  = inl (MasterList.KeyError "longitude") /\
  MasterList.load_sensor_locations Py.int
    [ [ ("sensor_index", MasterList.PyFloat infinity);
        ("latitude", MasterList.PyFloat 40.1);
        ("longitude", MasterList.PyFloat (-111.1)) ] ]
  = inl MasterList.OverflowError /\
  MasterList.load_sensor_locations Py.int
    [ [ ("sensor_index", MasterList.PyStr "7");
        ("latitude", MasterList.PyStr "north");
        ("longitude", MasterList.PyFloat (-111.1)) ] ]
  = inr (<[ 7%Z := (MasterList.PyStr "north",
                    MasterList.PyFloat (-111.1)) ]> ∅).
Proof. repeat split. Qed.

(** X4.  With a lookup loaded from the master list, every row kept by
    [process_purpleair_data] carries the id of a sensor of the list and
    the latitude and longitude of the last row the list has for it. *)
Theorem kept_rows_are_located_by_the_master_list {Series : Type}
    (mean : Series -> option float)
    (sensors : list PurpleAirPipeline.MasterRow)
    (sensor_lookup : SensorLookup)
    (csv_files : list (SensorFile Series)) (row : Row) :
  PurpleAirPipeline.load_sensor_locations sensors = Some sensor_lookup ->
  In row (fst (fst (PurpleAirMain.process_purpleair_data
                      mean csv_files sensor_lookup))) ->
  exists r,
    last (rows_of_sensor (sensor_id row) sensors) = Some r /\
    PurpleAirPipeline.int_of_number (PurpleAirPipeline.sensor_index r)
    = Some (sensor_id row) /\
    lat row = PurpleAirPipeline.latitude r /\
    lon row = PurpleAirPipeline.longitude r.
Proof.
  intros Hload Hrow. rewrite main_rows in Hrow.
  destruct (kept_rows_inv _ _ _ _ Hrow) as (f & _ & Hkept).
  destruct (kept_reading_inv _ _ _ _ Hkept)
    as (df & col & raw & _ & Hloc & _).
  rewrite (load_lookup _ _ (sensor_id row) Hload) in Hloc.
  destruct (last (rows_of_sensor (sensor_id row) sensors)) as [r|] eqn:E;
    [|discriminate].
  simpl in Hloc. injection Hloc as Hlat Hlon.
  exists r. repeat split; auto.
  assert (In r (rows_of_sensor (sensor_id row) sensors)) as Hin.
  { destruct (rows_of_sensor (sensor_id row) sensors) as [|r0 l]
      using rev_ind; [discriminate|].
    rewrite last_snoc in E. injection E as ->.
    apply in_or_app. simpl. auto. }
  unfold rows_of_sensor in Hin. apply filter_In in Hin as [_ Hi].
  destruct (PurpleAirPipeline.int_of_number _) as [j|]; [|discriminate].
  apply Z.eqb_eq in Hi. now subst.
Qed.

Lemma kept_rows_are_located_by_the_master_list_witness :
  exists r,
    last (rows_of_sensor 100865
            [ PurpleAirPipeline.mkMasterRow
                (PurpleAirPipeline.PyInt 100865) 40.7608 (-111.891) ])
    = Some r /\
    PurpleAirPipeline.int_of_number (PurpleAirPipeline.sensor_index r)
    = Some 100865%Z /\
    40.7608%float = PurpleAirPipeline.latitude r /\
    (-111.891)%float = PurpleAirPipeline.longitude r.
Proof.
  apply (kept_rows_are_located_by_the_master_list Demo.mean
           [ PurpleAirPipeline.mkMasterRow
               (PurpleAirPipeline.PyInt 100865) 40.7608 (-111.891) ]
           (<[ 100865%Z := (40.7608, -111.891)%float ]> ∅)
           [Demo.steady]
           (mkRow 40.7608 (-111.891) 33.77 100865)).
  - reflexivity.
  - vm_compute. left. reflexivity.
Defined.

(* ===================================================================== *)
(** * Counting sensors by band *)
(* ===================================================================== *)

Section CountFacts.
Local Open Scope float_scope.

(** A value below 12 is below 35. *)
Lemma below_12_below_35 (v : float) :
  (v <? 12) = true -> (v <? 35) = true.
Proof.
  rewrite !ltb_spec. unfold SFltb.
  change (Prim2SF 35) with (S754_finite false 4925812092436480 (-47)).
  change (Prim2SF 12) with (S754_finite false 6755399441055744 (-49)).
  destruct (Prim2SF v) as [s|s| |s m e]; cbn [SFcompare];
    try discriminate; try reflexivity.
  - destruct s; intros; congruence.
  - destruct s; try reflexivity.
    destruct (Z.compare_spec e (-49)) as [E|E|E]; try discriminate;
      intros _;
      destruct (Z.compare_spec e (-47)) as [E'|E'|E']; try lia;
      reflexivity.
Qed.

Lemma twelve_not_nan : F64.isna 12 = false.
Proof. reflexivity. Qed.

Lemma thirty_five_not_nan : F64.isna 35 = false.
Proof. reflexivity. Qed.

(** The band of a number, as the three tests of the summary see it. *)
Lemma band_tests (v : float) :
  F64.isna v = false ->
  ((v <? 12) = true /\ ((12 <=? v) && (v <? 35)) = false
   /\ (35 <=? v) = false) \/
  ((v <? 12) = false /\ ((12 <=? v) && (v <? 35)) = true
   /\ (35 <=? v) = false) \/
  ((v <? 12) = false /\ ((12 <=? v) && (v <? 35)) = false
   /\ (35 <=? v) = true).
Proof.
  intros Hv.
  destruct (v <? 12) eqn:H12.
  - left. split; [reflexivity|].
    destruct (12 <=? v) eqn:Hle.
    + apply F64Facts.le_not_gt in Hle. congruence.
    + split; [reflexivity|].
      destruct (35 <=? v) eqn:H35; [|reflexivity].
      apply at_least_35_not_below_12 in H35. congruence.
  - right.
    rewrite (F64Facts.not_gt_le 12 v twelve_not_nan Hv H12).
    destruct (v <? 35) eqn:H35.
    + left. repeat split.
      destruct (35 <=? v) eqn:Hle; [|reflexivity].
      apply F64Facts.le_not_gt in Hle. congruence.
    + right. repeat split.
      apply (F64Facts.not_gt_le 35 v thirty_five_not_nan Hv H35).
Qed.

(** NaN passes none of the three tests. *)
Lemma nan_tests (v : float) :
  F64.isna v = true ->
  (v <? 12) = false /\ (12 <=? v) = false /\ (v <? 35) = false
  /\ (35 <=? v) = false.
Proof.
  intros Hv. apply F64Facts.isna_spec in Hv.
  rewrite !ltb_spec, !leb_spec. unfold SFltb, SFleb. rewrite Hv.
  repeat split; try reflexivity;
    try (destruct (Prim2SF 12); reflexivity);
    try (destruct (Prim2SF 35); reflexivity).
Qed.

Lemma colour_tests (v : float) :
  String.eqb (PurpleAirMain.get_pm25_color v) "green" = (v <? 12) /\
  String.eqb (PurpleAirMain.get_pm25_color v) "orange"
  = ((12 <=? v) && (v <? 35)) /\
  String.eqb (PurpleAirMain.get_pm25_color v) "red"
  = ((35 <=? v) || F64.isna v).
Proof.
  unfold PurpleAirMain.get_pm25_color.
  destruct (F64.isna v) eqn:Hnan.
  - destruct (nan_tests _ Hnan) as (-> & -> & -> & ->). repeat split.
  - destruct (band_tests _ Hnan) as [(-> & -> & ->)|[(-> & Hmid & ->)
      |(-> & Hmid & H35)]].
    + repeat split.
    + rewrite Hmid. apply andb_true_iff in Hmid as [_ ->]. repeat split.
    + rewrite Hmid, H35, (F64Facts.le_not_gt _ _ H35). repeat split.
Qed.

Lemma one_test (v : float) :
  (Nat.b2n (v <? 12)%float + Nat.b2n ((12 <=? v)%float && (v <? 35)%float)
   + Nat.b2n (35 <=? v)%float + Nat.b2n (F64.isna v) = 1)%nat.
Proof.
  destruct (F64.isna v) eqn:Hnan.
  - destruct (nan_tests _ Hnan) as (-> & -> & -> & ->). reflexivity.
  - destruct (band_tests _ Hnan) as [(-> & -> & ->)|[(-> & -> & ->)
      |(-> & -> & ->)]]; reflexivity.
Qed.

Lemma summary_against_markers (air_df : list Row) :
  let '(good, moderate, unhealthy) :=
    PurpleAirPipeline.sensor_summary air_df in
  good = markers_of_colour "green" air_df /\
  moderate = markers_of_colour "orange" air_df /\
  (unhealthy + nan_rows air_df)%nat = markers_of_colour "red" air_df /\
  (good + moderate + unhealthy + nan_rows air_df)%nat = length air_df.
Proof.
  unfold PurpleAirPipeline.sensor_summary, markers_of_colour, nan_rows,
    PurpleAirPipeline.count_rows, PurpleAirMain.air_layer.
  induction air_df as [|row air_df IH]; [repeat split|].
  destruct IH as (Hg & Hm & Hu & Hsum).
  cbn [List.filter map].
  change (PurpleAirMain.fill_color (PurpleAirMain.marker_of row))
    with (PurpleAirMain.get_pm25_color (pm25 row)).
  destruct (colour_tests (pm25 row)) as (-> & -> & ->).
  pose proof (one_test (pm25 row)) as Hone.
  destruct (pm25 row <? 12), ((12 <=? pm25 row) && (pm25 row <? 35)),
    (35 <=? pm25 row), (F64.isna (pm25 row));
    simpl in Hone; try discriminate Hone; simpl;
    repeat split; auto; lia.
Qed.
End CountFacts.

(** X5.  The sensor summary of the interactive map counts as Good,
    Moderate and Unhealthy exactly the green and the orange markers and
    the red markers whose value is a number: a sensor whose value is NaN
    gets a red marker and is counted in none of the three, so that the
    three counts and the NaN rows add up to the number of sensors. *)
Theorem sensor_summary_counts_the_markers (air_df : list Row) :
  let '(good, moderate, unhealthy) :=
    PurpleAirPipeline.sensor_summary air_df in
  good = markers_of_colour "green" air_df /\
  moderate = markers_of_colour "orange" air_df /\
  (unhealthy + nan_rows air_df)%nat = markers_of_colour "red" air_df /\
  (good + moderate + unhealthy + nan_rows air_df)%nat = length air_df.
Proof. apply summary_against_markers. Qed.

Lemma kept_rows_are_numbers {Series : Type}
    (mean : Series -> option float) (sensor_lookup : SensorLookup)
    (csv_files : list (SensorFile Series)) :
  nan_rows (kept_rows mean sensor_lookup csv_files) = 0.
Proof.
  unfold nan_rows, PurpleAirPipeline.count_rows.
  destruct (List.filter _ _) as [|row l] eqn:E; [reflexivity|exfalso].
  assert (In row (List.filter (fun row => F64.isna (pm25 row))
                    (kept_rows mean sensor_lookup csv_files))) as Hin
    by (rewrite E; simpl; auto).
  apply filter_In in Hin as [Hin Hnan].
  destruct (kept_rows_inv _ _ _ _ Hin) as (f & _ & Hkept).
  destruct (kept_reading_inv _ _ _ _ Hkept)
    as (df & col & raw & _ & _ & _ & _ & _ & Hraw & Hval & _).
  rewrite Hval in Hnan.
  rewrite (F64Facts.affine_not_nan _ _ _ slope_finite intercept_finite Hraw)
    in Hnan.
  discriminate.
Qed.

(** X6.  On the rows that [process_purpleair_data] returns no value is
    NaN, so the sensor summary is complete: Good, Moderate and Unhealthy
    add up to the number of sensors and are the numbers of green, orange
    and red markers. *)
Theorem pipeline_summary_is_complete {Series : Type}
    (mean : Series -> option float)
    (csv_files : list (SensorFile Series)) (sensor_lookup : SensorLookup) :
  let air_df :=
    fst (fst (PurpleAirMain.process_purpleair_data
                mean csv_files sensor_lookup)) in
  let '(good, moderate, unhealthy) :=
    PurpleAirPipeline.sensor_summary air_df in
  (good + moderate + unhealthy)%nat = length air_df /\
  good = markers_of_colour "green" air_df /\
  moderate = markers_of_colour "orange" air_df /\
  unhealthy = markers_of_colour "red" air_df.
Proof.
  intros air_df. subst air_df. rewrite main_rows.
  pose proof (summary_against_markers
                (kept_rows mean sensor_lookup csv_files)) as H.
  rewrite kept_rows_are_numbers in H.
  destruct (PurpleAirPipeline.sensor_summary _) as [[good moderate] unhealthy].
  destruct H as (Hg & Hm & Hu & Hsum).
  rewrite Nat.add_0_r in Hu, Hsum. auto.
Qed.

(* ===================================================================== *)
(** * The box plot by category *)
(* ===================================================================== *)

Section BoxFacts.
Local Open Scope float_scope.

Lemma category_is_one_of_three (v : float) :
  PurpleAirMain.get_aqi_category v = "Good" \/
  PurpleAirMain.get_aqi_category v = "Moderate" \/
  PurpleAirMain.get_aqi_category v = "Unhealthy".
Proof.
  unfold PurpleAirMain.get_aqi_category.
  destruct (v <? 12); [auto|]. destruct (v <? 35); auto.
Qed.

Lemma colour_of_category (v : float) :
  (PurpleAirMain.get_aqi_category v = "Good" ->
   PurpleAirMain.get_pm25_color v = "green") /\
  (PurpleAirMain.get_aqi_category v = "Moderate" ->
   PurpleAirMain.get_pm25_color v = "orange") /\
  (PurpleAirMain.get_aqi_category v = "Unhealthy" ->
   PurpleAirMain.get_pm25_color v = "red").
Proof.
  unfold PurpleAirMain.get_aqi_category, PurpleAirMain.get_pm25_color.
  destruct (v <? 12); [repeat split; auto; discriminate|].
  destruct (v <? 35); repeat split; auto; discriminate.
Qed.

Lemma category_values_in (cat : string) (air_df : list Row) (v : float) :
  In v (category_values cat air_df) ->
  PurpleAirMain.get_aqi_category v = cat.
Proof.
  unfold category_values. rewrite in_map_iff.
  intros (row & <- & Hrow). apply filter_In in Hrow as [_ E].
  now apply String.eqb_eq.
Qed.

Lemma category_sizes (air_df : list Row) :
  (length (category_values "Good" air_df)
   + length (category_values "Moderate" air_df)
   + length (category_values "Unhealthy" air_df))%nat
  = length air_df.
Proof.
  unfold category_values. rewrite !length_map.
  induction air_df as [|row air_df IH]; [reflexivity|].
  cbn [List.filter].
  destruct (category_is_one_of_three (pm25 row)) as [->|[->| ->]];
    simpl; lia.
Qed.

(** The boxes in terms of the three categories. *)
Lemma boxes_unfold (air_df : list Row) :
  PurpleAirPipeline.category_data air_df
  = (if (0 <? length (category_values "Good" air_df))%nat
     then [("Good", category_values "Good" air_df)] else [])
    ++ (if (0 <? length (category_values "Moderate" air_df))%nat
        then [("Moderate", category_values "Moderate" air_df)] else [])
    ++ (if (0 <? length (category_values "Unhealthy" air_df))%nat
        then [("Unhealthy", category_values "Unhealthy" air_df)] else []).
Proof.
  unfold PurpleAirPipeline.category_data, PurpleAirPipeline.categories,
    category_values. cbn [flat_map]. rewrite app_nil_r. reflexivity.
Qed.
End BoxFacts.

(** X7.  The box plot has one box for each category that has sensors and
    none for an empty one; the counts on the tick labels are the sizes of
    the boxes and add up to the number of sensors, a NaN value being put
    in the Unhealthy box. *)
Theorem boxes_partition_the_sensors (air_df : list Row) :
  Forall (fun box =>
            PurpleAirPipeline.box_values box
            = category_values (PurpleAirPipeline.box_category box) air_df /\
            PurpleAirPipeline.box_n box
            = length (PurpleAirPipeline.box_values box) /\
            (0 < PurpleAirPipeline.box_n box)%nat)
         (PurpleAirPipeline.boxes air_df) /\
  list_sum (map PurpleAirPipeline.box_n (PurpleAirPipeline.boxes air_df))
  = length air_df.
Proof.
  pose proof (category_sizes air_df) as Hsizes.
  unfold PurpleAirPipeline.boxes. rewrite boxes_unfold.
  destruct (category_values "Good" air_df) as [|g gs] eqn:Eg;
    destruct (category_values "Moderate" air_df) as [|m ms] eqn:Em;
    destruct (category_values "Unhealthy" air_df) as [|u us] eqn:Eu;
    simpl in *;
    (split;
     [ repeat (first [apply List.Forall_nil | apply List.Forall_cons]);
       simpl; rewrite ?Eg, ?Em, ?Eu; repeat split; lia
     | lia ]).
Qed.

(** Derives a contradiction from a box whose colour is not that of its
    first value. *)
Ltac colour_clash K Hg Hm Hu :=
  simpl in K;
  match type of K with
  | _ = PurpleAirMain.get_pm25_color ?v =>
      first
        [ rewrite (proj1 (colour_of_category v) (Hg v (or_introl eq_refl)))
            in K
        | rewrite (proj1 (proj2 (colour_of_category v))
                     (Hm v (or_introl eq_refl))) in K
        | rewrite (proj2 (proj2 (colour_of_category v))
                     (Hu v (or_introl eq_refl))) in K ];
      discriminate K
  end.

(** X8.  The boxes are coloured by position: every box has the colour
    that the markers of its sensors have if and only if no category
    without sensors comes before one that has some.  (With no Good sensor
    and some Moderate ones, the Moderate box is green.) *)
Theorem box_colours_match_marker_colours (air_df : list Row) :
  (forall box v,
     In box (PurpleAirPipeline.boxes air_df) ->
     In v (PurpleAirPipeline.box_values box) ->
     PurpleAirPipeline.facecolor box = PurpleAirMain.get_pm25_color v)
  <-> categories_fill_in_order air_df.
Proof.
  unfold categories_fill_in_order, PurpleAirPipeline.boxes.
  rewrite boxes_unfold.
  pose proof (category_values_in "Good" air_df) as Hg.
  pose proof (category_values_in "Moderate" air_df) as Hm.
  pose proof (category_values_in "Unhealthy" air_df) as Hu.
  destruct (category_values "Good" air_df) as [|g gs];
    destruct (category_values "Moderate" air_df) as [|m ms];
    destruct (category_values "Unhealthy" air_df) as [|u us];
    cbn [length Nat.ltb Nat.leb app combine firstn map In
         PurpleAirPipeline.box_values PurpleAirPipeline.facecolor fst snd];
    (split;
     [ intros H;
       first
         [ solve [ split;
                   first [ left; discriminate
                         | right; first [reflexivity | split; reflexivity] ] ]
         | exfalso;
           first
             [ pose proof (H _ _ (or_introl eq_refl) (or_introl eq_refl))
                 as K;
               colour_clash K Hg Hm Hu
             | pose proof (H _ _ (or_intror (or_introl eq_refl))
                             (or_introl eq_refl)) as K;
               colour_clash K Hg Hm Hu ] ]
     | intros Hc;
       first
         [ solve [ intros box v Hbox Hv;
                   repeat (destruct Hbox as [<-|Hbox]);
                   try destruct Hbox;
                   symmetry;
                   first
                     [ apply (proj1 (colour_of_category v)), Hg, Hv
                     | apply (proj1 (proj2 (colour_of_category v))), Hm, Hv
                     | apply (proj2 (proj2 (colour_of_category v))), Hu, Hv ] ]
         | exfalso; destruct Hc as [[?|[? ?]] [?|?]]; congruence ] ]).
Qed.

(* ===================================================================== *)
(** * The clipping path *)
(* ===================================================================== *)

Section PathFacts.
Import PurpleAirPipeline.

(** Going through rings appends their coordinates and their codes. *)
Lemma path_of_rings (rs : list (list Coord)) (acc : list Coord * list Code) :
  fold_left
    (fun (acc : list Coord * list Code) (coords : list Coord) =>
       (fst acc ++ coords, snd acc ++ ring_codes coords))
    rs acc
  = (fst acc ++ concat rs, snd acc ++ flat_map ring_codes rs).
Proof.
  revert acc. induction rs as [|r rs IH]; intros [vs cs].
  - simpl. now rewrite !app_nil_r.
  - cbn [fold_left fst snd]. rewrite IH. cbn [fst snd concat flat_map].
    now rewrite <- !app_assoc.
Qed.

Lemma path_of_polygons (ps : list Polygon) (acc : list Coord * list Code) :
  fold_left
    (fun (acc : list Coord * list Code) (polygon : Polygon) =>
       fold_left
         (fun (acc : list Coord * list Code) (coords : list Coord) =>
            (fst acc ++ coords, snd acc ++ ring_codes coords))
         (rings polygon) acc)
    ps acc
  = (fst acc ++ concat (flat_map rings ps),
     snd acc ++ flat_map ring_codes (flat_map rings ps)).
Proof.
  revert acc. induction ps as [|p ps IH]; intros [vs cs].
  - simpl. now rewrite !app_nil_r.
  - cbn [fold_left]. rewrite path_of_rings, IH. cbn [fst snd flat_map].
    rewrite concat_app, flat_map_app, <- !app_assoc. reflexivity.
Qed.

Lemma path_arguments_rings (geometry : Geometry) :
  path_arguments geometry
  = (concat (all_rings geometry), flat_map ring_codes (all_rings geometry)).
Proof.
  unfold path_arguments. rewrite path_of_polygons.
  destruct geometry as [p|geoms|]; simpl; rewrite ?app_nil_r; reflexivity.
Qed.

Lemma ring_codes_length (coords : list Coord) :
  length (ring_codes coords) = 2 + (length coords - 2).
Proof.
  unfold ring_codes. simpl. rewrite length_app, repeat_length. simpl. lia.
Qed.

Lemma codes_against_vertices (rs : list (list Coord)) :
  length (flat_map ring_codes rs)
  = length (concat rs)
    + list_sum (map (fun r => 2 - length r) rs).
Proof.
  induction rs as [|r rs IH]; [reflexivity|].
  cbn [flat_map concat].
  rewrite !length_app, IH, ring_codes_length. simpl. lia.
Qed.

Lemma no_deficit (rs : list (list Coord)) :
  list_sum (map (fun r => 2 - length r) rs) = 0
  <-> Forall (fun r => 2 <= length r) rs.
Proof.
  induction rs as [|r rs IH]; simpl.
  - split; [constructor|reflexivity].
  - split.
    + intros H. constructor; [lia|apply IH; lia].
    + intros H. inversion H as [|? ? Hr Hrs]; subst.
      apply IH in Hrs. lia.
Qed.

Lemma ring_code_counts (rs : list (list Coord)) :
  count_code MOVETO (flat_map ring_codes rs) = length rs /\
  count_code CLOSEPOLY (flat_map ring_codes rs) = length rs.
Proof.
  unfold count_code. induction rs as [|r rs [IH1 IH2]]; [split; reflexivity|].
  cbn [flat_map]. unfold ring_codes at 1 3.
  rewrite !List.filter_app, !length_app. cbn [List.filter app].
  rewrite !List.filter_app, !length_app. cbn [List.filter length].
  assert (forall n,
            List.filter
              (fun c' => match c' with MOVETO => true | _ => false end)
              (repeat LINETO n) = []) as ->
    by (induction n; simpl; auto).
  assert (forall n,
            List.filter
              (fun c' => match c' with CLOSEPOLY => true | _ => false end)
              (repeat LINETO n) = []) as ->
    by (induction n; simpl; auto).
  simpl. rewrite IH1, IH2. split; reflexivity.
Qed.

(** The codes of a geometry with a ring start with [MOVETO]. *)
Lemma first_code (rs : list (list Coord)) :
  match flat_map ring_codes rs with
  | MOVETO :: _ => true
  | [] => true
  | _ => false
  end = true.
Proof. destruct rs as [|r rs]; reflexivity. Qed.

Lemma forallb_concat {A : Type} (p : A -> bool) (ls : list (list A)) :
  forallb p (concat ls) = forallb (forallb p) ls.
Proof.
  induction ls as [|l ls IH]; [reflexivity|].
  simpl. now rewrite forallb_app, IH.
Qed.

Lemma concat_rings_empty (rs : list (list Coord)) :
  Forall (fun r => 2 <= length r) rs -> concat rs = [] -> rs = [].
Proof.
  intros H E. destruct rs as [|r rs]; [reflexivity|].
  inversion H as [|? ? Hr _]; subst. simpl in E.
  apply app_eq_nil in E as [-> _]. simpl in Hr. lia.
Qed.

Lemma Path_checks (vs : list Coord) (cs : list Code) :
  vs <> [] ->
  Path vs cs
  = if forallb is_XY vs && (length cs =? length vs)%nat
       && match cs with
          | MOVETO :: _ => true
          | [] => true
          | _ => false
          end
    then inr (mkPath vs cs) else inl ValueError.
Proof. destruct vs; [contradiction|reflexivity]. Qed.

Lemma at_least_two (rs : list (list Coord)) :
  forallb (fun r => (2 <=? length r)%nat) rs = true
  <-> Forall (fun r => 2 <= length r) rs.
Proof.
  rewrite forallb_forall, List.Forall_forall.
  split; intros H r Hr; apply Nat.leb_le; now apply H.
Qed.

(** When [Path] accepts what the loops built. *)
Lemma path_accepts (geometry : Geometry) :
  geometry_to_path geometry
  = if forallb (fun r => forallb is_XY r) (all_rings geometry)
       && match all_rings geometry with [] => false | _ => true end
       && forallb (fun r => (2 <=? length r)%nat) (all_rings geometry)
    then inr (mkPath (concat (all_rings geometry))
                     (flat_map ring_codes (all_rings geometry)))
    else inl ValueError.
Proof.
  unfold geometry_to_path. rewrite path_arguments_rings.
  set (rs := all_rings geometry).
  pose proof (codes_against_vertices rs) as Hlen.
  pose proof (no_deficit rs) as Hdef.
  pose proof (at_least_two rs) as Htwo.
  destruct rs as [|r rs'] eqn:Ers.
  - reflexivity.
  - rewrite <- Ers in *. rewrite andb_true_r.
    destruct (forallb (fun r => (2 <=? length r)%nat) rs) eqn:E2.
    + assert (Forall (fun r => 2 <= length r) rs) as H2 by now apply Htwo.
      apply Hdef in H2 as Hzero.
      rewrite Path_checks.
      * rewrite forallb_concat, first_code, !andb_true_r.
        assert ((length (flat_map ring_codes rs) =? length (concat rs))%nat
                = true) as -> by (apply Nat.eqb_eq; lia).
        now rewrite andb_true_r.
      * intros Ev. apply concat_rings_empty in Ev; [|exact H2].
        congruence.
    + rewrite andb_false_r.
      assert (list_sum (map (fun r => 2 - length r) rs) <> 0) as Hpos.
      { intros H. apply Hdef, Htwo in H. congruence. }
      destruct (concat rs) as [|v vs] eqn:Ev; [reflexivity|].
      rewrite <- Ev in Hlen |- *. rewrite Path_checks by congruence.
      assert ((length (flat_map ring_codes rs) =? length (concat rs))%nat
              = false) as -> by (apply Nat.eqb_neq; lia).
      now rewrite andb_false_r.
Qed.
End PathFacts.

(** X9.  [geometry_to_path] returns a path exactly when the geometry
    has a ring, every ring has at least two coordinates, and every
    coordinate is a pair; the path then has the coordinates of the rings
    in the order visited as vertices, as many codes as vertices, and one
    [MOVETO] and one [CLOSEPOLY] per ring.  In every other case the
    constructor of the path raises [ValueError]: so for a geometry that
    is neither a polygon nor a multi-polygon, for which the loops build
    nothing. *)
Theorem path_codes_match_vertices (geometry : PurpleAirPipeline.Geometry) :
  ((exists path, PurpleAirPipeline.geometry_to_path geometry = inr path)
   <->
   all_rings geometry <> [] /\
   Forall (fun ring =>
             2 <= length ring /\
             Forall (fun c => PurpleAirPipeline.is_XY c = true) ring)
          (all_rings geometry)) /\
  (forall path,
     PurpleAirPipeline.geometry_to_path geometry = inr path ->
     PurpleAirPipeline.vertices path = concat (all_rings geometry) /\
     length (PurpleAirPipeline.codes path)
     = length (PurpleAirPipeline.vertices path) /\
     count_code PurpleAirPipeline.MOVETO (PurpleAirPipeline.codes path)
     = length (all_rings geometry) /\
     count_code PurpleAirPipeline.CLOSEPOLY (PurpleAirPipeline.codes path)
     = length (all_rings geometry)) /\
  ((forall path, PurpleAirPipeline.geometry_to_path geometry <> inr path)
   -> PurpleAirPipeline.geometry_to_path geometry
      = inl PurpleAirPipeline.ValueError) /\
  (geometry = PurpleAirPipeline.AnotherGeometry ->
   PurpleAirPipeline.geometry_to_path geometry
   = inl PurpleAirPipeline.ValueError).
Proof.
  rewrite path_accepts.
  set (rs := all_rings geometry).
  destruct (ring_code_counts rs) as [Hm Hc].
  pose proof (codes_against_vertices rs) as Hlen.
  pose proof (no_deficit rs) as Hdef.
  pose proof (at_least_two rs) as Htwo.
  assert (forallb (fun r => forallb PurpleAirPipeline.is_XY r) rs = true
          <-> Forall (fun r => Forall
                         (fun c => PurpleAirPipeline.is_XY c = true) r) rs)
    as Hxy.
  { rewrite forallb_forall, List.Forall_forall.
    split; intros H r Hr; [apply List.Forall_forall|];
      apply forallb_forall; try apply List.Forall_forall; now apply H. }
  assert (Forall (fun ring =>
                    2 <= length ring /\
                    Forall (fun c => PurpleAirPipeline.is_XY c = true) ring)
                 rs
          <-> Forall (fun r => 2 <= length r) rs /\
              Forall (fun r => Forall
                         (fun c => PurpleAirPipeline.is_XY c = true) r) rs)
    as Hboth.
  { rewrite !List.Forall_forall. split.
    - intros H. split; intros r Hr; now apply (H r Hr).
    - intros [H1 H2] r Hr. split; [now apply H1|now apply H2]. }
  assert (geometry = PurpleAirPipeline.AnotherGeometry -> rs = [])
    as Hother by (intros ->; reflexivity).
  destruct (forallb (fun r => forallb PurpleAirPipeline.is_XY r) rs
            && match rs with [] => false | _ => true end
            && forallb (fun r => (2 <=? length r)%nat) rs) eqn:E.
  - apply andb_true_iff in E as [E E2].
    apply andb_true_iff in E as [Exy Ene].
    assert (rs <> []) as Hne by (destruct rs; [discriminate|discriminate]).
    split; [split; [intros _|eauto]|].
    { split; [exact Hne|]. apply Hboth. split; [now apply Htwo|now apply Hxy]. }
    split.
    { intros path [= <-]. cbn [PurpleAirPipeline.vertices
                               PurpleAirPipeline.codes].
      apply Htwo, Hdef in E2. repeat split; [lia|exact Hm|exact Hc]. }
    split; [intros H; now destruct (H _ eq_refl)|].
    intros Hg. now apply Hother in Hg.
  - split; [split; [intros [p Hp]; discriminate|]|].
    { intros [Hne Hall]. apply Hboth in Hall as [H2 Hxy'].
      apply Htwo in H2. apply Hxy in Hxy'.
      rewrite H2, Hxy' in E. destruct rs; [contradiction|discriminate]. }
    split; [discriminate|]. split; reflexivity.
Qed.

Example path_of_a_square_with_a_hole :
  PurpleAirPipeline.geometry_to_path
    (PurpleAirPipeline.APolygon
       (PurpleAirPipeline.mkPolygon
          [ PurpleAirPipeline.XY 0 0; PurpleAirPipeline.XY 4 0;
            PurpleAirPipeline.XY 4 4; PurpleAirPipeline.XY 0 4;
            PurpleAirPipeline.XY 0 0 ]
          [[ PurpleAirPipeline.XY 1 1; PurpleAirPipeline.XY 2 1;
             PurpleAirPipeline.XY 1 2; PurpleAirPipeline.XY 1 1 ]]))
  = inr (PurpleAirPipeline.mkPath
           [ PurpleAirPipeline.XY 0 0; PurpleAirPipeline.XY 4 0;
             PurpleAirPipeline.XY 4 4; PurpleAirPipeline.XY 0 4;
             PurpleAirPipeline.XY 0 0;
             PurpleAirPipeline.XY 1 1; PurpleAirPipeline.XY 2 1;
             PurpleAirPipeline.XY 1 2; PurpleAirPipeline.XY 1 1 ]
           [ PurpleAirPipeline.MOVETO; PurpleAirPipeline.LINETO;
             PurpleAirPipeline.LINETO; PurpleAirPipeline.LINETO;
             PurpleAirPipeline.CLOSEPOLY;
             PurpleAirPipeline.MOVETO; PurpleAirPipeline.LINETO;
             PurpleAirPipeline.LINETO; PurpleAirPipeline.CLOSEPOLY ]) /\
  PurpleAirPipeline.geometry_to_path PurpleAirPipeline.AnotherGeometry
  = inl PurpleAirPipeline.ValueError /\
  PurpleAirPipeline.geometry_to_path
    (PurpleAirPipeline.APolygon (PurpleAirPipeline.mkPolygon [] []))
  = inl PurpleAirPipeline.ValueError.
Proof. repeat split. Qed.

(* ===================================================================== *)
(** * The study area *)
(* ===================================================================== *)

(** X10.  Every tract that reaches the maps, that is every row of
    [merge_geo_and_census] applied to the result of
    [load_and_filter_shapefile], lies in Salt Lake County or Davis
    County: its GEOID starts with 49035 or 49011, and it is a tract of
    the shapefile, reprojected, joined to a census row with that GEOID. *)
Theorem merged_tracts_lie_in_the_two_counties
    {Geometry : Type} (to_crs : Geometry -> Geometry)
    (area : Geometry -> float) (quantile : list float -> float -> float)
    (shapefile : list (TractShape Geometry))
    (census_df : list PurpleAirMain.CensusRow)
    (r : PurpleAirMain.Merged) :
  In r (fst (PurpleAirMain.merge_geo_and_census area quantile
               (PurpleAirPipeline.load_and_filter_shapefile to_crs shapefile)
               census_df)) ->
  (String.prefix "49035" (GEOID (fst r)) = true
   \/ String.prefix "49011" (GEOID (fst r)) = true) /\
  PurpleAirMain.census_GEOID (snd r) = GEOID (fst r) /\
  exists t,
    In t shapefile /\ GEOID t = GEOID (fst r) /\
    NAMELSAD t = NAMELSAD (fst r) /\
    geometry (fst r) = to_crs (geometry t).
Proof.
  intros Hr. apply main_merge_output in Hr as [Hin _].
  apply filter_In in Hin as [Hin _].
  apply main_inner_merge_spec in Hin as (Hg & _ & E).
  unfold PurpleAirPipeline.load_and_filter_shapefile in Hg.
  apply in_map_iff in Hg as (t & Ht & Hin).
  apply filter_In in Hin as [Hin Hmask].
  apply orb_true_iff in Hmask.
  rewrite <- Ht in *. simpl in *.
  split; [exact Hmask|]. split; [now symmetry|].
  exists t. repeat split; auto.
Qed.

Lemma merged_tracts_lie_in_the_two_counties_witness :
  (String.prefix "49035" "49035100100" = true
   \/ String.prefix "49011" "49035100100" = true) /\
  "49035100100" = "49035100100" /\
  exists t,
    In t [ mkTractShape "49035100100" "Census Tract 1001" 2000000%float;
           mkTractShape "49057210100" "Census Tract 2101" 5000000%float ] /\
    GEOID t = "49035100100" /\
    NAMELSAD t = "Census Tract 1001" /\
    2000000%float = geometry t.
Proof.
  apply (merged_tracts_lie_in_the_two_counties
           (fun g : float => g) (fun a : float => a)
           (fun _ _ => 2000000%float)
           [ mkTractShape "49035100100" "Census Tract 1001" 2000000%float;
             mkTractShape "49057210100" "Census Tract 2101" 5000000%float ]
           [ PurpleAirMain.mkCensusRow "49035100100" "Tract 1001" 120 3.5;
             PurpleAirMain.mkCensusRow "49057210100" "Tract 2101" 80 2 ]
           (mkTractShape "49035100100" "Census Tract 1001" 2000000%float,
            PurpleAirMain.mkCensusRow "49035100100" "Tract 1001" 120 3.5)).
  vm_compute. left. reflexivity.
Defined.

(* ===================================================================== *)
(** * The census table of the PurpleAir pipeline *)
(* ===================================================================== *)

Section CensusDataFacts.
Import CalculateStatistics.
Variable to_numeric : string -> float.
Variable nansum : list float -> float.

Lemma frame_project_names (cols : list string) (df out : Frame) :
  PurpleAirPipeline.frame_project cols df = inr out -> names out = cols.
Proof.
  revert out. induction cols as [|c cols IH]; simpl; intros out H.
  - now injection H as <-.
  - destruct (frame_get df c) as [e|col]; simpl in H; [discriminate|].
    destruct (PurpleAirPipeline.frame_project cols df) as [e|rest];
      simpl in H; [discriminate|].
    injection H as <-. simpl. f_equal. now apply IH.
Qed.

Lemma frame_project_get (cols : list string) (df out : Frame) (c : string) :
  PurpleAirPipeline.frame_project cols df = inr out ->
  In c cols -> frame_get out c = frame_get df c.
Proof.
  revert out. induction cols as [|c0 cols IH]; simpl; intros out H Hc;
    [destruct Hc|].
  destruct (frame_get df c0) as [e|col] eqn:E0; simpl in H; [discriminate|].
  destruct (PurpleAirPipeline.frame_project cols df) as [e|rest];
    simpl in H; [discriminate|].
  injection H as <-. simpl.
  destruct (String.eqb_spec c c0) as [->|Hne]; [now rewrite E0|].
  apply IH; [reflexivity|]. destruct Hc; congruence.
Qed.

Lemma frame_project_ok (cols : list string) (df : Frame) :
  Forall (fun c => In c (names df)) cols ->
  exists out, PurpleAirPipeline.frame_project cols df = inr out.
Proof.
  induction cols as [|c cols IH]; simpl; intros H; [eauto|].
  inversion H as [|? ? Hc Hcols]; subst.
  destruct (frame_get_present _ _ Hc) as [col ->]. simpl.
  destruct (IH Hcols) as [rest ->]. simpl. eauto.
Qed.

Lemma frame_project_needs (cols : list string) (df out : Frame) :
  PurpleAirPipeline.frame_project cols df = inr out ->
  Forall (fun c => In c (names df)) cols.
Proof.
  revert out. induction cols as [|c cols IH]; simpl; intros out H;
    [constructor|].
  destruct (frame_get df c) as [e|col] eqn:E; simpl in H; [discriminate|].
  destruct (PurpleAirPipeline.frame_project cols df) as [e|rest] eqn:E';
    simpl in H; [discriminate|].
  constructor; [eapply frame_get_inr; exact E|eapply IH; reflexivity].
Qed.

Lemma convert_columns_needs (cols : list string) (df df' : Frame) :
  convert_columns to_numeric cols df = inr df' ->
  Forall (fun c => In c (names df)) cols.
Proof.
  revert df. induction cols as [|c cols IH]; simpl; intros df H;
    [constructor|].
  destruct (frame_get df c) as [e|col] eqn:E; simpl in H; [discriminate|].
  constructor; [eapply frame_get_inr; exact E|].
  eapply List.Forall_impl; [|exact (IH _ H)].
  intros a Ha. apply names_frame_set in Ha as [Ha| ->]; [exact Ha|].
  eapply frame_get_inr; exact E.
Qed.

(** The first and the last step of [process_census_data], all the
    assignments in between being folded into [df']. *)
Lemma process_census_data_inv (df out : Frame) :
  PurpleAirPipeline.process_census_data to_numeric nansum df = inr out ->
  exists df1 df' cells,
    convert_columns to_numeric PurpleAirPipeline.age_columns_80 df = inr df1 /\
    In "B01001_001E" (names df1) /\
    frame_get df1 "GEO_ID" = inr (ObjCol cells) /\
    (forall x, In x (names df') ->
               In x (names df1) \/
               In x ["pop_80_plus"; "total_pop"; "pop_80_plus_pct"; "GEOID"]) /\
    frame_get df' "GEOID"
    = inr (ObjCol (map (option_map (replace "1400000US" "")) cells)) /\
    PurpleAirPipeline.frame_project
      ["GEOID"; "NAME"; "pop_80_plus"; "pop_80_plus_pct"] df' = inr out.
Proof.
  unfold PurpleAirPipeline.process_census_data.
  destruct (convert_columns to_numeric PurpleAirPipeline.age_columns_80 df)
    as [e|df1] eqn:E1; cbn [bind]; [discriminate|].
  destruct (numeric_columns to_numeric PurpleAirPipeline.age_columns_80 df1)
    as [e|ages]; cbn [bind]; [discriminate|].
  set (df2 := frame_set df1 "pop_80_plus" _).
  destruct (frame_get df2 "B01001_001E") as [e|total] eqn:Et; cbn [bind];
    [discriminate|].
  set (df3 := frame_set df2 "total_pop" _).
  destruct (frame_get df3 "pop_80_plus") as [e|pop]; cbn [bind];
    [discriminate|].
  destruct (frame_get df3 "total_pop") as [e|total']; cbn [bind];
    [discriminate|].
  set (df4 := frame_set df3 "pop_80_plus_pct" _).
  destruct (frame_get df4 "GEO_ID") as [e|geo_id] eqn:Eg; cbn [bind];
    [discriminate|].
  destruct geo_id as [v|cells]; cbn [bind str]; [discriminate|].
  set (df5 := frame_set df4 "GEOID" _).
  intros H. exists df1, df5, cells.
  split; [reflexivity|]. split; [|split; [|split; [|split]]].
  - unfold df2 in Et. rewrite frame_get_set_other in Et by discriminate.
    eapply frame_get_inr; exact Et.
  - unfold df4, df3, df2 in Eg.
    rewrite !frame_get_set_other in Eg by discriminate. exact Eg.
  - intros x Hx. unfold df5, df4, df3, df2 in Hx.
    repeat (apply names_frame_set in Hx as [Hx| ->]); simpl; auto 10.
  - unfold df5. apply frame_get_set_same.
  - exact H.
Qed.
End CensusDataFacts.

Section CensusDataTheorems.
Import CalculateStatistics.
Variable to_numeric : string -> float.
Variable nansum : list float -> float.

Lemma names_frame_set_new (df : Frame) (c : string) (col : Column) :
  In c (names (frame_set df c col)).
Proof. apply names_frame_set. right. reflexivity. Qed.

Lemma names_frame_set_mono (df : Frame) (c x : string) (col : Column) :
  In x (names df) -> In x (names (frame_set df c col)).
Proof. intros H. apply names_frame_set. left. exact H. Qed.

Lemma process_census_data_needs (df out : Frame) :
  PurpleAirPipeline.process_census_data to_numeric nansum df = inr out ->
  Forall (fun c => In c (names df)) columns_read_80 /\
  exists cells, frame_get df "GEO_ID" = inr (ObjCol cells).
Proof.
  intros H.
  destruct (process_census_data_inv to_numeric nansum df out H)
    as (df1 & df' & cells & E1 & Htotal & Hgeo & Hnames & _ & Hproj).
  pose proof (convert_columns_names to_numeric _ _ _ E1) as Hsame.
  rewrite (convert_columns_other to_numeric PurpleAirPipeline.age_columns_80 df df1 "GEO_ID") in Hgeo;
    [|vm_compute; intuition discriminate|exact E1].
  split; [|eauto].
  unfold columns_read_80. apply Forall_app. split.
  - eapply convert_columns_needs. exact E1.
  - repeat constructor.
    + now apply Hsame.
    + eapply frame_get_inr. exact Hgeo.
    + apply frame_project_needs in Hproj.
      inversion Hproj as [|? ? _ Hrest]; subst.
      inversion Hrest as [|? ? Hname _]; subst.
      apply Hnames in Hname as [Hname|Hname]; [now apply Hsame|].
      simpl in Hname. intuition discriminate.
Qed.

Lemma process_census_data_ok (df : Frame) (cells : list (option string)) :
  Forall (fun c => In c (names df)) columns_read_80 ->
  frame_get df "GEO_ID" = inr (ObjCol cells) ->
  exists out,
    PurpleAirPipeline.process_census_data to_numeric nansum df = inr out.
Proof.
  intros Hcols Hgeo. unfold columns_read_80 in Hcols.
  apply Forall_app in Hcols as [Hages Hrest].
  inversion Hrest as [|? ? Htotal Hrest1]; subst.
  inversion Hrest1 as [|? ? _ Hrest2]; subst.
  inversion Hrest2 as [|? ? Hname _]; subst.
  unfold PurpleAirPipeline.process_census_data.
  destruct (convert_columns_ok to_numeric _ df Hages) as [df1 E1].
  rewrite E1. cbn [bind].
  pose proof (convert_columns_names to_numeric _ _ _ E1) as Hsame.
  assert (Forall (fun c => In c (names df1))
            PurpleAirPipeline.age_columns_80) as Hages1.
  { eapply List.Forall_impl; [|exact Hages].
    intros a Ha. now apply Hsame. }
  destruct (numeric_columns_ok to_numeric _ df1 Hages1) as [ages ->].
  cbn [bind].
  rewrite frame_get_set_other by discriminate.
  destruct (frame_get_present df1 "B01001_001E") as [total ->];
    [now apply Hsame|].
  cbn [bind].
  rewrite frame_get_set_other by discriminate.
  rewrite frame_get_set_same. cbn [bind].
  rewrite frame_get_set_same. cbn [bind].
  rewrite !frame_get_set_other by discriminate.
  rewrite (convert_columns_other to_numeric PurpleAirPipeline.age_columns_80 df df1 "GEO_ID");
    [|vm_compute; intuition discriminate|exact E1].
  rewrite Hgeo. cbn [bind str].
  apply frame_project_ok.
  repeat (first [apply List.Forall_nil | apply List.Forall_cons]);
    repeat first [ apply names_frame_set_new | apply names_frame_set_mono ].
  apply Hsame. exact Hname.
Qed.
End CensusDataTheorems.

(** X11.  [process_census_data] of PurpleAirDataAnalysis/main.py returns
    exactly when the table has the four age columns of 80 and over, the
    columns [B01001_001E], [GEO_ID] and [NAME], and [GEO_ID] is a text
    column; what it returns has the four columns [GEOID], [NAME],
    [pop_80_plus] and [pop_80_plus_pct], in this order. *)
Theorem census_data_needs_and_gives_columns
    (to_numeric : string -> float) (nansum : list float -> float)
    (df : CalculateStatistics.Frame) :
  ((exists out,
      PurpleAirPipeline.process_census_data to_numeric nansum df = inr out)
   <->
   Forall (fun c => In c (names df)) columns_read_80 /\
   exists cells,
     CalculateStatistics.frame_get df "GEO_ID"
     = inr (CalculateStatistics.ObjCol cells)) /\
  (forall out,
     PurpleAirPipeline.process_census_data to_numeric nansum df = inr out ->
     names out = ["GEOID"; "NAME"; "pop_80_plus"; "pop_80_plus_pct"]).
Proof.
  split; [split|].
  - intros [out H]. eapply process_census_data_needs. exact H.
  - intros [Hcols [cells Hgeo]].
    eapply process_census_data_ok; eassumption.
  - intros out H.
    destruct (process_census_data_inv to_numeric nansum df out H)
      as (df1 & df' & cells & _ & _ & _ & _ & _ & Hproj).
    eapply frame_project_names. exact Hproj.
Qed.

Section ReplaceFacts.
Import CalculateStatistics.

Lemma prefix_needs_U (s : string) :
  String.prefix "1400000US" s = true ->
  forallb (fun c => negb (Ascii.eqb c "U"%char)) (list_ascii_of_string s)
  = false.
Proof.
  destruct s as [|c0 [|c1 [|c2 [|c3 [|c4 [|c5 [|c6 [|c7 s]]]]]]]];
    try (simpl; repeat match goal with
                       | |- context [if ?b then _ else _] => destruct b
                       end; discriminate).
  cbn [String.prefix]. intros H.
  repeat match type of H with
         | (if ?d then _ else false) = true =>
             destruct d; [|discriminate H]
         end.
  subst. cbn. repeat rewrite andb_false_r. reflexivity.
Qed.

(** A string without [U] has no occurrence to replace. *)
Lemma replace_without_U (s : string) :
  plain_geoid s -> replace_go "1400000US" "" 0 s = s.
Proof.
  unfold plain_geoid. induction s as [|c s IH]; [reflexivity|].
  intros H. cbn [replace_go].
  destruct (String.prefix "1400000US" (String c s)) eqn:E.
  - apply prefix_needs_U in E. congruence.
  - f_equal. apply IH. simpl in H. apply andb_true_iff in H. tauto.
Qed.

Lemma replace_strips_prefix (g : string) :
  plain_geoid g -> replace "1400000US" "" ("1400000US" ++ g) = g.
Proof.
  intros H. unfold replace. simpl.
  change ("" ++ g)%string with g.
  assert (String.prefix "" g = true) as -> by (destruct g; reflexivity).
  change ("" ++ replace_go "1400000US" "" 0 g)%string
    with (replace_go "1400000US" "" 0 g).
  now apply replace_without_U.
Qed.
End ReplaceFacts.

(** X12.  The key [process_census_data] derives from [GEO_ID] is the
    tract identifier of the shapefile: when every cell of [GEO_ID] is
    the prefix [1400000US] followed by an identifier, the column [GEOID]
    of the result holds these identifiers, row by row. *)
Theorem census_key_is_the_tract_identifier
    (to_numeric : string -> float) (nansum : list float -> float)
    (df out : CalculateStatistics.Frame) (geoids : list string) :
  PurpleAirPipeline.process_census_data to_numeric nansum df = inr out ->
  CalculateStatistics.frame_get df "GEO_ID"
  = inr (CalculateStatistics.ObjCol
           (map (fun g => Some ("1400000US" ++ g)%string) geoids)) ->
  Forall plain_geoid geoids ->
  CalculateStatistics.frame_get out "GEOID"
  = inr (CalculateStatistics.ObjCol (map Some geoids)).
Proof.
  intros H Hgeo Hplain.
  destruct (process_census_data_inv to_numeric nansum df out H)
    as (df1 & df' & cells & E1 & _ & Hgeo1 & _ & Hkey & Hproj).
  rewrite (convert_columns_other to_numeric PurpleAirPipeline.age_columns_80
             df df1 "GEO_ID") in Hgeo1;
    [|vm_compute; intuition discriminate|exact E1].
  rewrite Hgeo in Hgeo1. injection Hgeo1 as <-.
  rewrite (frame_project_get _ _ _ "GEOID" Hproj) by (simpl; auto).
  rewrite Hkey. do 2 f_equal. rewrite map_map.
  apply map_ext_in. intros g Hg. cbn [option_map]. f_equal.
  apply replace_strips_prefix.
  rewrite List.Forall_forall in Hplain. now apply Hplain.
Qed.

Lemma census_key_is_the_tract_identifier_witness :
  CalculateStatistics.frame_get
    [ ("GEOID", CalculateStatistics.ObjCol [Some "49035100100";
                                            Some "49057210100"]);
      ("NAME", CalculateStatistics.ObjCol
                 [Some "Census Tract 1001; Salt Lake County; Utah";
                  Some "Census Tract 2101; Weber County; Utah"]);
      ("pop_80_plus", CalculateStatistics.NumCol [71; 49]%float);
      ("pop_80_plus_pct", CalculateStatistics.NumCol [2.21875; 1.1951219512195121]%float) ]
    "GEOID"
  = inr (CalculateStatistics.ObjCol
           (map Some ["49035100100"; "49057210100"])).
Proof.
  apply (census_key_is_the_tract_identifier
           DemoCensus.to_numeric DemoCensus.nansum DemoCensus.acs).
  - vm_compute. reflexivity.
  - reflexivity.
  - repeat constructor.
Defined.

(* ===================================================================== *)
(** * More on the EPA records *)
(* ===================================================================== *)

(** X13.  The frame [process_epa_data] hands on is empty only when the
    file has no record at all; its records all lie in the inversion
    window, unless no record of the file does, in which case it is the
    whole file. *)
Theorem epa_frame_is_empty_only_for_an_empty_file
    (groupby_mean : list EPAMain.EpaRecord -> list EPAMain.EpaSite)
    (df : list EPAMain.EpaRecord) :
  let df_filtered := snd (fst (EPAMain.process_epa_data groupby_mean df)) in
  (df_filtered = [] <-> df = []) /\
  (Forall (fun r => EPAMain.in_window r = true) df_filtered
   \/ (Forall (fun r => EPAMain.in_window r = false) df
       /\ df_filtered = df)) /\
  fst (fst (EPAMain.process_epa_data groupby_mean df))
  = groupby_mean df_filtered.
Proof.
  unfold EPAMain.process_epa_data.
  destruct (List.filter EPAMain.in_window df) as [|r l] eqn:E; simpl.
  - repeat split; auto. right. split; [|reflexivity].
    apply List.Forall_forall. intros r Hr.
    destruct (EPAMain.in_window r) eqn:Hw; [|reflexivity].
    assert (In r (List.filter EPAMain.in_window df)) as Hin
      by (apply filter_In; auto).
    rewrite E in Hin. destruct Hin.
  - repeat split; try discriminate.
    + intros ->. discriminate.
    + left. rewrite <- E. apply List.Forall_forall. intros x Hx.
      now apply filter_In in Hx.
Qed.

(** X14.  The AQI breakdown of the EPA section of calculate_statistics.py
    divides by the number of records of the window 2025-01-14 to
    2025-01-30 without a guard: it raises [ZeroDivisionError], before
    printing any of its three lines, exactly when the file has no record
    in that window; otherwise it prints the three lines, with the same
    total. *)
Theorem epa_breakdown_divides_by_the_window_size
    (df_epa : list EPAMain.EpaRecord) :
  (List.filter StatisticsEPA.inv_mask df_epa = [] <->
   StatisticsEPA.aqi_breakdown df_epa
   = ([], Some StatisticsEPA.ZeroDivisionError)) /\
  (List.filter StatisticsEPA.inv_mask df_epa <> [] ->
   exists good moderate unhealthy,
     StatisticsEPA.aqi_breakdown df_epa
     = ([ StatisticsEPA.GoodLine good
            (length (List.filter StatisticsEPA.inv_mask df_epa));
          StatisticsEPA.ModerateLine moderate
            (length (List.filter StatisticsEPA.inv_mask df_epa));
          StatisticsEPA.UnhealthyLine unhealthy
            (length (List.filter StatisticsEPA.inv_mask df_epa)) ],
        None)).
Proof.
  unfold StatisticsEPA.aqi_breakdown, StatisticsEPA.percent_line.
  destruct (List.filter StatisticsEPA.inv_mask df_epa) as [|r l]; simpl.
  - split; [tauto|congruence].
  - split; [split; discriminate|]. intros _. eauto.
Qed.

(* ===================================================================== *)
(** * The download of the EPA records *)
(* ===================================================================== *)

Section JsonFacts.
Import PyJson.

Lemma exn_bind_inr {A B : Type} (m : Exn + A) (f : A -> Exn + B) (b : B) :
  (m ≫= f) = inr b -> exists a, m = inr a /\ f a = inr b.
Proof. destruct m as [e|a]; [discriminate|]. intros H. now exists a. Qed.

Lemma dict_get_set_same (d : list (string * Json)) (k : string) (v : Json) :
  dict_get (dict_set d k v) k = Some v.
Proof.
  induction d as [|[k' v'] d IH]; simpl.
  - now rewrite String.eqb_refl.
  - destruct (String.eqb k' k) eqn:E; simpl.
    + now rewrite String.eqb_refl.
    + now rewrite E.
Qed.

Lemma dict_get_key (d : list (string * Json)) (k : string) :
  dict_get d k <> None <-> In k (map fst d).
Proof.
  induction d as [|[k' v'] d IH]; simpl; [tauto|].
  destruct (String.eqb k' k) eqn:E.
  - apply String.eqb_eq in E. split; [auto|discriminate].
  - apply String.eqb_neq in E. rewrite IH. tauto.
Qed.

Lemma for_each_setitem (k : string) (v : Json) (l out : list Json) :
  for_each (fun record => setitem record k v) l = inr out ->
  exists ds, out = map JDict ds /\
             Forall (fun d => dict_get d k = Some v) ds.
Proof.
  revert out. induction l as [|r l IH]; simpl; intros out H.
  - injection H as <-. now exists [].
  - apply exn_bind_inr in H as (b & Hb & H).
    apply exn_bind_inr in H as (bs & Hbs & H).
    injection H as <-. destruct (IH _ Hbs) as (ds & -> & Hds).
    destruct r; try discriminate. injection Hb as <-.
    exists (dict_set entries k v :: ds). split; [reflexivity|].
    constructor; [apply dict_get_set_same|assumption].
Qed.

Lemma for_each_setitem_dicts (k : string) (v : Json) (l out : list Json) :
  for_each (fun record => setitem record k v) l = inr out ->
  exists ds, l = map JDict ds /\
             out = map JDict (map (fun d => dict_set d k v) ds).
Proof.
  revert out. induction l as [|r l IH]; simpl; intros out H.
  - injection H as <-. now exists [].
  - apply exn_bind_inr in H as (b & Hb & H).
    apply exn_bind_inr in H as (bs & Hbs & H).
    injection H as <-. destruct (IH _ Hbs) as (ds & -> & ->).
    destruct r; try discriminate. injection Hb as <-.
    now exists (entries :: ds).
Qed.

Lemma chars_not_empty (c : ascii) (s : string) : chars (String c s) <> [].
Proof.
  cbn [chars]. destruct s as [|c' s']; [discriminate|].
  destruct (continuation c'); [|discriminate].
  destruct (chars (String c' s')); discriminate.
Qed.

(** What can be gone through and labelled is a list of dicts. *)
Lemma labelled_data (k : string) (v : Json) (data : Json)
    (records out : list Json) :
  truthy data = true ->
  iter data = inr records ->
  for_each (fun record => setitem record k v) records = inr out ->
  exists ds, ds <> [] /\ data = JList (map JDict ds) /\
             out = map JDict (map (fun d => dict_set d k v) ds).
Proof.
  intros Ht Hi Hf. apply for_each_setitem_dicts in Hf as (ds & -> & ->).
  destruct data as [| | | |s|l|d]; try discriminate.
  - exfalso. injection Hi as Hi. destruct s as [|c s]; [discriminate|].
    pose proof (chars_not_empty c s) as Hc.
    destruct (chars (String c s)); [contradiction|].
    destruct ds; discriminate.
  - injection Hi as ->. exists ds. repeat split.
    intros ->. discriminate.
  - exfalso. injection Hi as Hi. destruct d as [|kv d]; [discriminate|].
    destruct ds; discriminate.
Qed.
End JsonFacts.

Section FetchFacts.
Import PyJson.
Variable requests_get : GetEPAData.Request -> Exn + GetEPAData.Response.
Variables email key : string.

Lemma fetch_county_spec (all_data out : list Json) (county_code : string) :
  GetEPAData.fetch_county requests_get email key all_data county_code
  = inr out ->
  exists ds,
    out = all_data ++ map JDict ds /\
    Forall (fun d =>
              dict_get d "county_name"
              = Some (JStr (GetEPAData.names_get GetEPAData.COUNTY_NAMES
                              county_code "Unknown"))) ds.
Proof.
  unfold GetEPAData.fetch_county. intros H.
  apply exn_bind_inr in H as (response & _ & H).
  destruct (GetEPAData.status_code response =? 200)%Z.
  - apply exn_bind_inr in H as (json_data & _ & H).
    apply exn_bind_inr in H as (header & _ & H).
    apply exn_bind_inr in H as (data & _ & H).
    apply exn_bind_inr in H as (? & _ & H).
    apply exn_bind_inr in H as (? & _ & H).
    destruct (truthy data).
    + apply exn_bind_inr in H as (records & _ & H).
      apply exn_bind_inr in H as (records' & Hrec & H).
      injection H as <-.
      apply for_each_setitem in Hrec as (ds & -> & Hds). now exists ds.
    + injection H as <-. exists []. split; [now rewrite app_nil_r|constructor].
  - injection H as <-. exists []. split; [now rewrite app_nil_r|constructor].
Qed.

Lemma fetch_county_records (all_data out : list Json)
    (county_code : string) :
  GetEPAData.fetch_county requests_get email key all_data county_code
  = inr out ->
  exists records,
    reply_holds requests_get email key county_code records /\
    out = all_data
          ++ map JDict
               (map (labelled (GetEPAData.names_get GetEPAData.COUNTY_NAMES
                                 county_code "Unknown")) records).
Proof.
  unfold GetEPAData.fetch_county, reply_holds. intros H.
  apply exn_bind_inr in H as (response & Hget & H).
  destruct (Z.eqb_spec (GetEPAData.status_code response) 200) as [E|E].
  - apply exn_bind_inr in H as (json_data & Hjson & H).
    apply exn_bind_inr in H as (header & _ & H).
    apply exn_bind_inr in H as (data & Hdata & H).
    apply exn_bind_inr in H as (? & _ & H).
    apply exn_bind_inr in H as (? & _ & H).
    destruct (truthy data) eqn:Ht.
    + apply exn_bind_inr in H as (records & Hiter & H).
      apply exn_bind_inr in H as (records' & Hrec & H).
      injection H as <-.
      destruct (labelled_data _ _ _ _ _ Ht Hiter Hrec)
        as (ds & Hne & -> & ->).
      exists ds. split; [|reflexivity].
      exists response. split; [exact Hget|]. right. split; [exact E|].
      exists json_data, (JList (map JDict ds)). auto.
    + injection H as <-. exists []. split; [|now rewrite app_nil_r].
      exists response. split; [exact Hget|]. right. split; [exact E|].
      exists json_data, data. auto.
  - injection H as <-. exists []. split; [|now rewrite app_nil_r].
    exists response. split; [exact Hget|]. left. auto.
Qed.

Lemma fetch_spec (r : option Json) :
  GetEPAData.fetch_pm25_data requests_get email key = inr r ->
  exists salt_lake davis : list (list (string * Json)),
    Forall (fun d => dict_get d "county_name"
                     = Some (JStr "Salt Lake County")) salt_lake /\
    Forall (fun d => dict_get d "county_name"
                     = Some (JStr "Davis County")) davis /\
    r = match salt_lake ++ davis with
        | [] => None
        | records => Some (GetEPAData.combined (map JDict records))
        end.
Proof.
  unfold GetEPAData.fetch_pm25_data, GetEPAData.COUNTY_CODES. intros H.
  apply exn_bind_inr in H as (all_data & Hfold & H).
  cbn [fold_exn] in Hfold.
  apply exn_bind_inr in Hfold as (a1 & H1 & Hfold).
  apply exn_bind_inr in Hfold as (a2 & H2 & Hfold).
  injection Hfold as <-.
  apply fetch_county_spec in H1 as (sl & -> & Hsl).
  apply fetch_county_spec in H2 as (dv & -> & Hdv).
  exists sl, dv. repeat split; [exact Hsl|exact Hdv|].
  cbn [app] in H. rewrite <- map_app in H.
  destruct (sl ++ dv) as [|d ds] eqn:E; cbn [map] in H;
    injection H as <-; reflexivity.
Qed.
End FetchFacts.

(** X15.  When [fetch_pm25_data] returns, what it returns is made of
    the records that the reply for Salt Lake County holds, followed by
    those that the reply for Davis County holds, each with the name of
    its county written under [county_name] whatever the reply said
    there, and otherwise as the reply gave it; it is [None] when there is
    no record, and otherwise the dict with these records as [Data] and a
    one-entry [Header] of status [Success] whose [rows] is their
    number. *)
Theorem fetched_records_are_labelled_by_county
    (requests_get : GetEPAData.Request
                    -> PyJson.Exn + GetEPAData.Response)
    (email key : string) (r : option PyJson.Json) :
  GetEPAData.fetch_pm25_data requests_get email key = inr r ->
  exists salt_lake davis : list (list (string * PyJson.Json)),
    reply_holds requests_get email key "035" salt_lake /\
    reply_holds requests_get email key "011" davis /\
    r = match map (labelled "Salt Lake County") salt_lake
              ++ map (labelled "Davis County") davis with
        | [] => None
        | records =>
            Some (PyJson.JDict
                    [ ("Data", PyJson.JList (map PyJson.JDict records));
                      ("Header",
                       PyJson.JList
                         [ PyJson.JDict
                             [ ("status", PyJson.JStr "Success");
                               ("rows",
                                PyJson.JInt
                                  (Z.of_nat (length records))) ] ]) ])
        end.
Proof.
  unfold GetEPAData.fetch_pm25_data, GetEPAData.COUNTY_CODES. intros H.
  apply exn_bind_inr in H as (all_data & Hfold & H).
  cbn [PyJson.fold_exn] in Hfold.
  apply exn_bind_inr in Hfold as (a1 & H1 & Hfold).
  apply exn_bind_inr in Hfold as (a2 & H2 & Hfold).
  injection Hfold as <-.
  apply fetch_county_records in H1 as (sl & Hsl & ->).
  apply fetch_county_records in H2 as (dv & Hdv & ->).
  exists sl, dv. split; [exact Hsl|]. split; [exact Hdv|].
  cbn [app] in H. rewrite <- map_app in H.
  change (GetEPAData.names_get GetEPAData.COUNTY_NAMES "035" "Unknown")
    with "Salt Lake County" in H.
  change (GetEPAData.names_get GetEPAData.COUNTY_NAMES "011" "Unknown")
    with "Davis County" in H.
  destruct (map (labelled "Salt Lake County") sl
            ++ map (labelled "Davis County") dv) as [|d ds] eqn:E;
    cbn [map] in H; injection H as <-; [reflexivity|].
  unfold GetEPAData.combined. cbn [map length]. now rewrite length_map.
Qed.

Lemma fetched_records_are_labelled_by_county_witness :
  exists salt_lake davis : list (list (string * PyJson.Json)),
    reply_holds DemoEPA.requests_get "a@b.c" "k" "035" salt_lake /\
    reply_holds DemoEPA.requests_get "a@b.c" "k" "011" davis /\
    Some DemoEPA.fetched
    = match map (labelled "Salt Lake County") salt_lake
            ++ map (labelled "Davis County") davis with
      | [] => None
      | records =>
          Some (PyJson.JDict
                  [ ("Data", PyJson.JList (map PyJson.JDict records));
                    ("Header",
                     PyJson.JList
                       [ PyJson.JDict
                           [ ("status", PyJson.JStr "Success");
                             ("rows",
                              PyJson.JInt
                                (Z.of_nat (length records))) ] ]) ])
      end.
Proof.
  apply (fetched_records_are_labelled_by_county
           DemoEPA.requests_get "a@b.c" "k").
  vm_compute. reflexivity.
Defined.

Section SaveFacts.
Import PyJson.
Context {Col : Type}.

Lemma in_columns_spec (col : string) (df : list (string * Col)) :
  GetEPAData.in_columns col df = true <-> In col (map fst df).
Proof.
  unfold GetEPAData.in_columns. rewrite existsb_exists, in_map_iff.
  split.
  - intros (c & Hc & E). apply String.eqb_eq in E. now exists c.
  - intros (c & E & Hc). exists c. split; [assumption|].
    now apply String.eqb_eq.
Qed.

Lemma select_names (df : list (string * Col)) (cols : list string)
    (n : string) :
  In n (map fst (GetEPAData.select df cols))
  <-> In n cols /\ In n (map fst df).
Proof.
  unfold GetEPAData.select. rewrite in_map_iff. split.
  - intros (c & <- & Hc). apply in_flat_map in Hc as (col & Hcol & Hc).
    apply filter_In in Hc as (Hc & E). apply String.eqb_eq in E.
    split; [now rewrite E|]. apply in_map_iff. now exists c.
  - intros (Hn & Hdf). apply in_map_iff in Hdf as (c & <- & Hc).
    exists c. split; [reflexivity|]. apply in_flat_map.
    exists (fst c). split; [assumption|]. apply filter_In.
    split; [assumption|]. apply String.eqb_refl.
Qed.

Lemma filter_head (df rest : list (string * Col)) (col : string) :
  In col (map fst df) ->
  hd_error
    (map fst (List.filter (fun c => String.eqb (fst c) col) df ++ rest))
  = Some col.
Proof.
  intros H. induction df as [|c df IH]; [destruct H|].
  cbn [List.filter]. destruct (String.eqb (fst c) col) eqn:E.
  - apply String.eqb_eq in E. simpl. now rewrite E.
  - apply IH. destruct H as [H|H]; [|assumption].
    apply String.eqb_neq in E. now destruct E.
Qed.

Lemma select_head (df : list (string * Col)) (col : string)
    (cols : list string) :
  In col (map fst df) ->
  hd_error (map fst (GetEPAData.select df (col :: cols))) = Some col.
Proof.
  unfold GetEPAData.select. cbn [flat_map]. apply filter_head.
Qed.

Lemma rename_names (df : list (string * Col)) (old new : string) :
  map fst (GetEPAData.rename df old new)
  = map (fun n => if String.eqb n old then new else n) (map fst df).
Proof.
  unfold GetEPAData.rename. rewrite !map_map. apply map_ext.
  intros c. now destruct (String.eqb (fst c) old).
Qed.
End SaveFacts.

Section UnionFacts.
Import PyJson.

Lemma keys_fold (ks acc : list string) (k : string) :
  In k (fold_left
          (fun acc k =>
             if existsb (String.eqb k) acc then acc else acc ++ [k])
          ks acc)
  <-> In k acc \/ In k ks.
Proof.
  revert acc. induction ks as [|k' ks IH]; intros acc; simpl; [tauto|].
  rewrite IH. destruct (existsb (String.eqb k') acc) eqn:E.
  - apply existsb_exists in E as (x & Hx & E). apply String.eqb_eq in E.
    subst x. split; [tauto|]. intros [H|[<-|H]]; auto.
  - rewrite in_app_iff. simpl. tauto.
Qed.

Lemma keys_union_spec (records : list (list (string * Json))) (k : string) :
  In k (GetEPAData.keys_union records)
  <-> exists d, In d records /\ dict_get d k <> None.
Proof.
  unfold GetEPAData.keys_union. rewrite keys_fold, in_flat_map.
  split.
  - intros [[]|(d & Hd & Hk)]. exists d. now rewrite dict_get_key.
  - intros (d & Hd & Hk). right. exists d. now rewrite <- dict_get_key.
Qed.

(** The frame of [DemoEPA] has the columns of [pd.DataFrame]. *)
Lemma demo_frame_columns (records : list (list (string * Json))) :
  exists df,
    DemoEPA.DataFrame (JList (map JDict records)) = inr df /\
    map fst df = GetEPAData.keys_union records.
Proof.
  unfold DemoEPA.DataFrame.
  assert (DemoEPA.dicts (map JDict records) = Some records) as ->.
  { induction records as [|d l IH]; [reflexivity|].
    simpl. now rewrite IH. }
  eexists. split; [reflexivity|]. rewrite map_map. simpl. apply map_id.
Qed.
End UnionFacts.

Section SavedColumns.
Import PyJson.
Context {Col : Type}.
Variable DataFrame : Json -> Exn + list (string * Col).
Hypothesis DataFrame_columns :
  forall records, exists df,
    DataFrame (JList (map JDict records)) = inr df /\
    map fst df = GetEPAData.keys_union records.

Lemma saved_columns (records : list (list (string * Json))) :
  records <> [] ->
  Forall (fun d => dict_get d "county_name" <> None) records ->
  exists df,
    GetEPAData.process_and_save_data DataFrame
      (GetEPAData.combined (map JDict records)) = inr (Some df) /\
    hd_error (map fst df) = Some "county_name" /\
    Forall (fun c => In c epa_csv_columns) (map fst df) /\
    ~ In "arithmetic_mean" (map fst df) /\
    (In "pm25_value" (map fst df)
     <-> exists d, In d records /\ dict_get d "arithmetic_mean" <> None).
Proof using DataFrame_columns.
  intros Hne Hall.
  destruct (DataFrame_columns records) as (df & Hdf & Hcols).
  unfold GetEPAData.process_and_save_data, GetEPAData.combined.
  cbn [truthy negb GetEPAData.first_header get dict_get String.eqb
       Ascii.eqb Bool.eqb mbind exn_bind index nth_error].
  destruct (map JDict records) as [|r0 l0] eqn:Hmap;
    [now destruct records|].
  cbn [negb]. rewrite Hdf. cbn [mbind exn_bind].
  assert (In "county_name" (map fst df)) as Hcounty.
  { rewrite Hcols. apply keys_union_spec. destruct records as [|d l];
      [contradiction|]. exists d. split; [now left|].
    now inversion Hall. }
  pose proof Hcounty as Hin. apply in_columns_spec in Hin.
  set (others := tl GetEPAData.columns_to_keep).
  assert (forall c, In c others -> In c GetEPAData.columns_to_keep)
    as Hothers by (intros c Hc; now right).
  change GetEPAData.columns_to_keep with ("county_name" :: others)
    at 1 2 3 4.
  cbn [List.filter]. rewrite Hin.
  set (rest := List.filter (fun col => GetEPAData.in_columns col df) others).
  set (available := "county_name" :: rest).
  assert (forall c, In c available -> In c GetEPAData.columns_to_keep)
    as Hsub.
  { intros c [<-|Hc]; [now left|]. apply filter_In in Hc as [Hc _].
    now apply Hothers. }
  destruct (GetEPAData.in_columns "arithmetic_mean"
              (GetEPAData.select df available)) eqn:Ham.
  - eexists. split; [reflexivity|]. rewrite rename_names.
    apply in_columns_spec in Ham.
    split; [|split; [|split]].
    + pose proof (select_head df "county_name" rest Hcounty) as Hh.
      fold available in Hh.
      destruct (map fst (GetEPAData.select df available)) as [|c l];
        [discriminate|]. injection Hh as ->. reflexivity.
    + apply List.Forall_forall. intros c Hc.
      apply in_map_iff in Hc as (n & <- & Hn).
      apply select_names in Hn as [Hn _]. apply Hsub in Hn.
      unfold GetEPAData.columns_to_keep in Hn. simpl in Hn.
      unfold epa_csv_columns.
      repeat (destruct Hn as [<-|Hn]; [simpl; tauto|]). destruct Hn.
    + intros Hc. apply in_map_iff in Hc as (n & E & _).
      destruct (String.eqb n "arithmetic_mean") eqn:En; [discriminate|].
      apply String.eqb_neq in En. congruence.
    + split.
      * intros _. apply select_names in Ham as [_ Ham].
        rewrite Hcols in Ham. now apply keys_union_spec.
      * intros _. apply in_map_iff. exists "arithmetic_mean".
        split; [reflexivity|assumption].
  - eexists. split; [reflexivity|].
    assert (~ In "arithmetic_mean"
              (map fst (GetEPAData.select df available))) as Hno.
    { intros Hc. apply in_columns_spec in Hc. congruence. }
    split; [|split; [|split]].
    + apply (select_head df "county_name" rest Hcounty).
    + apply List.Forall_forall. intros c Hc.
      assert (c <> "arithmetic_mean") as Hneq by congruence.
      apply select_names in Hc as [Hc _]. apply Hsub in Hc.
      unfold GetEPAData.columns_to_keep in Hc. simpl in Hc.
      unfold epa_csv_columns.
      repeat (destruct Hc as [<-|Hc]; [simpl; tauto|]). destruct Hc.
    + exact Hno.
    + split.
      * intros Hc. apply select_names in Hc as [Hc _]. apply Hsub in Hc.
        unfold GetEPAData.columns_to_keep in Hc. simpl in Hc.
        repeat (destruct Hc as [Hc|Hc]; [discriminate|]). destruct Hc.
      * intros Hd. apply keys_union_spec in Hd. rewrite <- Hcols in Hd.
        destruct Hno. apply select_names. split; [|assumption].
        subst available rest. right.
        apply filter_In. split; [subst others; simpl; tauto|].
        now apply in_columns_spec.
Qed.
End SavedColumns.

(** X16.  Whatever [fetch_pm25_data] returns other than [None] is saved
    by [process_and_save_data]: with the frame of [pd.DataFrame] having
    as columns the keys of the records, the file written starts with the
    column [county_name], has no column outside those that
    EPADataAnalysis/main.py reads, none named [arithmetic_mean], and has
    the column [pm25_value] exactly when some record has the key
    [arithmetic_mean]; the branch that saves every column is not taken. *)
Theorem fetched_data_is_saved_with_the_columns_read
    {Col : Type}
    (DataFrame : PyJson.Json -> PyJson.Exn + list (string * Col))
    (requests_get : GetEPAData.Request
                    -> PyJson.Exn + GetEPAData.Response)
    (email key : string) (json_data : PyJson.Json) :
  (forall records, exists df,
     DataFrame (PyJson.JList (map PyJson.JDict records)) = inr df /\
     map fst df = GetEPAData.keys_union records) ->
  GetEPAData.fetch_pm25_data requests_get email key
  = inr (Some json_data) ->
  exists records df,
    json_data = GetEPAData.combined (map PyJson.JDict records) /\
    GetEPAData.process_and_save_data DataFrame json_data = inr (Some df) /\
    hd_error (map fst df) = Some "county_name" /\
    Forall (fun c => In c epa_csv_columns) (map fst df) /\
    ~ In "arithmetic_mean" (map fst df) /\
    (In "pm25_value" (map fst df)
     <-> exists d, In d records
                   /\ PyJson.dict_get d "arithmetic_mean" <> None).
Proof.
  intros Hdf H. apply fetch_spec in H as (sl & dv & Hsl & Hdv & H).
  destruct (sl ++ dv) as [|d l] eqn:E; [discriminate|].
  injection H as ->.
  destruct (saved_columns DataFrame Hdf (d :: l)) as (df & Hdf'); 
    [discriminate| |].
  - rewrite <- E. apply Forall_app. split.
    + eapply List.Forall_impl; [|exact Hsl]. intros a Ha. congruence.
    + eapply List.Forall_impl; [|exact Hdv]. intros a Ha. congruence.
  - exists (d :: l), df. split; [reflexivity|exact Hdf'].
Qed.

Lemma fetched_data_is_saved_with_the_columns_read_witness :
  exists records df,
    DemoEPA.fetched = GetEPAData.combined (map PyJson.JDict records) /\
    GetEPAData.process_and_save_data DemoEPA.DataFrame DemoEPA.fetched
    = inr (Some df) /\
    hd_error (map fst df) = Some "county_name" /\
    Forall (fun c => In c epa_csv_columns) (map fst df) /\
    ~ In "arithmetic_mean" (map fst df) /\
    (In "pm25_value" (map fst df)
     <-> exists d, In d records
                   /\ PyJson.dict_get d "arithmetic_mean" <> None).
Proof.
  apply (fetched_data_is_saved_with_the_columns_read
           DemoEPA.DataFrame DemoEPA.requests_get "a@b.c" "k").
  - exact demo_frame_columns.
  - vm_compute. reflexivity.
Defined.

(** X17.  A reply of status 200 whose [Header] is an empty list is not
    survived by [fetch_pm25_data]: when Salt Lake County is answered so,
    the function raises [IndexError], whatever the reply holds as [Data]
    and whatever Davis County answers; [verify_credentials] answered so
    returns [False]. *)
Theorem empty_header_stops_the_fetch
    (requests_get : GetEPAData.Request
                    -> PyJson.Exn + GetEPAData.Response)
    (email key : string) (body : list (string * PyJson.Json)) :
  PyJson.dict_get body "Header" = Some (PyJson.JList []) ->
  requests_get
    (GetEPAData.DailyByCounty email key GetEPAData.PARAM_CODE
       GetEPAData.BEGIN_DATE GetEPAData.END_DATE GetEPAData.STATE_CODE
       "035")
  = inr (GetEPAData.mkResponse 200 (inr (PyJson.JDict body))) ->
  GetEPAData.fetch_pm25_data requests_get email key
  = inl PyJson.IndexError /\
  (requests_get (GetEPAData.ListStates email key)
   = inr (GetEPAData.mkResponse 200 (inr (PyJson.JDict body))) ->
   GetEPAData.verify_credentials requests_get email key = false).
Proof.
  intros Hh Hget. split.
  - unfold GetEPAData.fetch_pm25_data, GetEPAData.COUNTY_CODES.
    cbn [PyJson.fold_exn].
    assert (GetEPAData.fetch_county requests_get email key [] "035"
            = inl PyJson.IndexError) as ->; [|reflexivity].
    unfold GetEPAData.fetch_county.
    rewrite Hget. cbn [mbind PyJson.exn_bind GetEPAData.status_code
                       GetEPAData.json Z.eqb Pos.eqb].
    unfold GetEPAData.first_header. cbn [PyJson.get]. rewrite Hh.
    reflexivity.
  - intros Hv. unfold GetEPAData.verify_credentials. rewrite Hv.
    cbn [mbind PyJson.exn_bind GetEPAData.status_code
         GetEPAData.json Z.eqb Pos.eqb].
    unfold GetEPAData.first_header. cbn [PyJson.get]. rewrite Hh.
    reflexivity.
Qed.

Lemma empty_header_stops_the_fetch_witness :
  GetEPAData.fetch_pm25_data DemoEPA.requests_get_headless "a@b.c" "k"
  = inl PyJson.IndexError /\
  (DemoEPA.requests_get_headless (GetEPAData.ListStates "a@b.c" "k")
   = inr (GetEPAData.mkResponse 200
            (inr (PyJson.JDict
                    [ ("Header", PyJson.JList []);
                      ("Data", PyJson.JList [DemoEPA.hawthorne]) ]))) ->
   GetEPAData.verify_credentials DemoEPA.requests_get_headless
     "a@b.c" "k" = false).
Proof.
  apply (empty_header_stops_the_fetch DemoEPA.requests_get_headless
           "a@b.c" "k"
           [ ("Header", PyJson.JList []);
             ("Data", PyJson.JList [DemoEPA.hawthorne]) ]).
  - reflexivity.
  - reflexivity.
Defined.

(* ===================================================================== *)
(** * The rows of the TRAX file *)
(* ===================================================================== *)

Section TraxFacts.
Import PyJson.
Variable float_of_str : string -> option float.

Lemma row_at_spec (id_ lats lons : Json) (i : nat) (t pm : Json)
    (row : list Trax.TraxRow) :
  Trax.row_at id_ lats lons i t pm = inr row ->
  row = [] \/
  (pm <> JNull /\
   exists la lo,
     index lats i = inr la /\ index lons i = inr lo /\
     row = [Trax.mkTraxRow id_ t la lo pm]).
Proof.
  intros H.
  assert (pm = JNull \/ pm <> JNull) as [->|Hpm]
    by (destruct pm; auto; right; discriminate).
  - left. now injection H.
  - assert ((n ← len lats;
             if (i <? n)%nat then
               m ← len lons;
               if (i <? m)%nat then
                 la ← index lats i;
                 lo ← index lons i;
                 mret [Trax.mkTraxRow id_ t la lo pm]
               else mret []
             else mret []) = inr row) as H'
      by (destruct pm; try exact H; now destruct Hpm).
    clear H. apply exn_bind_inr in H' as (n & _ & H).
    destruct (i <? n)%nat; [|left; now injection H].
    apply exn_bind_inr in H as (m & _ & H).
    destruct (i <? m)%nat; [|left; now injection H].
    apply exn_bind_inr in H as (la & Hla & H).
    apply exn_bind_inr in H as (lo & Hlo & H).
    right. split; [assumption|]. exists la, lo.
    repeat split; [assumption|assumption|now injection H].
Qed.

Lemma rows_from_spec (id_ lats lons : Json) (pairs : list (Json * Json))
    (i : nat) (rows : list Trax.TraxRow) :
  Trax.rows_from id_ lats lons i pairs = inr rows ->
  Forall (fun r =>
            Trax.pm25 r <> JNull /\ Trax.train_id r = id_ /\
            In (Trax.time r, Trax.pm25 r) pairs /\
            exists j, index lats j = inr (Trax.lat r)
                      /\ index lons j = inr (Trax.lon r)) rows.
Proof.
  revert i rows. induction pairs as [|[t pm] pairs IH]; intros i rows H.
  - simpl in H. injection H as <-. constructor.
  - cbn [Trax.rows_from] in H.
    apply exn_bind_inr in H as (row & Hrow & H).
    apply exn_bind_inr in H as (rest & Hrest & H).
    injection H as <-. apply Forall_app. split.
    + apply row_at_spec in Hrow as [->|(Hpm & la & lo & Hla & Hlo & ->)];
        [constructor|].
      constructor; [|constructor]. simpl.
      repeat split; [assumption|now left|]. now exists i.
    + apply IH in Hrest. eapply List.Forall_impl; [|exact Hrest].
      intros r (H1 & H2 & H3 & H4). repeat split; auto. now right.
Qed.

Lemma process_station_spec (pm25_var : string) (station : Json)
    (rows : list Trax.TraxRow) :
  Trax.process_station float_of_str pm25_var station = inr rows ->
  Forall (fun r =>
            Trax.pm25 r <> JNull /\
            get station "STID" (JStr "Unknown") = inr (Trax.train_id r))
         rows.
Proof.
  unfold Trax.process_station. intros H.
  apply exn_bind_inr in H as (name & _ & H).
  apply exn_bind_inr in H as (id_ & Hid & H).
  apply exn_bind_inr in H as (obs & _ & H).
  apply exn_bind_inr in H as (ks & _ & H).
  destruct obs as [| | | | | |obs]; try discriminate.
  destruct (dict_get obs "date_time") as [times|];
    [|injection H as <-; constructor].
  apply exn_bind_inr in H as (n & _ & H).
  apply exn_bind_inr in H as ([lats lons] & _ & H).
  destruct (Trax.find_pm_key obs pm25_var) as [pm_key|];
    [|injection H as <-; constructor].
  destruct (String.eqb pm_key ""); [injection H as <-; constructor|].
  apply exn_bind_inr in H as (vals & _ & H).
  apply exn_bind_inr in H as (? & _ & H).
  apply exn_bind_inr in H as (ts & _ & H).
  apply exn_bind_inr in H as (vs & _ & H).
  apply rows_from_spec in H. eapply List.Forall_impl; [|exact H].
  intros r (H1 & H2 & _). split; [assumption|]. now rewrite H2.
Qed.

Lemma for_each_stations (pm25_var : string) (stations : list Json)
    (rows : list (list Trax.TraxRow)) :
  for_each (Trax.process_station float_of_str pm25_var) stations
  = inr rows ->
  Forall (fun r =>
            Trax.pm25 r <> JNull /\
            exists station,
              In station stations /\
              get station "STID" (JStr "Unknown") = inr (Trax.train_id r))
         (concat rows).
Proof.
  revert rows. induction stations as [|s l IH]; intros rows H.
  - simpl in H. injection H as <-. constructor.
  - cbn [for_each] in H.
    apply exn_bind_inr in H as (b & Hb & H).
    apply exn_bind_inr in H as (bs & Hbs & H).
    injection H as <-. cbn [concat]. apply Forall_app. split.
    + apply process_station_spec in Hb.
      eapply List.Forall_impl; [|exact Hb].
      intros r [H1 H2]. split; [assumption|]. exists s. split; [now left|].
      assumption.
    + apply IH in Hbs. eapply List.Forall_impl; [|exact Hbs].
      intros r (H1 & st & H2 & H3). split; [assumption|]. exists st.
      split; [now right|assumption].
Qed.

Lemma index_repeat (x v : Json) (n j : nat) :
  index (JList (repeat x n)) j = inr v -> v = x.
Proof.
  simpl. destruct (nth_error (repeat x n) j) as [y|] eqn:E; [|discriminate].
  intros H. injection H as <-. apply nth_error_In in E.
  now apply repeat_spec in E.
Qed.
End TraxFacts.

(** X18.  Every row [process_trax_data] writes to the file has a reading
    that is not [None], a latitude and a longitude that are neither
    [None] nor NaN, and as [train_id] the [STID] of a station of the
    response, or [Unknown] for a station without one. *)
Theorem saved_trax_rows_are_complete
    (float_of_str : string -> option float)
    (data : PyJson.Json) (pm25_var : string) (rows : list Trax.TraxRow) :
  Trax.process_trax_data float_of_str data pm25_var = inr (Some rows) ->
  Forall (fun r =>
            Trax.pm25 r <> PyJson.JNull /\
            Trax.isna (Trax.lat r) = false /\
            Trax.isna (Trax.lon r) = false /\
            exists stations all station,
              PyJson.getitem data "STATION" = inr stations /\
              PyJson.iter stations = inr all /\
              In station all /\
              PyJson.get station "STID" (PyJson.JStr "Unknown")
              = inr (Trax.train_id r))
         rows.
Proof.
  unfold Trax.process_trax_data. intros H.
  apply exn_bind_inr in H as (ks & _ & H).
  destruct data as [| | | | | |d]; try discriminate.
  apply exn_bind_inr in H as (all_rows & Hall & H).
  assert (rows = Trax.dropna all_rows) as ->
    by (destruct all_rows; [discriminate|now injection H]).
  clear H. destruct (PyJson.dict_get d "STATION") as [stations|] eqn:Hst.
  - apply exn_bind_inr in Hall as (n & _ & H).
    apply exn_bind_inr in H as (all & Hiter & H).
    apply exn_bind_inr in H as (per_station & Hrows & H).
    injection H as <-. apply for_each_stations in Hrows.
    apply List.Forall_forall. intros r Hr.
    apply filter_In in Hr as [Hr Hna].
    rewrite List.Forall_forall in Hrows.
    destruct (Hrows r Hr) as (Hpm & station & Hin & Hid).
    apply andb_prop in Hna as [Hlat Hlon].
    apply negb_true_iff in Hlat, Hlon.
    repeat split; try assumption.
    exists stations, all, station. simpl. rewrite Hst. auto.
  - injection Hall as <-. constructor.
Qed.

Lemma saved_trax_rows_are_complete_witness :
  Forall (fun r =>
            Trax.pm25 r <> PyJson.JNull /\
            Trax.isna (Trax.lat r) = false /\
            Trax.isna (Trax.lon r) = false /\
            exists stations all station,
              PyJson.getitem DemoTrax.data "STATION" = inr stations /\
              PyJson.iter stations = inr all /\
              In station all /\
              PyJson.get station "STID" (PyJson.JStr "Unknown")
              = inr (Trax.train_id r))
         DemoTrax.saved.
Proof.
  apply (saved_trax_rows_are_complete DemoTrax.float_of_str DemoTrax.data
           "PM_25").
  vm_compute. reflexivity.
Defined.

(** X19.  A station that sends no positions, not both a latitude and a
    longitude series, and has neither [LATITUDE] nor [LONGITUDE] of its
    own is located at latitude 0.0 and longitude 0.0: every row it adds
    carries these coordinates, and none of them is dropped as a row
    without coordinates. *)
Theorem station_without_location_is_put_at_zero
    (float_of_str : string -> option float) (pm25_var : string)
    (station obs : list (string * PyJson.Json))
    (rows : list Trax.TraxRow) :
  PyJson.dict_get station "LATITUDE" = None ->
  PyJson.dict_get station "LONGITUDE" = None ->
  PyJson.dict_get station "OBSERVATIONS" = Some (PyJson.JDict obs) ->
  PyJson.dict_get obs "position" = None ->
  PyJson.dict_get obs "latitude" = None
  \/ PyJson.dict_get obs "longitude" = None ->
  Trax.process_station float_of_str pm25_var (PyJson.JDict station)
  = inr rows ->
  Forall (fun r => Trax.lat r = PyJson.JFloat 0
                   /\ Trax.lon r = PyJson.JFloat 0) rows /\
  Trax.dropna rows = rows.
Proof.
  intros Hlat Hlon Hobs Hpos Hseries H.
  assert (Forall (fun r => Trax.lat r = PyJson.JFloat 0
                           /\ Trax.lon r = PyJson.JFloat 0) rows) as Hzero.
  { unfold Trax.process_station in H.
    apply exn_bind_inr in H as (name & _ & H).
    apply exn_bind_inr in H as (id_ & _ & H).
    apply exn_bind_inr in H as (o & Ho & H).
    simpl in Ho. rewrite Hobs in Ho. injection Ho as <-.
    apply exn_bind_inr in H as (ks & _ & H).
    destruct (PyJson.dict_get obs "date_time") as [times|];
      [|injection H as <-; constructor].
    apply exn_bind_inr in H as (n & _ & H).
    apply exn_bind_inr in H as ([lats lons] & Hloc & H).
    rewrite Hpos in Hloc.
    assert (Trax.static_location float_of_str (PyJson.JDict station) n
            = inr (lats, lons)) as Hstatic.
    { destruct Hseries as [E|E]; rewrite E in Hloc;
        [exact Hloc|].
      now destruct (PyJson.dict_get obs "latitude"). }
    clear Hloc. unfold Trax.static_location in Hstatic.
    simpl in Hstatic. rewrite Hlat, Hlon in Hstatic.
    injection Hstatic as <- <-.
    destruct (Trax.find_pm_key obs pm25_var) as [pm_key|];
      [|injection H as <-; constructor].
    destruct (String.eqb pm_key EmptyString);
      [injection H as <-; constructor|].
    apply exn_bind_inr in H as (vals & _ & H).
    apply exn_bind_inr in H as (? & _ & H).
    apply exn_bind_inr in H as (ts & _ & H).
    apply exn_bind_inr in H as (vs & _ & H).
    apply rows_from_spec in H. eapply List.Forall_impl; [|exact H].
    intros r (_ & _ & _ & j & Hj1 & Hj2).
    apply index_repeat in Hj1, Hj2. now split. }
  split; [assumption|]. unfold Trax.dropna.
  apply forallb_filter_id. apply forallb_forall. intros r Hr.
  rewrite List.Forall_forall in Hzero. destruct (Hzero r Hr) as [-> ->].
  reflexivity.
Qed.

Lemma station_without_location_is_put_at_zero_witness :
  Forall (fun r => Trax.lat r = PyJson.JFloat 0
                   /\ Trax.lon r = PyJson.JFloat 0)
    [ Trax.mkTraxRow (PyJson.JStr "TRX03")
        (PyJson.JStr "2025-12-01T00:00:00Z")
        (PyJson.JFloat 0) (PyJson.JFloat 0) (PyJson.JFloat 9.5) ] /\
  Trax.dropna
    [ Trax.mkTraxRow (PyJson.JStr "TRX03")
        (PyJson.JStr "2025-12-01T00:00:00Z")
        (PyJson.JFloat 0) (PyJson.JFloat 0) (PyJson.JFloat 9.5) ]
  = [ Trax.mkTraxRow (PyJson.JStr "TRX03")
        (PyJson.JStr "2025-12-01T00:00:00Z")
        (PyJson.JFloat 0) (PyJson.JFloat 0) (PyJson.JFloat 9.5) ].
Proof.
  apply (station_without_location_is_put_at_zero DemoTrax.float_of_str
           "pm25"
           [ ("STID", PyJson.JStr "TRX03");
             ("OBSERVATIONS",
              PyJson.JDict
                [ ("date_time",
                   PyJson.JList [ PyJson.JStr "2025-12-01T00:00:00Z" ]);
                  ("pm25", PyJson.JList [ PyJson.JFloat 9.5 ]) ]) ]
           [ ("date_time",
              PyJson.JList [ PyJson.JStr "2025-12-01T00:00:00Z" ]);
             ("pm25", PyJson.JList [ PyJson.JFloat 9.5 ]) ]).
  - reflexivity.
  - reflexivity.
  - reflexivity.
  - reflexivity.
  - left. reflexivity.
  - vm_compute. reflexivity.
Defined.

Section SeriesFacts.
Import PyJson.

Lemma row_at_list (id_ : Json) (lats lons : list Json) (i : nat)
    (t pm : Json) :
  Trax.row_at id_ (JList lats) (JList lons) i t pm
  = inr (if is_not_None pm then
           match nth_error lats i, nth_error lons i with
           | Some la, Some lo => [Trax.mkTraxRow id_ t la lo pm]
           | _, _ => []
           end
         else []).
Proof.
  assert ((n ← len (JList lats);
           if (i <? n)%nat then
             m ← len (JList lons);
             if (i <? m)%nat then
               la ← index (JList lats) i;
               lo ← index (JList lons) i;
               mret [Trax.mkTraxRow id_ t la lo pm]
             else mret []
           else mret [])
          = inr match nth_error lats i, nth_error lons i with
                | Some la, Some lo => [Trax.mkTraxRow id_ t la lo pm]
                | _, _ => []
                end) as H.
  { cbn [len mbind exn_bind index].
    destruct (Nat.ltb_spec i (length lats)) as [Hi|Hi].
    - destruct (Nat.ltb_spec i (length lons)) as [Hj|Hj].
      + apply nth_error_Some in Hi, Hj.
        destruct (nth_error lats i); [|contradiction].
        destruct (nth_error lons i); [|contradiction]. reflexivity.
      + apply nth_error_None in Hj. rewrite Hj.
        now destruct (nth_error lats i).
    - apply nth_error_None in Hi. now rewrite Hi. }
  destruct pm; try exact H. reflexivity.
Qed.

Lemma rows_from_list (id_ : Json) (lats lons : list Json)
    (pairs : list (Json * Json)) (i : nat) :
  exists rows,
    Trax.rows_from id_ (JList lats) (JList lons) i pairs = inr rows /\
    map Trax.pm25 rows
    = List.filter is_not_None
        (firstn (Nat.min (length lats) (length lons) - i)
                (map snd pairs)).
Proof.
  revert i. induction pairs as [|[t pm] pairs IH]; intros i.
  - exists []. split; [reflexivity|]. now rewrite firstn_nil.
  - destruct (IH (S i)) as (rest & Hrest & Hmap).
    cbn [Trax.rows_from]. rewrite row_at_list, Hrest.
    cbn [mbind exn_bind mret exn_ret]. eexists. split; [reflexivity|].
    rewrite map_app, Hmap. cbn [map snd].
    destruct (Nat.ltb_spec i (Nat.min (length lats) (length lons)))
      as [Hi|Hi].
    + replace (Nat.min (length lats) (length lons) - i)
        with (S (Nat.min (length lats) (length lons) - S i)) by lia.
      cbn [firstn List.filter].
      destruct (is_not_None pm); [|reflexivity].
      assert (i < length lats)%nat as H1 by lia.
      assert (i < length lons)%nat as H2 by lia.
      apply nth_error_Some in H1, H2.
      destruct (nth_error lats i); [|contradiction].
      destruct (nth_error lons i); [|contradiction]. reflexivity.
    + replace (Nat.min (length lats) (length lons) - i) with 0%nat by lia.
      replace (Nat.min (length lats) (length lons) - S i) with 0%nat
        by lia.
      cbn [firstn List.filter]. rewrite app_nil_r.
      destruct (is_not_None pm); [|reflexivity].
      destruct (Nat.min_dec (length lats) (length lons)) as [E|E];
        rewrite E in Hi; apply nth_error_None in Hi; rewrite Hi;
        [reflexivity|]. now destruct (nth_error lats i).
Qed.

Lemma snd_combine {A B : Type} (l : list A) (l' : list B) :
  map snd (combine l l') = firstn (length l) l'.
Proof.
  revert l'. induction l as [|a l IH]; intros [|b l']; simpl; try reflexivity.
  now rewrite IH.
Qed.
End SeriesFacts.

(** X20.  For a station whose observations hold lists of times, of
    latitudes, of longitudes and of readings, and no positions, the
    body of the loop of [process_trax_data] raises nothing and keeps, in
    their order, the readings that are
    not [None] among the first [m], where [m] is the length of the
    shortest of the three lists of times, latitudes and longitudes: the
    readings after these are left out. *)
Theorem readings_follow_the_shortest_series
    (float_of_str : string -> option float) (pm25_var pm_key : string)
    (station obs : list (string * PyJson.Json))
    (times lats lons vals : list PyJson.Json) :
  PyJson.dict_get station "OBSERVATIONS" = Some (PyJson.JDict obs) ->
  PyJson.dict_get obs "date_time" = Some (PyJson.JList times) ->
  PyJson.dict_get obs "position" = None ->
  PyJson.dict_get obs "latitude" = Some (PyJson.JList lats) ->
  PyJson.dict_get obs "longitude" = Some (PyJson.JList lons) ->
  Trax.find_pm_key obs pm25_var = Some pm_key ->
  pm_key <> EmptyString ->
  PyJson.dict_get obs pm_key = Some (PyJson.JList vals) ->
  exists rows,
    Trax.process_station float_of_str pm25_var (PyJson.JDict station)
    = inr rows /\
    map Trax.pm25 rows
    = List.filter is_not_None
        (firstn (Nat.min (Nat.min (length lats) (length lons))
                         (length times))
                vals).
Proof.
  intros Hobs Htimes Hpos Hlat Hlon Hkey Hne Hvals.
  unfold Trax.process_station.
  cbn [PyJson.get mbind PyJson.exn_bind]. rewrite Hobs.
  cbn [PyJson.keys mbind PyJson.exn_bind].
  rewrite Htimes. cbn [PyJson.len mbind PyJson.exn_bind].
  rewrite Hpos, Hlat, Hlon. cbn [mbind PyJson.exn_bind mret PyJson.exn_ret].
  rewrite Hkey. apply String.eqb_neq in Hne. rewrite Hne.
  cbn [PyJson.getitem]. rewrite Hvals.
  cbn [PyJson.len PyJson.iter mbind PyJson.exn_bind].
  destruct (rows_from_list
              match PyJson.dict_get station "STID" with
              | Some x => x
              | None => PyJson.JStr "Unknown"
              end lats lons (combine times vals) 0)
    as (rows & Hrows & Hmap).
  exists rows. split; [exact Hrows|].
  rewrite Hmap, snd_combine, Nat.sub_0_r, firstn_firstn. reflexivity.
Qed.

Lemma readings_follow_the_shortest_series_witness :
  exists rows,
    Trax.process_station DemoTrax.float_of_str "pm25"
      (PyJson.JDict
         [ ("STID", PyJson.JStr "TRX04");
           ("OBSERVATIONS",
            PyJson.JDict
              [ ("date_time",
                 PyJson.JList [ PyJson.JStr "00:00"; PyJson.JStr "00:01";
                                PyJson.JStr "00:02" ]);
                ("latitude",
                 PyJson.JList [ PyJson.JFloat 40.76; PyJson.JFloat 40.75 ]);
                ("longitude",
                 PyJson.JList [ PyJson.JFloat (-111.9);
                                PyJson.JFloat (-111.9);
                                PyJson.JFloat (-111.9) ]);
                ("pm25",
                 PyJson.JList [ PyJson.JNull; PyJson.JFloat 11;
                                PyJson.JFloat 13 ]) ]) ])
    = inr rows /\
    map Trax.pm25 rows
    = List.filter is_not_None
        (firstn (Nat.min (Nat.min
                            (length [ PyJson.JFloat 40.76;
                                      PyJson.JFloat 40.75 ])
                            (length [ PyJson.JFloat (-111.9);
                                      PyJson.JFloat (-111.9);
                                      PyJson.JFloat (-111.9) ]))
                         (length [ PyJson.JStr "00:00"; PyJson.JStr "00:01";
                                   PyJson.JStr "00:02" ]))
                [ PyJson.JNull; PyJson.JFloat 11; PyJson.JFloat 13 ]).
Proof.
  apply (readings_follow_the_shortest_series DemoTrax.float_of_str
           "pm25" "pm25" _
           [ ("date_time",
              PyJson.JList [ PyJson.JStr "00:00"; PyJson.JStr "00:01";
                             PyJson.JStr "00:02" ]);
             ("latitude",
              PyJson.JList [ PyJson.JFloat 40.76; PyJson.JFloat 40.75 ]);
             ("longitude",
              PyJson.JList [ PyJson.JFloat (-111.9);
                             PyJson.JFloat (-111.9);
                             PyJson.JFloat (-111.9) ]);
             ("pm25",
              PyJson.JList [ PyJson.JNull; PyJson.JFloat 11;
                             PyJson.JFloat 13 ]) ]).
  - reflexivity.
  - reflexivity.
  - reflexivity.
  - reflexivity.
  - reflexivity.
  - reflexivity.
  - discriminate.
  - reflexivity.
Defined.

(* ===================================================================== *)
(** * The census table of the EPA maps *)
(* ===================================================================== *)

Section ConversionFacts.
Import CalculateStatistics.
Variable to_numeric : string -> float.

Lemma fillna_fillna (v : list float) :
  fillna 0 (fillna 0 v) = fillna 0 v.
Proof.
  unfold fillna. rewrite map_map. apply map_ext. intros x.
  destruct (F64.isna x) eqn:E; [reflexivity|]. now rewrite E.
Qed.

Lemma frame_set_same_value (df : Frame) (c : string) (col : Column) :
  frame_get df c = inr col -> frame_set df c col = df.
Proof.
  induction df as [|[name old] df IH]; simpl; [discriminate|].
  destruct (String.eqb_spec c name) as [->|Hne].
  - intros H. now injection H as ->.
  - intros H. now rewrite IH.
Qed.

Lemma convert_columns_app (cols cols' : list string) (df : Frame) :
  convert_columns to_numeric (cols ++ cols') df
  = bind (convert_columns to_numeric cols df)
         (convert_columns to_numeric cols').
Proof.
  revert df. induction cols as [|c cols IH]; intros df; [reflexivity|].
  cbn [app convert_columns].
  destruct (frame_get df c) as [e|col]; cbn [bind]; [reflexivity|].
  apply IH.
Qed.

(** A converted column holds numbers, none of them NaN. *)
Lemma convert_columns_converted (cols : list string) (df df' : Frame)
    (c : string) :
  In c cols ->
  convert_columns to_numeric cols df = inr df' ->
  exists v, frame_get df' c = inr (NumCol (fillna 0 v)).
Proof.
  revert df. induction cols as [|c0 cols IH]; intros df Hc H;
    [destruct Hc|].
  cbn [convert_columns] in H.
  destruct (frame_get df c0) as [e|col] eqn:E; cbn [bind] in H;
    [discriminate|].
  destruct (in_dec string_dec c cols) as [Hin|Hout].
  - exact (IH _ Hin H).
  - destruct Hc as [->|Hc]; [|contradiction].
    rewrite (convert_columns_other to_numeric cols _ df' c Hout H).
    rewrite frame_get_set_same. eauto.
Qed.

Lemma convert_again (cols cols' : list string) (df df' : Frame) :
  incl cols' cols ->
  convert_columns to_numeric cols df = inr df' ->
  convert_columns to_numeric cols' df' = inr df'.
Proof.
  intros Hincl H. induction cols' as [|c cols' IH]; [reflexivity|].
  cbn [convert_columns].
  destruct (convert_columns_converted cols df df' c) as [v Hv];
    [apply Hincl; now left|exact H|].
  rewrite Hv. cbn [bind to_numeric_coerce]. rewrite fillna_fillna.
  rewrite (frame_set_same_value _ _ _ Hv). apply IH.
  intros x Hx. apply Hincl. now right.
Qed.
End ConversionFacts.

(** X21.  In EPADataAnalysis/main.py the loop of [process_census_data]
    converts the two columns of age 85 and over twice, since
    [all_age_columns] lists them after the twelve columns of age 65 and
    over that already hold them; the second conversion changes nothing:
    the function gives what it would give with the twelve columns
    converted once, and raises in the same cases. *)
Theorem second_conversion_changes_nothing
    (to_numeric : string -> float) (nansum : list float -> float)
    (df : CalculateStatistics.Frame) :
  CalculateStatistics.convert_columns to_numeric
    EPAPipeline.all_age_columns df
  = CalculateStatistics.convert_columns to_numeric
      EPAPipeline.age_65_plus_columns df /\
  EPAPipeline.process_census_data to_numeric nansum df
  = CalculateStatistics.bind
      (CalculateStatistics.convert_columns to_numeric
         EPAPipeline.age_65_plus_columns df)
      (EPAPipeline.after_conversion to_numeric nansum).
Proof.
  assert (CalculateStatistics.convert_columns to_numeric
            EPAPipeline.all_age_columns df
          = CalculateStatistics.convert_columns to_numeric
              EPAPipeline.age_65_plus_columns df) as E.
  { unfold EPAPipeline.all_age_columns. rewrite convert_columns_app.
    destruct (CalculateStatistics.convert_columns to_numeric
                EPAPipeline.age_65_plus_columns df) as [e|df'] eqn:E;
      [reflexivity|].
    cbn [CalculateStatistics.bind].
    apply (convert_again to_numeric EPAPipeline.age_65_plus_columns _ df);
      [|exact E].
    intros x Hx. unfold EPAPipeline.age_85_plus_columns in Hx.
    unfold EPAPipeline.age_65_plus_columns. simpl in Hx |- *.
    destruct Hx as [<-|[<-|[]]]; auto 20. }
  split; [exact E|]. unfold EPAPipeline.process_census_data. now rewrite E.
Qed.

Section EPACensusFacts.
Import CalculateStatistics.
Variable to_numeric : string -> float.
Variable nansum : list float -> float.

Lemma epa_census_names (df out : Frame) :
  EPAPipeline.process_census_data to_numeric nansum df = inr out ->
  names out = ["GEOID"; "NAME"; "pop_65_plus"; "pop_65_plus_pct";
               "pop_85_plus"; "pop_85_plus_pct"].
Proof.
  unfold EPAPipeline.process_census_data.
  destruct (convert_columns to_numeric EPAPipeline.all_age_columns df)
    as [e|df1]; cbn [bind]; [discriminate|].
  unfold EPAPipeline.after_conversion.
  repeat match goal with
         | |- bind ?m _ = inr _ -> _ =>
             let e := fresh "e" in let x := fresh "x" in
             destruct m as [e|x]; cbn [bind]; [discriminate|]
         end.
  apply frame_project_names.
Qed.
End EPACensusFacts.

(** X22.  The table [process_census_data] of EPADataAnalysis/main.py
    returns has the six columns [GEOID], [NAME], [pop_65_plus],
    [pop_65_plus_pct], [pop_85_plus] and [pop_85_plus_pct], so that for
    each age group that [age_config] knows, which are [65plus] and
    [85plus] and no other, the percentage and the count column that the
    maps select are columns of the table. *)
Theorem age_groups_select_columns_of_the_table
    (to_numeric : string -> float) (nansum : list float -> float)
    (df out : CalculateStatistics.Frame) (age_group : string) :
  EPAPipeline.process_census_data to_numeric nansum df = inr out ->
  names out = ["GEOID"; "NAME"; "pop_65_plus"; "pop_65_plus_pct";
               "pop_85_plus"; "pop_85_plus_pct"] /\
  match EPAPipeline.age_config age_group with
  | inr config =>
      (age_group = "65plus" \/ age_group = "85plus") /\
      In (EPAPipeline.pct_col config) (names out) /\
      In (EPAPipeline.count_col config) (names out)
  | inl e =>
      e = CalculateStatistics.KeyError age_group /\
      age_group <> "65plus" /\ age_group <> "85plus"
  end.
Proof.
  intros H. apply epa_census_names in H. split; [exact H|].
  rewrite H. unfold EPAPipeline.age_config.
  destruct (String.eqb_spec age_group "65plus") as [->|H65].
  - simpl. auto 10.
  - destruct (String.eqb_spec age_group "85plus") as [->|H85].
    + simpl. auto 10.
    + auto.
Qed.

Lemma age_groups_select_columns_of_the_table_witness :
  names demo_epa_table
  = ["GEOID"; "NAME"; "pop_65_plus"; "pop_65_plus_pct";
     "pop_85_plus"; "pop_85_plus_pct"] /\
  match EPAPipeline.age_config "85plus" with
  | inr config =>
      ("85plus" = "65plus" \/ "85plus" = "85plus") /\
      In (EPAPipeline.pct_col config) (names demo_epa_table) /\
      In (EPAPipeline.count_col config) (names demo_epa_table)
  | inl e =>
      e = CalculateStatistics.KeyError "85plus" /\
      "85plus" <> "65plus" /\ "85plus" <> "85plus"
  end.
Proof.
  apply (age_groups_select_columns_of_the_table DemoCensus.to_numeric
           DemoCensus.nansum DemoCensus.acs).
  vm_compute. reflexivity.
Defined.

(* ===================================================================== *)
(** * The analysis plots of the EPA records *)
(* ===================================================================== *)

Lemma filter_filter_same {A : Type} (p : A -> bool) (l : list A) :
  List.filter p (List.filter p l) = List.filter p l.
Proof.
  induction l as [|a l IH]; [reflexivity|]. simpl.
  destruct (p a) eqn:E; [|exact IH]. simpl. now rewrite E, IH.
Qed.

Lemma filter_all_false {A : Type} (p : A -> bool) (l : list A) :
  Forall (fun a => p a = false) l -> List.filter p l = [].
Proof.
  induction 1 as [|a l Ha _ IH]; [reflexivity|]. simpl. now rewrite Ha.
Qed.

(** X23.  The frame that [main] of EPADataAnalysis/main.py hands to
    [create_data_analysis_plots] is the one [process_epa_data] has
    already filtered, so the records of the inversion period that the
    plots single out are never a part of it: when the file has a record
    in the window they are the whole frame, and the overall and the
    inversion statistics are taken on the same records; otherwise the
    frame is the whole file, none of its records is singled out, and the
    table has no block for the inversion period. *)
Theorem plots_single_out_all_records_or_none
    (groupby_mean : list EPAMain.EpaRecord -> list EPAMain.EpaSite)
    (df : list EPAMain.EpaRecord) :
  let df_filtered := snd (fst (EPAMain.process_epa_data groupby_mean df)) in
  (Exists (fun r => EPAMain.in_window r = true) df ->
   EPAPlots.df_inversion df_filtered = df_filtered /\
   df_filtered <> [] /\
   EPAPlots.headings df_filtered
   = ["Overall Statistics"; "Inversion Period"; "By Site (Mean)"]) /\
  (Forall (fun r => EPAMain.in_window r = false) df ->
   EPAPlots.df_inversion df_filtered = [] /\
   df_filtered = df /\
   EPAPlots.headings df_filtered
   = ["Overall Statistics"; "By Site (Mean)"]).
Proof.
  assert (snd (fst (EPAMain.process_epa_data groupby_mean df))
          = match List.filter EPAMain.in_window df with
            | [] => df
            | kept => kept
            end) as ->.
  { unfold EPAMain.process_epa_data.
    now destruct (List.filter EPAMain.in_window df). }
  unfold EPAPlots.headings, EPAPlots.df_inversion. split.
  - intros H. apply List.Exists_exists in H as (x & Hx & Hw).
    assert (In x (List.filter EPAMain.in_window df)) as Hin
      by (apply filter_In; split; assumption).
    destruct (List.filter EPAMain.in_window df) as [|r l] eqn:E;
      [destruct Hin|].
    rewrite <- E, filter_filter_same, E.
    repeat split. discriminate.
  - intros H. apply filter_all_false in H. rewrite H, H. auto.
Qed.
